(** * DeepWalk trainer (examples/pytorch/deepwalk/deepwalk.py)

    A shallow embedding of [DeepwalkTrainer] and of the command-line table of
    deepwalk.py, with the properties of its learning-rate schedule, batch
    iteration, walk sharding, configuration check and argument parser.

    Conventions of the embedding.
    - Python [int] is [Z]; [%] is [Z.modulo] (both floor, sign of the divisor);
      [int(x)] on a quotient truncates toward zero ([Z.quot]).
    - Python [float] values (the learning rate and the two weights) are
      rationals [Q] with exact arithmetic: rounding of binary64 is abstracted.
      The quotients [len(walks) / batch_size] and [i * l / np_] are exact in
      binary64 for operands below 2^53, so [np.ceil] and [int] of them are the
      integer ceiling and truncation modelled here.
    - The collaborators that are not part of this file ([SkipGramModel],
      [DeepwalkDataset], [shuffle_walks], [np.random.choice], torch) are
      opaque: a call of [fast_learn_super] is recorded in a log, the shuffle
      and the random source are section variables.
    - [while True] loops run on fuel; every result about a completed run
      shows the fuel that suffices. *)

From Stdlib Require Import String Ascii ZArith QArith List Bool Lia Permutation.
Import ListNotations.
Local Open Scope Z_scope.

(* ------------------------------------------------------------------ *)
(** ** Python primitives used by the trainer *)

Module Py.

Inductive exn : Type :=
| AssertionError (msg : string)
| ZeroDivisionError
| ValueError.

(** Normalisation of one slice bound against a sequence of length [n]:
    a negative bound counts from the end, and both are clipped. *)
Definition slice_index (n k : Z) : Z :=
  if k <? 0 then Z.max 0 (k + n) else Z.min k n.

(** [l[lo:hi]] *)
Definition slice {A : Type} (l : list A) (lo hi : Z) : list A :=
  let n := Z.of_nat (length l) in
  let a := slice_index n lo in
  let b := slice_index n hi in
  firstn (Z.to_nat (b - a)) (skipn (Z.to_nat a) l).

(** [range(n)] *)
Definition range (n : Z) : list Z := map Z.of_nat (seq 0 (Z.to_nat n)).

(** [int(np.ceil(a / b))], [None] for the ZeroDivisionError of [a / 0]. *)
Definition ceil_div (a b : Z) : option Z :=
  if b =? 0 then None else Some (- ((- a) / b)).

(** [int(a / b)], [None] for the ZeroDivisionError of [a / 0]. *)
Definition int_div (a b : Z) : option Z :=
  if b =? 0 then None else Some (Z.quot a b).

(** [a % b] *)
Definition mod_ (a b : Z) : option Z :=
  if b =? 0 then None else Some (a mod b).

(** [sum] of a list of [bool]: the number of [True]. *)
Definition sum_bools (l : list bool) : Z :=
  fold_left (fun acc (b : bool) => acc + (if b then 1 else 0)) l 0.

End Py.

(* ------------------------------------------------------------------ *)
(** ** Data *)

(** A walk is a sequence of node indices. *)
Definition walk : Type := list Z.

(** The namespace [args] built by the parser at the end of deepwalk.py. *)
Record Args : Type := mkArgs {
  net_file : option string;
  emb_file : string;
  dim : Z;
  window_size : Z;
  num_walks : Z;
  negative : Z;
  iterations : Z;
  batch_size : Z;
  print_interval : Z;
  walk_length : Z;
  lr : Q;
  neg_weight : Q;
  lap_norm : Q;
  mix : bool;
  only_cpu : bool;
  only_gpu : bool;
  fast_neg : bool;
  adam : bool;
  sgd : bool;
  avg_sgd : bool;
  num_threads : Z;
  num_procs : Z
}.

(** What the trainer reads of [self.dataset] besides the walks:
    [len(self.dataset.net)] and [self.dataset.neg_table]. *)
Record Dataset : Type := mkDataset {
  net_len : Z;
  neg_table : list Z
}.

(** One call [self.emb_model.fast_learn_super(walks, lr, neg_nodes=...)];
    [lc_neg = None] is the call without [neg_nodes]. *)
Record LearnCall : Type := mkLearnCall {
  lc_walks : list walk;
  lc_lr : Q;
  lc_neg : option (list Z)
}.

(** One [mp.Process(target=self.fast_train_sp, args=(walks, i))], started. *)
Record Proc : Type := mkProc {
  proc_walks : list walk;
  proc_gpu : Z
}.

(** The state the trainer reads and writes. *)
Record World : Type := mkWorld {
  ds_walks : list walk;         (* self.dataset.walks *)
  learn_log : list LearnCall;   (* calls of fast_learn_super, oldest first *)
  n_shuffles : nat;             (* calls of shuffle_walks so far *)
  n_draws : nat;                (* calls of np.random.choice so far *)
  spawned : list Proc;          (* processes started, oldest first *)
  saved : nat                   (* calls of save_embedding so far *)
}.

(* ------------------------------------------------------------------ *)
(** ** A state-and-exception monad over [World] *)

Inductive result (A : Type) : Type :=
| Ret (a : A)
| Raise (e : Py.exn)
| OutOfFuel.
Arguments Ret {A} a.
Arguments Raise {A} e.
Arguments OutOfFuel {A}.

Definition M (A : Type) : Type := World -> result A * World.

Definition ret {A : Type} (a : A) : M A := fun w => (Ret a, w).

Definition raise {A : Type} (e : Py.exn) : M A := fun w => (Raise e, w).

Definition bind {A B : Type} (m : M A) (k : A -> M B) : M B :=
  fun w =>
    match m w with
    | (Ret a, w') => k a w'
    | (Raise e, w') => (Raise e, w')
    | (OutOfFuel, w') => (OutOfFuel, w')
    end.

Declare Scope trainer_scope.
Delimit Scope trainer_scope with trainer.
Notation "x <- c1 ;; c2" := (bind c1 (fun x => c2))
  (at level 61, c1 at next level, right associativity) : trainer_scope.
Notation "c1 ;; c2" := (bind c1 (fun _ => c2))
  (at level 61, right associativity) : trainer_scope.
Local Open Scope trainer_scope.

(** An arithmetic operation that raises ZeroDivisionError. *)
Definition or_zero_division {A : Type} (o : option A) : M A :=
  match o with
  | Some a => ret a
  | None => raise Py.ZeroDivisionError
  end.

(** [assert c, msg] *)
Definition assert_ (c : bool) (msg : string) : M unit :=
  if c then ret tt else raise (Py.AssertionError msg).

Definition get_walks : M (list walk) := fun w => (Ret (ds_walks w), w).

(** [self.emb_model.fast_learn_super(walks, lr, neg_nodes)] *)
Definition fast_learn_super (ws : list walk) (rate : Q) (neg : option (list Z)) : M unit :=
  fun w =>
    (Ret tt,
     mkWorld (ds_walks w) (learn_log w ++ [mkLearnCall ws rate neg])
             (n_shuffles w) (n_draws w) (spawned w) (saved w)).

(** [p = mp.Process(...); ps.append(p); p.start()] *)
Definition start_process (p : Proc) : M unit :=
  fun w =>
    (Ret tt,
     mkWorld (ds_walks w) (learn_log w) (n_shuffles w) (n_draws w)
             (spawned w ++ [p]) (saved w)).

(** [self.emb_model.save_embedding(self.dataset, self.args.emb_file)] *)
Definition save_embedding : M unit :=
  fun w =>
    (Ret tt,
     mkWorld (ds_walks w) (learn_log w) (n_shuffles w) (n_draws w)
             (spawned w) (S (saved w))).

(* ------------------------------------------------------------------ *)
(** ** The learning-rate schedule *)

(** The literal [0.00001]. *)
Definition lr_floor : Q := 1 # 100000.

(** [x < y] on floats. *)
Definition Qltb (x y : Q) : bool := negb (Qle_bool y x).

(** Lines 120-122 and 172-174:
    [lr = self.args.lr * (max_i - i) / max_i; if lr < 0.00001: lr = 0.00001].
    Dividing by [max_i = 0] raises ZeroDivisionError. *)
Definition decayed_lr (a : Args) (max_i i : Z) : M Q :=
  if max_i =? 0 then raise Py.ZeroDivisionError
  else
    let rate := (lr a * inject_Z (max_i - i) / inject_Z max_i)%Q in
    ret (if Qltb rate lr_floor then lr_floor else rate).

(** Lines 107-108 and 152-154: positive node pairs of one walk. *)
Definition num_pos_of (a : Args) : Z :=
  2 * walk_length a * window_size a - window_size a * (window_size a + 1).

(* ------------------------------------------------------------------ *)
(** ** DeepwalkTrainer *)

Section Trainer.

(** [utils.shuffle_walks]: the permutation its [k]-th call applies. *)
Variable shuffle_walks : nat -> list walk -> list walk.

(** The random source behind [np.random.choice]: the raw number its [k]-th
    call uses for the [j]-th sample. *)
Variable rand : nat -> nat -> nat.

(** [self.dataset.walks = shuffle_walks(self.dataset.walks)] *)
Definition shuffle_dataset : M unit :=
  fun w =>
    (Ret tt,
     mkWorld (shuffle_walks (n_shuffles w) (ds_walks w)) (learn_log w)
             (S (n_shuffles w)) (n_draws w) (spawned w) (saved w)).

(** [np.random.choice(tbl, size, replace=True)]: [size] elements of [tbl];
    ValueError for a negative size, and for an empty [tbl] unless no sample
    is taken. *)
Definition random_choice (tbl : list Z) (size : Z) : M (list Z) :=
  fun w =>
    if size <? 0 then (Raise Py.ValueError, w)
    else if Nat.eqb (length tbl) 0 && (0 <? size) then (Raise Py.ValueError, w)
    else
      (Ret (map (fun j => nth (Nat.modulo (rand (n_draws w) j) (length tbl)) tbl 0)
                (seq 0 (Z.to_nat size))),
       mkWorld (ds_walks w) (learn_log w) (n_shuffles w) (S (n_draws w))
               (spawned w) (saved w)).

(** Lines 30-69, the checks. After the three assertions the function
    builds the [SkipGramModel], calls [torch.set_num_threads] and places the
    model on a device: calls into [model] and [torch], which are taken to
    return and have no effect on the state modelled here. The line the
    function prints at its end (lines 61-69) is added by
    [init_device_emb_logged] below. *)
Definition init_device_emb (a : Args) : M unit :=
  let choices := Py.sum_bools [only_gpu a; only_cpu a; mix a] in
  assert_ (choices =? 1)
    "Must choose only *one* training mode in [only_cpu, only_gpu, mix]" ;;
  assert_ (num_procs a >=? 1)
    "The number of process must be larger than 1" ;;
  let choices := Py.sum_bools [sgd a; adam a; avg_sgd a] in
  assert_ (choices =? 1)
    "Must choose only *one* gradient descent strategy in [sgd, avg_sgd, adam]" ;;
  ret tt.

(** The [while True] loop of lines 118-147 and, with [self.dataset.walks]
    for [walks], of lines 170-199, without the progress block of lines
    143-145 and 195-197: the learning calls of the loop. [i] is the step
    counter on entry, the result is the counter on exit. The loop with the
    progress block, whose test [i % self.args.print_interval] can raise, is
    [training_loop_logged] below; what is said here about the calls a run
    makes holds of that loop too, whose calls are an initial segment of
    these, and what is said about a run returning is stated on that loop. *)
Fixpoint training_loop (fuel : nat) (a : Args) (ds : Dataset) (walks : list walk)
    (num_batches num_pos max_i i : Z) : M Z :=
  match fuel with
  | O => fun w => (OutOfFuel, w)
  | S fuel' =>
      rate <- decayed_lr a max_i i ;;
      i_ <- or_zero_division (Py.mod_ i num_batches) ;;
      let walks_ := Py.slice walks (i_ * batch_size a) ((1 + i_) * batch_size a) in
      if Nat.eqb (length walks_) 0 then ret i
      else
        (if fast_neg a then fast_learn_super walks_ rate None
         else
           let bs := Z.of_nat (length walks_) in
           neg_nodes <- random_choice (neg_table ds) (bs * num_pos * negative a) ;;
           fast_learn_super walks_ rate (Some neg_nodes)) ;;
        let i := i + 1 in
        if i_ =? num_batches - 1 then ret i
        else training_loop fuel' a ds walks num_batches num_pos max_i i
  end.

(** Lines 101-147, the learning calls: [training_loop] for the loop.
    [gpu_id] selects the device and labels the log lines; the decorator
    [thread_wrapped_func] runs the body in a thread and raises again what
    it raised. *)
Definition fast_train_sp (fuel : nat) (a : Args) (ds : Dataset)
    (walks : list walk) (gpu_id : Z) : M unit :=
  num_batches <- or_zero_division
                   (Py.ceil_div (Z.of_nat (length walks)) (batch_size a)) ;;
  let num_pos := num_pos_of a in
  let i := 0 in
  let max_i := iterations a * num_batches in
  _ <- training_loop fuel a ds walks num_batches num_pos max_i i ;;
  ret tt.

(** The [for iteration in range(self.args.iterations)] loop of lines
    166-199, [n] iterations to go. [self.dataset.walks] is assigned by the
    shuffle only, so it is read once per iteration. *)
Fixpoint epochs (n : nat) (fuel : nat) (a : Args) (ds : Dataset)
    (num_batches num_pos max_i i : Z) : M Z :=
  match n with
  | O => ret i
  | S n' =>
      shuffle_dataset ;;
      walks <- get_walks ;;
      i' <- training_loop fuel a ds walks num_batches num_pos max_i i ;;
      epochs n' fuel a ds num_batches num_pos max_i i'
  end.

(** Lines 149-202, the learning calls: [training_loop] for the loop. *)
Definition fast_train (fuel : nat) (a : Args) (ds : Dataset) : M unit :=
  let num_pos := num_pos_of a in
  num_batches <- or_zero_division
                   (Py.ceil_div (net_len ds * num_walks a) (batch_size a)) ;;
  init_device_emb a ;;
  let i := 0 in
  let max_i := iterations a * num_batches in
  _ <- epochs (Z.to_nat (iterations a)) fuel a ds num_batches num_pos max_i i ;;
  save_embedding.

(** The loop of lines 89-93 over the remaining process numbers [is_]. *)
Fixpoint start_workers (is_ : list Z) (walks : list walk) (l np_ : Z) : M unit :=
  match is_ with
  | [] => ret tt
  | i :: rest =>
      lo <- or_zero_division (Py.int_div (i * l) np_) ;;
      hi <- or_zero_division (Py.int_div ((i + 1) * l) np_) ;;
      start_process (mkProc (Py.slice walks lo hi) i) ;;
      start_workers rest walks l np_
  end.

(** Lines 80-93: the check, the shuffle and the loop that starts one process
    per shard. *)
Definition mp_start (a : Args) : M unit :=
  init_device_emb a ;;
  shuffle_dataset ;;
  walks <- get_walks ;;
  let l := Z.of_nat (length walks) in
  let np_ := num_procs a in
  start_workers (Py.range np_) walks l np_.

(** Lines 78-99, the parent's side: once the workers are started, [join]
    waits for each and the parent saves once. *)
Definition fast_train_mp (a : Args) : M unit :=
  mp_start a ;;
  save_embedding.

(** The state a started process begins with: a copy of the parent's, with a
    log and a process list of its own. *)
Definition forked (w : World) : World :=
  mkWorld (ds_walks w) [] (n_shuffles w) (n_draws w) [] (saved w).

(** What process [p], started from state [w], does: [fast_train_sp] on its
    shard. *)
Definition run_worker (fuel : nat) (a : Args) (ds : Dataset) (w : World) (p : Proc)
    : result unit * World :=
  fast_train_sp fuel a ds (proc_walks p) (proc_gpu p) (forked w).

(** The processes one [fast_train_mp] starts from state [w]. *)
Definition mp_procs (a : Args) (w : World) : list Proc :=
  skipn (length (spawned w)) (spawned (snd (mp_start a w))).

(** The runs of all workers of one [fast_train_mp], in starting order. Each
    run is the sequence of one worker's own calls; the order in which the
    calls of different workers reach the shared model is not modelled. *)
Definition mp_workers (fuel : nat) (a : Args) (ds : Dataset) (w : World)
    : list (result unit * World) :=
  map (run_worker fuel a ds (snd (mp_start a w))) (mp_procs a w).

(** Lines 71-76. *)
Definition train (fuel : nat) (a : Args) (ds : Dataset) : M unit :=
  if num_procs a >? 1 then fast_train_mp a else fast_train fuel a ds.

End Trainer.

(* ------------------------------------------------------------------ *)
(** ** The command line (lines 205-250)

    [argparse] is a library: what is modelled of it is how [parse_args]
    resolves each token against the table of options declared in
    deepwalk.py (exact name, or an unambiguous prefix of one; a value given
    as the next token or after [=]), and what each declared action stores.
    A token that resolves to no option, an ambiguous prefix, a missing value
    and a value its [type] refuses end the program: [None]. *)

Module Cli.

(** Assignments to the attributes of the namespace. *)
Definition set_net_file (v : option string) (a : Args) : Args :=
  mkArgs v (emb_file a) (dim a) (window_size a) (num_walks a) (negative a)
    (iterations a) (batch_size a) (print_interval a) (walk_length a) (lr a)
    (neg_weight a) (lap_norm a) (mix a) (only_cpu a) (only_gpu a) (fast_neg a) (adam a)
    (sgd a) (avg_sgd a) (num_threads a) (num_procs a).
Definition set_emb_file (v : string) (a : Args) : Args :=
  mkArgs (net_file a) v (dim a) (window_size a) (num_walks a) (negative a)
    (iterations a) (batch_size a) (print_interval a) (walk_length a) (lr a)
    (neg_weight a) (lap_norm a) (mix a) (only_cpu a) (only_gpu a) (fast_neg a) (adam a)
    (sgd a) (avg_sgd a) (num_threads a) (num_procs a).
Definition set_dim (v : Z) (a : Args) : Args :=
  mkArgs (net_file a) (emb_file a) v (window_size a) (num_walks a) (negative a)
    (iterations a) (batch_size a) (print_interval a) (walk_length a) (lr a)
    (neg_weight a) (lap_norm a) (mix a) (only_cpu a) (only_gpu a) (fast_neg a) (adam a)
    (sgd a) (avg_sgd a) (num_threads a) (num_procs a).
Definition set_window_size (v : Z) (a : Args) : Args :=
  mkArgs (net_file a) (emb_file a) (dim a) v (num_walks a) (negative a) (iterations a)
    (batch_size a) (print_interval a) (walk_length a) (lr a) (neg_weight a)
    (lap_norm a) (mix a) (only_cpu a) (only_gpu a) (fast_neg a) (adam a) (sgd a)
    (avg_sgd a) (num_threads a) (num_procs a).
Definition set_num_walks (v : Z) (a : Args) : Args :=
  mkArgs (net_file a) (emb_file a) (dim a) (window_size a) v (negative a)
    (iterations a) (batch_size a) (print_interval a) (walk_length a) (lr a)
    (neg_weight a) (lap_norm a) (mix a) (only_cpu a) (only_gpu a) (fast_neg a) (adam a)
    (sgd a) (avg_sgd a) (num_threads a) (num_procs a).
Definition set_negative (v : Z) (a : Args) : Args :=
  mkArgs (net_file a) (emb_file a) (dim a) (window_size a) (num_walks a) v
    (iterations a) (batch_size a) (print_interval a) (walk_length a) (lr a)
    (neg_weight a) (lap_norm a) (mix a) (only_cpu a) (only_gpu a) (fast_neg a) (adam a)
    (sgd a) (avg_sgd a) (num_threads a) (num_procs a).
Definition set_iterations (v : Z) (a : Args) : Args :=
  mkArgs (net_file a) (emb_file a) (dim a) (window_size a) (num_walks a) (negative a) v
    (batch_size a) (print_interval a) (walk_length a) (lr a) (neg_weight a)
    (lap_norm a) (mix a) (only_cpu a) (only_gpu a) (fast_neg a) (adam a) (sgd a)
    (avg_sgd a) (num_threads a) (num_procs a).
Definition set_batch_size (v : Z) (a : Args) : Args :=
  mkArgs (net_file a) (emb_file a) (dim a) (window_size a) (num_walks a) (negative a)
    (iterations a) v (print_interval a) (walk_length a) (lr a) (neg_weight a)
    (lap_norm a) (mix a) (only_cpu a) (only_gpu a) (fast_neg a) (adam a) (sgd a)
    (avg_sgd a) (num_threads a) (num_procs a).
Definition set_print_interval (v : Z) (a : Args) : Args :=
  mkArgs (net_file a) (emb_file a) (dim a) (window_size a) (num_walks a) (negative a)
    (iterations a) (batch_size a) v (walk_length a) (lr a) (neg_weight a) (lap_norm a)
    (mix a) (only_cpu a) (only_gpu a) (fast_neg a) (adam a) (sgd a) (avg_sgd a)
    (num_threads a) (num_procs a).
Definition set_walk_length (v : Z) (a : Args) : Args :=
  mkArgs (net_file a) (emb_file a) (dim a) (window_size a) (num_walks a) (negative a)
    (iterations a) (batch_size a) (print_interval a) v (lr a) (neg_weight a)
    (lap_norm a) (mix a) (only_cpu a) (only_gpu a) (fast_neg a) (adam a) (sgd a)
    (avg_sgd a) (num_threads a) (num_procs a).
Definition set_lr (v : Q) (a : Args) : Args :=
  mkArgs (net_file a) (emb_file a) (dim a) (window_size a) (num_walks a) (negative a)
    (iterations a) (batch_size a) (print_interval a) (walk_length a) v (neg_weight a)
    (lap_norm a) (mix a) (only_cpu a) (only_gpu a) (fast_neg a) (adam a) (sgd a)
    (avg_sgd a) (num_threads a) (num_procs a).
Definition set_neg_weight (v : Q) (a : Args) : Args :=
  mkArgs (net_file a) (emb_file a) (dim a) (window_size a) (num_walks a) (negative a)
    (iterations a) (batch_size a) (print_interval a) (walk_length a) (lr a) v
    (lap_norm a) (mix a) (only_cpu a) (only_gpu a) (fast_neg a) (adam a) (sgd a)
    (avg_sgd a) (num_threads a) (num_procs a).
Definition set_lap_norm (v : Q) (a : Args) : Args :=
  mkArgs (net_file a) (emb_file a) (dim a) (window_size a) (num_walks a) (negative a)
    (iterations a) (batch_size a) (print_interval a) (walk_length a) (lr a)
    (neg_weight a) v (mix a) (only_cpu a) (only_gpu a) (fast_neg a) (adam a) (sgd a)
    (avg_sgd a) (num_threads a) (num_procs a).
Definition set_mix (v : bool) (a : Args) : Args :=
  mkArgs (net_file a) (emb_file a) (dim a) (window_size a) (num_walks a) (negative a)
    (iterations a) (batch_size a) (print_interval a) (walk_length a) (lr a)
    (neg_weight a) (lap_norm a) v (only_cpu a) (only_gpu a) (fast_neg a) (adam a)
    (sgd a) (avg_sgd a) (num_threads a) (num_procs a).
Definition set_only_cpu (v : bool) (a : Args) : Args :=
  mkArgs (net_file a) (emb_file a) (dim a) (window_size a) (num_walks a) (negative a)
    (iterations a) (batch_size a) (print_interval a) (walk_length a) (lr a)
    (neg_weight a) (lap_norm a) (mix a) v (only_gpu a) (fast_neg a) (adam a) (sgd a)
    (avg_sgd a) (num_threads a) (num_procs a).
Definition set_only_gpu (v : bool) (a : Args) : Args :=
  mkArgs (net_file a) (emb_file a) (dim a) (window_size a) (num_walks a) (negative a)
    (iterations a) (batch_size a) (print_interval a) (walk_length a) (lr a)
    (neg_weight a) (lap_norm a) (mix a) (only_cpu a) v (fast_neg a) (adam a) (sgd a)
    (avg_sgd a) (num_threads a) (num_procs a).
Definition set_fast_neg (v : bool) (a : Args) : Args :=
  mkArgs (net_file a) (emb_file a) (dim a) (window_size a) (num_walks a) (negative a)
    (iterations a) (batch_size a) (print_interval a) (walk_length a) (lr a)
    (neg_weight a) (lap_norm a) (mix a) (only_cpu a) (only_gpu a) v (adam a) (sgd a)
    (avg_sgd a) (num_threads a) (num_procs a).
Definition set_adam (v : bool) (a : Args) : Args :=
  mkArgs (net_file a) (emb_file a) (dim a) (window_size a) (num_walks a) (negative a)
    (iterations a) (batch_size a) (print_interval a) (walk_length a) (lr a)
    (neg_weight a) (lap_norm a) (mix a) (only_cpu a) (only_gpu a) (fast_neg a) v
    (sgd a) (avg_sgd a) (num_threads a) (num_procs a).
Definition set_sgd (v : bool) (a : Args) : Args :=
  mkArgs (net_file a) (emb_file a) (dim a) (window_size a) (num_walks a) (negative a)
    (iterations a) (batch_size a) (print_interval a) (walk_length a) (lr a)
    (neg_weight a) (lap_norm a) (mix a) (only_cpu a) (only_gpu a) (fast_neg a) (adam a)
    v (avg_sgd a) (num_threads a) (num_procs a).
Definition set_avg_sgd (v : bool) (a : Args) : Args :=
  mkArgs (net_file a) (emb_file a) (dim a) (window_size a) (num_walks a) (negative a)
    (iterations a) (batch_size a) (print_interval a) (walk_length a) (lr a)
    (neg_weight a) (lap_norm a) (mix a) (only_cpu a) (only_gpu a) (fast_neg a) (adam a)
    (sgd a) v (num_threads a) (num_procs a).
Definition set_num_threads (v : Z) (a : Args) : Args :=
  mkArgs (net_file a) (emb_file a) (dim a) (window_size a) (num_walks a) (negative a)
    (iterations a) (batch_size a) (print_interval a) (walk_length a) (lr a)
    (neg_weight a) (lap_norm a) (mix a) (only_cpu a) (only_gpu a) (fast_neg a) (adam a)
    (sgd a) (avg_sgd a) v (num_procs a).
Definition set_num_procs (v : Z) (a : Args) : Args :=
  mkArgs (net_file a) (emb_file a) (dim a) (window_size a) (num_walks a) (negative a)
    (iterations a) (batch_size a) (print_interval a) (walk_length a) (lr a)
    (neg_weight a) (lap_norm a) (mix a) (only_cpu a) (only_gpu a) (fast_neg a) (adam a)
    (sgd a) (avg_sgd a) (num_threads a) v.

(** What an option stores: the [type=] and [action=] columns. *)
Inductive action : Type :=
| Store_str (set : string -> Args -> Args)
| Store_int (set : Z -> Args -> Args)
| Store_float (set : Q -> Args -> Args)
| Store_true (set : bool -> Args -> Args).

(** The [add_argument] calls, in order. *)
Definition options : list (string * action) :=
  [ ("--net_file", Store_str (fun v => set_net_file (Some v)));
    ("--emb_file", Store_str set_emb_file);
    ("--dim", Store_int set_dim);
    ("--window_size", Store_int set_window_size);
    ("--num_walks", Store_int set_num_walks);
    ("--negative", Store_int set_negative);
    ("--iterations", Store_int set_iterations);
    ("--batch_size", Store_int set_batch_size);
    ("--print_interval", Store_int set_print_interval);
    ("--walk_length", Store_int set_walk_length);
    ("--lr", Store_float set_lr);
    ("--neg_weight", Store_float set_neg_weight);
    ("--lap_norm", Store_float set_lap_norm);
    ("--mix", Store_true set_mix);
    ("--only_cpu", Store_true set_only_cpu);
    ("--only_gpu", Store_true set_only_gpu);
    ("--fast_neg", Store_true set_fast_neg);
    ("--adam", Store_true set_adam);
    ("--sgd", Store_true set_sgd);
    ("--avg_sgd", Store_true set_avg_sgd);
    ("--num_threads", Store_int set_num_threads);
    ("--num_procs", Store_int set_num_procs) ]%string.

(** The [default=] column ([net_file] has none: [None]). *)
Definition defaults : Args :=
  mkArgs None "emb.txt" 128 5 10 5 1 10 1000 80 (2 # 10) 1 (1 # 100)
         false false false true false false false 8 1.

(** [name=value] split at the first [=]. *)
Fixpoint split_eq (s : string) : string * option string :=
  match s with
  | EmptyString => (EmptyString, None)
  | String c s' =>
      if Ascii.eqb c "="%char then (EmptyString, Some s')
      else let (n, v) := split_eq s' in (String c n, v)
  end.

(** The option a name stands for: the one of that name, else the only one
    the name is a prefix of. *)
Definition resolve (name : string) : option action :=
  match find (fun o => String.eqb (fst o) name) options with
  | Some o => Some (snd o)
  | None =>
      match filter (fun o => String.prefix name (fst o)) options with
      | [o] => Some (snd o)
      | _ => None
      end
  end.

Section Parser.

(** [int(s)] and [float(s)], [None] for their ValueError. *)
Variable py_int : string -> option Z.
Variable py_float : string -> option Q.

(** An option with a value stores the converted value; [store_true] takes
    none. *)
Definition store (act : action) (v : string) (a : Args) : option Args :=
  match act with
  | Store_str set => Some (set v a)
  | Store_int set => option_map (fun n => set n a) (py_int v)
  | Store_float set => option_map (fun x => set x a) (py_float v)
  | Store_true _ => None
  end.

Fixpoint parse (argv : list string) (a : Args) : option Args :=
  match argv with
  | [] => Some a
  | tok :: rest =>
      if String.eqb tok "--" then
        match rest with [] => Some a | _ :: _ => None end
      else
        let (name, explicit) := split_eq tok in
        match resolve name with
        | None => None
        | Some (Store_true set) =>
            match explicit with
            | Some _ => None
            | None => parse rest (set true a)
            end
        | Some act =>
            match explicit with
            | Some v =>
                match store act v a with
                | Some a' => parse rest a'
                | None => None
                end
            | None =>
                match rest with
                | v :: rest' =>
                    match store act v a with
                    | Some a' => parse rest' a'
                    | None => None
                    end
                | [] => None
                end
            end
        end
  end.

(** [args = parser.parse_args()] on the tokens after the program name. *)
Definition parse_args (argv : list string) : option Args := parse argv defaults.

End Parser.

End Cli.

(* ================================================================== *)
(** * Properties *)

(* ------------------------------------------------------------------ *)
(** ** Slices *)

Section SliceFacts.

Context {A : Type}.

(** A slice with bounds [0 <= lo <= hi] drops [lo] elements and keeps
    [hi - lo]. *)
Lemma slice_forward (l : list A) (lo hi : Z) :
  0 <= lo <= hi ->
  Py.slice l lo hi = firstn (Z.to_nat (hi - lo)) (skipn (Z.to_nat lo) l).
Proof.
  intros [Hlo Hhi]. unfold Py.slice, Py.slice_index.
  destruct (Z.ltb_spec lo 0) as [?|_]; [lia|].
  destruct (Z.ltb_spec hi 0) as [?|_]; [lia|].
  set (n := Z.of_nat (length l)).
  destruct (Z.le_gt_cases n lo) as [Hn|Hn].
  - rewrite (Z.min_r lo n) by lia.
    rewrite !skipn_all2 by lia. now rewrite !firstn_nil.
  - rewrite (Z.min_l lo n) by lia.
    destruct (Z.le_gt_cases hi n) as [Hh|Hh].
    + now rewrite (Z.min_l hi n) by lia.
    + rewrite (Z.min_r hi n) by lia.
      rewrite !firstn_all2; trivial; rewrite length_skipn; lia.
Qed.

(** A forward slice is empty exactly when it starts at or after the end, or
    has no width. *)
Lemma slice_nonempty (l : list A) (lo hi : Z) :
  0 <= lo < hi -> lo < Z.of_nat (length l) -> Py.slice l lo hi <> [].
Proof.
  intros H Hl E. apply (f_equal (@length A)) in E.
  rewrite slice_forward, length_firstn, length_skipn in E by lia.
  simpl in E. lia.
Qed.

Lemma firstn_chunk (l : list A) (a b : nat) :
  (a <= b)%nat -> firstn a l ++ firstn (b - a) (skipn a l) = firstn b l.
Proof.
  intros H. rewrite firstn_skipn_comm.
  replace (a + (b - a))%nat with b by lia.
  transitivity (firstn a (firstn b l) ++ skipn a (firstn b l)).
  - f_equal. rewrite firstn_firstn. f_equal. lia.
  - apply firstn_skipn.
Qed.

(** Consecutive pieces cut at non-decreasing points [c 0 = 0, c 1, ...]
    concatenate to the prefix they cover. *)
Lemma concat_cuts (l : list A) (c : nat -> nat) (n : nat) :
  c 0%nat = 0%nat ->
  (forall i, (i < n)%nat -> (c i <= c (S i))%nat) ->
  concat (map (fun i => firstn (c (S i) - c i) (skipn (c i) l)) (seq 0 n))
  = firstn (c n) l.
Proof.
  intros H0. induction n as [|n IH]; intros Hmono.
  - simpl. now rewrite H0.
  - rewrite seq_S, map_app, concat_app, IH by (intros; apply Hmono; lia).
    simpl. rewrite app_nil_r. apply firstn_chunk, Hmono. lia.
Qed.

End SliceFacts.

(* ------------------------------------------------------------------ *)
(** ** The cut points of the shards *)

Lemma cut_quot (l p i : Z) :
  0 <= l -> 0 < p -> 0 <= i -> Z.quot (i * l) p = i * l / p.
Proof. intros. apply Z.quot_div_nonneg; nia. Qed.

Lemma cut_mono (l p i j : Z) :
  0 <= l -> 0 < p -> i <= j -> i * l / p <= j * l / p.
Proof. intros. apply Z.div_le_mono; nia. Qed.

Lemma cut_bounds (l p i : Z) :
  0 <= l -> 0 < p -> 0 <= i <= p -> 0 <= i * l / p <= l.
Proof.
  intros Hl Hp Hi. split.
  - apply Z.div_pos; nia.
  - apply Z.div_le_upper_bound; nia.
Qed.

Lemma cut_last (l p : Z) : 0 < p -> p * l / p = l.
Proof. intros. rewrite Z.mul_comm. apply Z.div_mul. lia. Qed.

(** The shard that holds index [j]. *)
Lemma cut_owner (l p j : Z) :
  0 < p -> 0 <= j < l ->
  exists i, 0 <= i < p /\ i * l / p <= j < (i + 1) * l / p.
Proof.
  intros Hp Hj. exists (((j + 1) * p - 1) / l).
  assert (Hl : 0 < l) by lia.
  pose proof (Z.mul_div_le ((j + 1) * p - 1) l Hl) as H1.
  pose proof (Z.mul_succ_div_gt ((j + 1) * p - 1) l Hl) as H2.
  set (i := ((j + 1) * p - 1) / l) in *.
  assert (Hi0 : 0 <= i) by (apply Z.div_pos; nia).
  assert (Hi1 : i < p) by (apply Z.div_lt_upper_bound; nia).
  repeat split; trivial.
  - apply Z.lt_succ_r, Z.div_lt_upper_bound; nia.
  - apply Z.lt_le_trans with (j + 1); [lia|].
    apply Z.div_le_lower_bound; nia.
Qed.

Lemma cut_owner_unique (l p j i i' : Z) :
  0 <= l -> 0 < p ->
  i * l / p <= j < (i + 1) * l / p ->
  i' * l / p <= j < (i' + 1) * l / p ->
  i = i'.
Proof.
  intros Hl Hp H H'.
  destruct (Z.lt_trichotomy i i') as [Hlt|[->|Hlt]]; trivial; exfalso.
  - pose proof (cut_mono l p (i + 1) i' Hl Hp). lia.
  - pose proof (cut_mono l p (i' + 1) i Hl Hp). lia.
Qed.

(* ------------------------------------------------------------------ *)
(** ** The shards of [fast_train_mp] *)

(** The process started for shard [i] of [p] over the walk list [ws]:
    [ws[int(i*l/p) : int((i+1)*l/p)]] with [l = len(ws)]. *)
Definition shard_of (ws : list walk) (p i : Z) : Proc :=
  let l := Z.of_nat (length ws) in
  mkProc (Py.slice ws (Z.quot (i * l) p) (Z.quot ((i + 1) * l) p)) i.

Definition with_spawned (w : World) (ps : list Proc) : World :=
  mkWorld (ds_walks w) (learn_log w) (n_shuffles w) (n_draws w)
          (spawned w ++ ps) (saved w).

Lemma with_spawned_nil (w : World) : with_spawned w [] = w.
Proof. destruct w. unfold with_spawned. simpl. now rewrite app_nil_r. Qed.

(** The loop of lines 89-93 starts one process per index, on its shard. *)
Lemma start_workers_run (ws : list walk) (p : Z) (is_ : list Z) (w : World) :
  p <> 0 ->
  start_workers is_ ws (Z.of_nat (length ws)) p w
  = (Ret tt, with_spawned w (map (shard_of ws p) is_)).
Proof.
  intros Hp. revert w. induction is_ as [|i rest IH]; intros w.
  - simpl. now rewrite with_spawned_nil.
  - simpl. unfold bind, or_zero_division, Py.int_div.
    destruct (Z.eqb_spec p 0) as [?|_]; [contradiction|].
    unfold ret, start_process. rewrite IH.
    f_equal. unfold with_spawned. simpl. now rewrite <- app_assoc.
Qed.

(** The walks of the shards, as pieces of [ws] cut at [i * l / p]. *)
Definition cut_nat (ws : list walk) (p : Z) (i : nat) : nat :=
  Z.to_nat (Z.of_nat i * Z.of_nat (length ws) / p).

Lemma shard_walks_cuts (ws : list walk) (p : Z) (n : nat) :
  0 < p -> Z.of_nat n <= p ->
  map proc_walks (map (shard_of ws p) (map Z.of_nat (seq 0 n)))
  = map (fun i => firstn (cut_nat ws p (S i) - cut_nat ws p i)
                         (skipn (cut_nat ws p i) ws)) (seq 0 n).
Proof.
  intros Hp Hn. rewrite !map_map. apply map_ext_in.
  intros i Hi. apply in_seq in Hi. unfold shard_of. simpl proc_walks.
  set (l := Z.of_nat (length ws)).
  assert (Hl : 0 <= l) by (unfold l; lia).
  rewrite !cut_quot by lia.
  pose proof (cut_bounds l p (Z.of_nat i) Hl Hp) as B1.
  pose proof (cut_mono l p (Z.of_nat i) (Z.of_nat i + 1) Hl Hp) as B2.
  rewrite slice_forward by lia.
  unfold cut_nat. fold l. rewrite Nat2Z.inj_succ, <- Z.add_1_r.
  now rewrite Z2Nat.inj_sub by lia.
Qed.

Lemma shards_concat (ws : list walk) (p : Z) :
  0 < p -> concat (map proc_walks (map (shard_of ws p) (Py.range p))) = ws.
Proof.
  intros Hp. unfold Py.range.
  rewrite shard_walks_cuts by lia.
  rewrite (concat_cuts ws (cut_nat ws p)).
  - unfold cut_nat. rewrite Z2Nat.id by lia. rewrite cut_last by lia.
    rewrite Nat2Z.id. apply firstn_all.
  - reflexivity.
  - intros i Hi. unfold cut_nat. apply Z2Nat.inj_le.
    + apply Z.div_pos; nia.
    + apply Z.div_pos; nia.
    + rewrite Nat2Z.inj_succ. apply cut_mono; lia.
Qed.

(** The element at index [j] of the walk list is the element at
    [j - lo] of the slice [[lo, hi)] that holds [j]. *)
Lemma slice_nth_error {A : Type} (l : list A) (lo hi j : Z) :
  0 <= lo -> lo <= j < hi ->
  nth_error (Py.slice l lo hi) (Z.to_nat (j - lo)) = nth_error l (Z.to_nat j).
Proof.
  intros Hlo Hj. rewrite slice_forward by lia.
  rewrite nth_error_firstn.
  destruct (Nat.ltb_spec (Z.to_nat (j - lo)) (Z.to_nat (hi - lo))) as [_|?]; [|lia].
  rewrite nth_error_skipn. f_equal. lia.
Qed.

(** C2. In multi-process mode the loop that starts the workers completes
    for every walk list [ws] and every process count [p >= 1]; it starts the
    [p] shards [ws[int(i*l/p) : int((i+1)*l/p)]], which taken in order are
    the walk list itself, and every index below [l] lies in exactly one of
    the index ranges of the shards, where the shard has the walk of that
    index. *)
Theorem mp_shards_disjoint_cover (ws : list walk) (p : Z) (w : World) :
  1 <= p ->
  let l := Z.of_nat (length ws) in
  let lo := fun i => Z.quot (i * l) p in
  let hi := fun i => Z.quot ((i + 1) * l) p in
  let procs := map (fun i => mkProc (Py.slice ws (lo i) (hi i)) i) (Py.range p) in
  start_workers (Py.range p) ws l p w = (Ret tt, with_spawned w procs)
  /\ Z.of_nat (length procs) = p
  /\ concat (map proc_walks procs) = ws
  /\ (forall j, 0 <= j < l ->
        exists! i, 0 <= i < p /\ lo i <= j < hi i)
  /\ (forall i j, 0 <= i < p -> lo i <= j < hi i ->
        nth_error (Py.slice ws (lo i) (hi i)) (Z.to_nat (j - lo i))
        = nth_error ws (Z.to_nat j)).
Proof.
  intros Hp l lo hi procs.
  assert (Hl : 0 <= l) by (unfold l; lia).
  assert (Hlo : forall i, 0 <= i -> lo i = i * l / p)
    by (intros; unfold lo; apply cut_quot; lia).
  assert (Hhi : forall i, 0 <= i -> hi i = (i + 1) * l / p)
    by (intros; unfold hi; apply cut_quot; lia).
  split; [|split; [|split; [|split]]].
  - unfold l. rewrite start_workers_run by lia. reflexivity.
  - unfold procs, Py.range. rewrite !length_map, length_seq. lia.
  - apply (shards_concat ws p). lia.
  - intros j Hj. destruct (cut_owner l p j) as [i [Hi Hij]]; [lia|lia|].
    exists i. split.
    + rewrite Hlo, Hhi by lia. auto.
    + intros i' [Hi' Hij']. rewrite Hlo, Hhi in Hij' by lia.
      apply (cut_owner_unique l p j); trivial; lia.
  - intros i j Hi Hij. apply slice_nth_error; trivial.
    rewrite Hlo by lia. apply Z.div_pos; nia.
Qed.

(** At two processes and five walks: shards of two and three walks. *)
Lemma mp_shards_disjoint_cover_witness :
  let ws : list walk := [[0]; [1]; [2]; [3]; [4]] in
  let w := mkWorld ws [] 0 0 [] 0 in
  start_workers (Py.range 2) ws 5 2 w
  = (Ret tt, with_spawned w [mkProc [[0]; [1]] 0; mkProc [[2]; [3]; [4]] 1]).
Proof.
  intros ws w.
  exact (proj1 (mp_shards_disjoint_cover ws 2 w ltac:(lia))).
Defined.

(* ------------------------------------------------------------------ *)
(** ** The training loop *)

(** The rate [decayed_lr] returns at step [i] for a horizon [max_i <> 0]. *)
Definition lr_value (a : Args) (max_i i : Z) : Q :=
  let rate := (lr a * inject_Z (max_i - i) / inject_Z max_i)%Q in
  if Qltb rate lr_floor then lr_floor else rate.

(** What the negative samples of a learning call are: none in fast mode,
    else [len(batch) * num_pos * negative] entries of the table. *)
Definition neg_ok (a : Args) (ds : Dataset) (num_pos : Z) (c : LearnCall) : Prop :=
  if fast_neg a then lc_neg c = None
  else exists l,
      lc_neg c = Some l
      /\ Z.of_nat (length l) = Z.of_nat (length (lc_walks c)) * num_pos * negative a
      /\ Forall (fun x => In x (neg_table ds)) l.

(** What the learning call made at counter [i] is. *)
Definition step_ok (a : Args) (ds : Dataset) (walks : list walk)
    (num_batches num_pos max_i i : Z) (c : LearnCall) : Prop :=
  max_i <> 0 /\ num_batches <> 0
  /\ lc_lr c = lr_value a max_i i
  /\ lc_walks c = Py.slice walks ((i mod num_batches) * batch_size a)
                                 ((1 + i mod num_batches) * batch_size a)
  /\ lc_walks c <> []
  /\ neg_ok a ds num_pos c.

(** [P] holds of consecutive calls, the first made at counter [i]. *)
Fixpoint steps_from (P : Z -> LearnCall -> Prop) (i : Z) (cs : list LearnCall) : Prop :=
  match cs with
  | [] => True
  | c :: cs' => P i c /\ steps_from P (i + 1) cs'
  end.

Lemma steps_from_app (P : Z -> LearnCall -> Prop) (cs cs' : list LearnCall) (i : Z) :
  steps_from P i (cs ++ cs')
  <-> steps_from P i cs /\ steps_from P (i + Z.of_nat (length cs)) cs'.
Proof.
  revert i. induction cs as [|c cs IH]; intros i; simpl.
  - rewrite Z.add_0_r. tauto.
  - rewrite IH. replace (i + 1 + Z.of_nat (length cs)) with (i + Z.pos (Pos.of_succ_nat (length cs))) by lia.
    tauto.
Qed.

Lemma steps_from_nth (P : Z -> LearnCall -> Prop) (cs : list LearnCall) (i : Z)
    (k : nat) (c : LearnCall) :
  steps_from P i cs -> nth_error cs k = Some c -> P (i + Z.of_nat k) c.
Proof.
  revert i k. induction cs as [|c0 cs IH]; intros i [|k] H E; simpl in *; try discriminate.
  - injection E as <-. rewrite Z.add_0_r. tauto.
  - destruct H as [_ H]. specialize (IH _ _ H E).
    now replace (i + Z.pos (Pos.of_succ_nat k)) with (i + 1 + Z.of_nat k) by lia.
Qed.

Lemma steps_from_impl (P R : Z -> LearnCall -> Prop) (cs : list LearnCall) (i : Z) :
  (forall j c, i <= j -> P j c -> R j c) -> steps_from P i cs -> steps_from R i cs.
Proof.
  revert i. induction cs as [|c cs IH]; intros i H; simpl; trivial.
  intros [H1 H2]. split.
  - apply H; [lia | trivial].
  - apply IH; trivial. intros j c' Hj. apply H. lia.
Qed.

(** The fields a training loop leaves as they are. *)
Definition same_frame (w w' : World) : Prop :=
  ds_walks w' = ds_walks w /\ n_shuffles w' = n_shuffles w
  /\ spawned w' = spawned w /\ saved w' = saved w.

Lemma same_frame_refl (w : World) : same_frame w w.
Proof. unfold same_frame. tauto. Qed.

Lemma same_frame_trans (w1 w2 w3 : World) :
  same_frame w1 w2 -> same_frame w2 w3 -> same_frame w1 w3.
Proof. unfold same_frame. intuition congruence. Qed.

(** The sampling of line 136-139 either raises and leaves the log as it is,
    or returns the requested number of table entries. *)
Lemma random_choice_spec (rand : nat -> nat -> nat) (tbl : list Z) (size : Z)
    (w : World) (r : result (list Z)) (w' : World) :
  random_choice rand tbl size w = (r, w') ->
  learn_log w' = learn_log w /\ same_frame w w'
  /\ match r with
     | Ret l => Z.of_nat (length l) = size /\ Forall (fun x => In x tbl) l
     | Raise _ => True
     | OutOfFuel => False
     end.
Proof.
  unfold random_choice.
  destruct (Z.ltb_spec size 0) as [Hs|Hs].
  { intros [= <- <-]. auto using same_frame_refl. }
  destruct (Nat.eqb_spec (length tbl) 0) as [Ht|Ht]; simpl andb.
  - destruct (Z.ltb_spec 0 size) as [Hp|Hp]; intros [= <- <-]; simpl.
    + auto using same_frame_refl.
    + split; [reflexivity|]. split; [unfold same_frame; simpl; tauto|].
      replace size with 0 by lia. simpl. auto.
  - intros [= <- <-]. simpl. split; [reflexivity|].
    split; [unfold same_frame; simpl; tauto|].
    rewrite length_map, length_seq. split; [lia|].
    apply Forall_map, Forall_forall. intros j _.
    apply nth_In. apply Nat.mod_upper_bound. exact Ht.
Qed.

Lemma mod_succ (i n : Z) :
  0 < n -> i mod n <> n - 1 -> (i + 1) mod n = i mod n + 1.
Proof.
  intros Hn Hi. symmetry. apply Z.mod_unique with (q := i / n).
  - left. pose proof (Z.mod_pos_bound i n Hn). lia.
  - rewrite (Z.div_mod i n) at 1 by lia. lia.
Qed.

(** [int(np.ceil(a / b))] for a positive [b] is the least [q] with
    [a <= q * b]. *)
Lemma ceil_div_spec (a b q : Z) :
  0 < b -> Py.ceil_div a b = Some q -> (q - 1) * b < a <= q * b.
Proof.
  intros Hb. unfold Py.ceil_div.
  destruct (Z.eqb_spec b 0) as [?|_]; [lia|]. intros [= <-].
  pose proof (Z.mul_div_le (- a) b Hb).
  pose proof (Z.mul_succ_div_gt (- a) b Hb). nia.
Qed.

Lemma ceil_div_some (a b : Z) : b <> 0 -> exists q, Py.ceil_div a b = Some q.
Proof.
  intros Hb. unfold Py.ceil_div.
  destruct (Z.eqb_spec b 0) as [?|_]; [contradiction|]. eauto.
Qed.

(** The table sampling cannot raise: [fast_neg] is on, or the number of
    samples per walk is not negative and the table is not empty unless that
    number is zero. *)
Definition sampling_ok (a : Args) (ds : Dataset) (num_pos : Z) : Prop :=
  fast_neg a = true
  \/ (0 <= num_pos * negative a
      /\ (neg_table ds = [] -> num_pos * negative a = 0)).

Section LoopFacts.

Variable rand : nat -> nat -> nat.
Variables (a : Args) (ds : Dataset) (walks : list walk).
Variables (num_batches num_pos max_i : Z).

Let loop (fuel : nat) (i : Z) : M Z :=
  training_loop rand fuel a ds walks num_batches num_pos max_i i.

(** One learning call, with the sampling before it when [fast_neg] is off:
    it raises and leaves the log as it is, or appends the call. *)
Lemma learn_step_spec (walks_ : list walk) (rate : Q) (w : World)
    (r : result unit) (w' : World) :
  (if fast_neg a then fast_learn_super walks_ rate None
   else
     neg_nodes <- random_choice rand (neg_table ds)
                    (Z.of_nat (length walks_) * num_pos * negative a) ;;
     fast_learn_super walks_ rate (Some neg_nodes)) w = (r, w') ->
  same_frame w w'
  /\ (fast_neg a = true -> n_draws w' = n_draws w)
  /\ match r with
     | Ret _ => exists c, learn_log w' = learn_log w ++ [c]
                          /\ lc_walks c = walks_ /\ lc_lr c = rate
                          /\ neg_ok a ds num_pos c
     | Raise _ => learn_log w' = learn_log w
     | OutOfFuel => False
     end.
Proof.
  unfold neg_ok. destruct (fast_neg a).
  - unfold fast_learn_super. intros [= <- <-]. simpl.
    split; [unfold same_frame; simpl; tauto|]. split; [trivial|].
    eexists. split; [reflexivity|]. simpl. auto.
  - unfold bind.
    destruct (random_choice rand _ _ w) as [r1 w1] eqn:E.
    apply random_choice_spec in E. destruct E as (Hlog & Hfr & Hr).
    destruct r1 as [l|e|]; [|intros [= <- <-]; auto with bool | contradiction].
    + unfold fast_learn_super. intros [= <- <-]. simpl.
      split; [unfold same_frame in *; simpl; tauto|].
      split; [discriminate|].
      eexists. split; [rewrite Hlog; reflexivity|]. simpl.
      repeat split; trivial. exists l. tauto.
    + split; [trivial|]. split; [discriminate|trivial].
Qed.

(** Whatever the outcome of the loop, the calls it added to the log are the
    steps at counters [i], [i + 1], ..., and a loop that returns, returns
    the counter after the last of them. *)
Lemma training_loop_S (fuel : nat) (i : Z) :
  loop (S fuel) i
  = (rate <- decayed_lr a max_i i ;;
     i_ <- or_zero_division (Py.mod_ i num_batches) ;;
     let walks_ := Py.slice walks (i_ * batch_size a) ((1 + i_) * batch_size a) in
     if Nat.eqb (length walks_) 0 then ret i
     else
       (if fast_neg a then fast_learn_super walks_ rate None
        else
          let bs := Z.of_nat (length walks_) in
          neg_nodes <- random_choice rand (neg_table ds) (bs * num_pos * negative a) ;;
          fast_learn_super walks_ rate (Some neg_nodes)) ;;
       let i := i + 1 in
       if i_ =? num_batches - 1 then ret i
       else loop fuel i).
Proof. reflexivity. Qed.

Lemma training_loop_log (fuel : nat) :
  forall (i : Z) (w : World) (r : result Z) (w' : World),
    loop fuel i w = (r, w') ->
    exists new,
      learn_log w' = learn_log w ++ new
      /\ same_frame w w'
      /\ (fast_neg a = true -> n_draws w' = n_draws w)
      /\ steps_from (step_ok a ds walks num_batches num_pos max_i) i new
      /\ (forall i', r = Ret i' -> i' = i + Z.of_nat (length new))
      /\ (0 < num_batches ->
          Z.of_nat (length new) <= num_batches - i mod num_batches).
Proof.
  assert (Hstop : forall i w r w',
    (r, w) = (r, w') -> (forall i', r = Ret i' -> i' = i) ->
    exists new,
      learn_log w' = learn_log w ++ new
      /\ same_frame w w'
      /\ (fast_neg a = true -> n_draws w' = n_draws w)
      /\ steps_from (step_ok a ds walks num_batches num_pos max_i) i new
      /\ (forall i', r = Ret i' -> i' = i + Z.of_nat (length new))
      /\ (0 < num_batches ->
          Z.of_nat (length new) <= num_batches - i mod num_batches)).
  { intros i w r w' [= <-] Hr. exists []. rewrite app_nil_r. simpl.
    repeat split; auto using same_frame_refl.
    - intros i' Hi'. rewrite (Hr i' Hi'). lia.
    - intros Hnb. pose proof (Z.mod_pos_bound i num_batches Hnb). lia. }
  induction fuel as [|fuel IH]; intros i w r w' E.
  - unfold loop in E. simpl in E. injection E as <- <-.
    apply Hstop; [reflexivity | discriminate].
  - rewrite training_loop_S in E. unfold bind at 1, decayed_lr in E.
    destruct (Z.eqb_spec max_i 0) as [Hm|Hm].
    { unfold raise in E. injection E as <- <-.
      apply Hstop; [reflexivity | discriminate]. }
    unfold ret at 1 in E. unfold bind at 1, or_zero_division, Py.mod_ in E.
    destruct (Z.eqb_spec num_batches 0) as [Hb|Hb].
    { unfold raise in E. injection E as <- <-.
      apply Hstop; [reflexivity | discriminate]. }
    unfold ret at 1 in E. cbv zeta in E.
    set (walks_ := Py.slice walks (i mod num_batches * batch_size a)
                     ((1 + i mod num_batches) * batch_size a)) in *.
    destruct (Nat.eqb_spec (length walks_) 0) as [He|He].
    { unfold ret in E. injection E as <- <-.
      apply Hstop; [reflexivity | now intros i' [= <-]]. }
    unfold bind at 1 in E.
    match type of E with
    | context [ (if fast_neg a then ?x else ?y) w ] =>
        destruct ((if fast_neg a then x else y) w) as [r1 w1] eqn:E1
    end.
    apply learn_step_spec in E1. destruct E1 as (Hfr & Hdr & Hr).
    destruct r1 as [[]|e|]; [| |contradiction].
    2:{ injection E as <- <-. exists []. rewrite app_nil_r. simpl.
        split; [exact Hr|]. split; [exact Hfr|]. split; [exact Hdr|].
        split; [exact I|]. split; [discriminate|].
        intros Hnb. pose proof (Z.mod_pos_bound i num_batches Hnb). lia. }
    destruct Hr as (c & Hlog & Hcw & Hcl & Hcn).
    assert (Hstep : step_ok a ds walks num_batches num_pos max_i i c).
    { unfold step_ok. repeat split; trivial.
      rewrite Hcw. intros Hnil. rewrite Hnil in He. now apply He. }
    destruct (Z.eqb_spec (i mod num_batches) (num_batches - 1)) as [Hlast|Hlast].
    + unfold ret in E. injection E as <- <-. exists [c]. simpl.
      split; [assumption|]. split; [assumption|]. split; [assumption|].
      split; [tauto|]. split; [intros i' [= <-]; lia | lia].
    + apply IH in E. destruct E as (new & Hlog' & Hfr' & Hdr' & Hst & Hret & Hlen).
      exists (c :: new). rewrite Hlog', Hlog, <- app_assoc. simpl.
      split; [reflexivity|]. split; [eauto using same_frame_trans|].
      split; [intros Hf; rewrite Hdr', Hdr; trivial|].
      split; [tauto|]. split.
      * intros i' Hi'. rewrite (Hret i' Hi'). lia.
      * intros Hnb. specialize (Hlen Hnb).
        rewrite mod_succ in Hlen by assumption. lia.
Qed.

(** A learning call on a non-empty batch returns when the sampling cannot
    raise. *)
Lemma learn_step_returns (walks_ : list walk) (rate : Q) (w : World) :
  sampling_ok a ds num_pos -> walks_ <> [] ->
  exists w',
    (if fast_neg a then fast_learn_super walks_ rate None
     else
       neg_nodes <- random_choice rand (neg_table ds)
                      (Z.of_nat (length walks_) * num_pos * negative a) ;;
       fast_learn_super walks_ rate (Some neg_nodes)) w = (Ret tt, w').
Proof.
  intros Hs Hne. destruct (fast_neg a) eqn:Hf.
  - unfold fast_learn_super. eauto.
  - destruct Hs as [?|[Hpos Htbl]]; [congruence|].
    assert (Hlen : 0 < Z.of_nat (length walks_))
      by (destruct walks_; [contradiction | simpl; lia]).
    unfold bind, random_choice.
    destruct (Z.ltb_spec (Z.of_nat (length walks_) * num_pos * negative a) 0)
      as [Hneg|_]; [nia|].
    destruct (Nat.eqb_spec (length (neg_table ds)) 0) as [Ht|Ht]; simpl andb.
    + destruct (Z.ltb_spec 0 (Z.of_nat (length walks_) * num_pos * negative a))
        as [Hp|_].
      * apply length_zero_iff_nil in Ht. specialize (Htbl Ht). nia.
      * unfold fast_learn_super. eauto.
    + unfold fast_learn_super. eauto.
Qed.

(** With a positive batch size, [num_batches] the batch count of a
    non-empty walk list, a non-zero horizon and a sampling that cannot
    raise, the loop returns once fuel covers the batches left in the pass,
    having advanced the counter to the end of the pass. *)
Lemma training_loop_returns (fuel : nat) :
  0 < batch_size a ->
  walks <> [] ->
  Py.ceil_div (Z.of_nat (length walks)) (batch_size a) = Some num_batches ->
  max_i <> 0 ->
  sampling_ok a ds num_pos ->
  forall (i : Z) (w : World),
    num_batches - i mod num_batches <= Z.of_nat fuel ->
    exists w', loop fuel i w = (Ret (i + (num_batches - i mod num_batches)), w').
Proof.
  intros Hbs Hne Hnb Hm Hs.
  apply ceil_div_spec in Hnb; [|assumption].
  assert (Hlen : 0 < Z.of_nat (length walks))
    by (destruct walks; [contradiction | simpl; lia]).
  assert (Hnb1 : 0 < num_batches) by nia.
  induction fuel as [|fuel IH]; intros i w Hfuel;
    pose proof (Z.mod_pos_bound i num_batches Hnb1) as Hmod.
  - simpl in Hfuel. lia.
  - rewrite training_loop_S. unfold bind at 1, decayed_lr.
    destruct (Z.eqb_spec max_i 0) as [?|_]; [contradiction|].
    unfold ret at 1. unfold bind at 1, or_zero_division, Py.mod_.
    destruct (Z.eqb_spec num_batches 0) as [?|_]; [lia|].
    unfold ret at 1. cbv zeta.
    set (walks_ := Py.slice walks (i mod num_batches * batch_size a)
                     ((1 + i mod num_batches) * batch_size a)).
    assert (Hw : walks_ <> []) by (apply slice_nonempty; nia).
    destruct (Nat.eqb_spec (length walks_) 0) as [He|_].
    { apply length_zero_iff_nil in He. contradiction. }
    unfold bind at 1.
    destruct (learn_step_returns walks_ 
                (if Qltb (lr a * inject_Z (max_i - i) / inject_Z max_i) lr_floor
                 then lr_floor
                 else (lr a * inject_Z (max_i - i) / inject_Z max_i)%Q) w Hs Hw)
      as [w1 ->].
    destruct (Z.eqb_spec (i mod num_batches) (num_batches - 1)) as [Hlast|Hlast].
    + unfold ret. exists w1. do 2 f_equal. lia.
    + destruct (IH (i + 1) w1) as [w' Hw'].
      * rewrite mod_succ by assumption. lia.
      * exists w'. rewrite Hw'. rewrite mod_succ by assumption.
        do 2 f_equal. lia.
Qed.

End LoopFacts.

(** The calls of consecutive steps, read through [f], are the values [g]
    gives for their positions. *)
Lemma steps_from_map {B : Type} (P : Z -> LearnCall -> Prop)
    (f : LearnCall -> B) (cs : list LearnCall) :
  forall (g : nat -> B) (i : Z),
    steps_from P i cs ->
    (forall k c, (k < length cs)%nat -> P (i + Z.of_nat k) c -> f c = g k) ->
    map f cs = map g (seq 0 (length cs)).
Proof.
  induction cs as [|c cs IH]; intros g i Hs Hfg; [reflexivity|].
  destruct Hs as [Hc Hs]. simpl. f_equal.
  - apply Hfg; [simpl; lia|]. now rewrite Z.add_0_r.
  - rewrite <- seq_shift, map_map. apply (IH (fun k => g (S k)) (i + 1)); trivial.
    intros k c' Hk Hp. apply Hfg; [simpl; lia|].
    now replace (i + Z.of_nat (S k)) with (i + 1 + Z.of_nat k) by lia.
Qed.

Lemma steps_from_Forall (P : Z -> LearnCall -> Prop) (R : LearnCall -> Prop)
    (cs : list LearnCall) (i : Z) :
  steps_from P i cs -> (forall j c, P j c -> R c) -> Forall R cs.
Proof.
  revert i. induction cs as [|c cs IH]; intros i Hs H; constructor.
  - apply (H i), Hs.
  - apply (IH (i + 1)); [apply Hs | exact H].
Qed.

(* ------------------------------------------------------------------ *)
(** ** One pass over a walk list *)

(** The batches of one pass: [ws[b * bs : (1 + b) * bs]] for each batch
    number [b] below [nb]. *)
Definition batches_of (ws : list walk) (bs nb : Z) : list (list walk) :=
  map (fun b => Py.slice ws (b * bs) ((1 + b) * bs)) (Py.range nb).

Lemma batches_of_length (ws : list walk) (bs nb : Z) :
  length (batches_of ws bs nb) = Z.to_nat nb.
Proof. unfold batches_of, Py.range. now rewrite !length_map, length_seq. Qed.

(** The batches of a pass, in order, are the walk list. *)
Lemma batches_concat (ws : list walk) (bs nb : Z) :
  0 < bs -> 0 <= nb -> Z.of_nat (length ws) <= nb * bs ->
  concat (batches_of ws bs nb) = ws.
Proof.
  intros Hbs Hnb Hlen. unfold batches_of, Py.range. rewrite map_map.
  rewrite (map_ext_in _
    (fun i => firstn (Z.to_nat (Z.of_nat (S i) * bs) - Z.to_nat (Z.of_nat i * bs))
                     (skipn (Z.to_nat (Z.of_nat i * bs)) ws))).
  - rewrite (concat_cuts ws (fun i => Z.to_nat (Z.of_nat i * bs))).
    + apply firstn_all2. rewrite Z2Nat.id by lia. lia.
    + reflexivity.
    + intros i _. apply Z2Nat.inj_le; nia.
  - intros i _. rewrite slice_forward by nia.
    rewrite <- Z2Nat.inj_sub by nia. do 2 f_equal. lia.
Qed.

(** Every batch of a pass but the last holds [bs] walks, and none is
    empty. *)
Lemma batch_full (ws : list walk) (bs nb b : Z) :
  0 < bs -> (nb - 1) * bs < Z.of_nat (length ws) -> 0 <= b < nb - 1 ->
  Z.of_nat (length (Py.slice ws (b * bs) ((1 + b) * bs))) = bs.
Proof.
  intros Hbs Hlen Hb. rewrite slice_forward by nia.
  rewrite length_firstn, length_skipn. nia.
Qed.

Section PassFacts.

Variable rand : nat -> nat -> nat.
Variables (a : Args) (ds : Dataset).

(** A pass that starts at a multiple of the batch count: the loop returns
    after [num_batches] calls, one per batch of the walk list, in order. *)
Lemma training_loop_pass (fuel : nat) (walks : list walk)
    (num_batches num_pos max_i i : Z) (w : World) :
  0 < batch_size a ->
  walks <> [] ->
  Py.ceil_div (Z.of_nat (length walks)) (batch_size a) = Some num_batches ->
  max_i <> 0 ->
  sampling_ok a ds num_pos ->
  i mod num_batches = 0 ->
  num_batches <= Z.of_nat fuel ->
  exists w' new,
    training_loop rand fuel a ds walks num_batches num_pos max_i i w
    = (Ret (i + num_batches), w')
    /\ learn_log w' = learn_log w ++ new
    /\ same_frame w w'
    /\ (fast_neg a = true -> n_draws w' = n_draws w)
    /\ Z.of_nat (length new) = num_batches
    /\ steps_from (step_ok a ds walks num_batches num_pos max_i) i new
    /\ map lc_walks new = batches_of walks (batch_size a) num_batches.
Proof.
  intros Hbs Hne Hnb Hm Hs Hi Hfuel.
  destruct (training_loop_returns rand a ds walks num_batches num_pos max_i fuel
              Hbs Hne Hnb Hm Hs i w) as [w' Hrun]; [lia|].
  rewrite Hi, Z.sub_0_r in Hrun.
  destruct (training_loop_log rand a ds walks num_batches num_pos max_i fuel
              i w _ w' Hrun) as (new & Hlog & Hfr & Hdr & Hst & Hret & _).
  specialize (Hret _ eq_refl).
  assert (Hlen : Z.of_nat (length new) = num_batches) by lia.
  exists w', new. repeat split; trivial; try apply Hfr.
  unfold batches_of, Py.range. rewrite map_map.
  replace (Z.to_nat num_batches) with (length new) by lia.
  apply (steps_from_map _ _ _ _ i Hst).
  intros k c Hk (_ & _ & _ & Hw & _). rewrite Hw.
  assert (Hk' : (i + Z.of_nat k) mod num_batches = Z.of_nat k).
  { rewrite Z.add_mod, Hi, Z.add_0_l, Z.mod_mod by lia.
    apply Z.mod_small. lia. }
  now rewrite Hk'.
Qed.

End PassFacts.

(* ------------------------------------------------------------------ *)
(** ** Runs of [fast_train_sp] and [fast_train] *)

(** What a learning call made at counter [j] is, whatever walk list its
    batch was cut from. *)
Definition call_ok (a : Args) (ds : Dataset) (num_pos max_i j : Z) (c : LearnCall)
    : Prop :=
  max_i <> 0 /\ lc_lr c = lr_value a max_i j /\ lc_walks c <> []
  /\ neg_ok a ds num_pos c.

Lemma step_ok_call_ok (a : Args) (ds : Dataset) (walks : list walk)
    (num_batches num_pos max_i j : Z) (c : LearnCall) :
  step_ok a ds walks num_batches num_pos max_i j c -> call_ok a ds num_pos max_i j c.
Proof. unfold step_ok, call_ok. tauto. Qed.

Section RunFacts.

Variable shuffle_walks : nat -> list walk -> list walk.
Variable rand : nat -> nat -> nat.
Variables (a : Args) (ds : Dataset).

(** The calls a worker adds to the log, whatever its outcome. *)
Lemma fast_train_sp_log (fuel : nat) (walks : list walk) (gpu_id : Z)
    (w : World) (r : result unit) (w' : World) :
  fast_train_sp rand fuel a ds walks gpu_id w = (r, w') ->
  exists new,
    learn_log w' = learn_log w ++ new
    /\ same_frame w w'
    /\ (fast_neg a = true -> n_draws w' = n_draws w)
    /\ (Py.ceil_div (Z.of_nat (length walks)) (batch_size a) = None -> new = [])
    /\ (forall nb,
          Py.ceil_div (Z.of_nat (length walks)) (batch_size a) = Some nb ->
          steps_from (step_ok a ds walks nb (num_pos_of a) (iterations a * nb)) 0 new
          /\ (0 < nb -> Z.of_nat (length new) <= nb)).
Proof.
  unfold fast_train_sp, bind at 1, or_zero_division.
  destruct (Py.ceil_div (Z.of_nat (length walks)) (batch_size a)) as [nb|] eqn:Hnb.
  - unfold ret at 1. cbv zeta. unfold bind.
    destruct (training_loop rand fuel a ds walks nb (num_pos_of a)
                (iterations a * nb) 0 w) as [r1 w1] eqn:E.
    apply training_loop_log in E.
    destruct E as (new & Hlog & Hfr & Hdr & Hst & _ & Hlen).
    intros Hr. assert (w' = w1) as -> by (destruct r1; now injection Hr).
    exists new. split; [exact Hlog|]. split; [exact Hfr|]. split; [exact Hdr|].
    split; [discriminate|].
    intros nb' [= <-]. split; [exact Hst|].
    intros Hpos. specialize (Hlen Hpos).
    rewrite Z.mod_0_l in Hlen by lia. lia.
  - unfold raise. intros [= <- <-]. exists []. rewrite app_nil_r.
    repeat split; trivial; discriminate.
Qed.

(** The calls the epochs add to the log, whatever the outcome: consecutive
    steps from the counter on entry, at most up to the end of the last of
    the [n] epochs. *)
Lemma epochs_log (fuel : nat) (num_batches num_pos max_i : Z) (n : nat) :
  forall (i : Z) (w : World) (r : result Z) (w' : World),
    epochs shuffle_walks rand n fuel a ds num_batches num_pos max_i i w = (r, w') ->
    exists new,
      learn_log w' = learn_log w ++ new
      /\ spawned w' = spawned w /\ saved w' = saved w
      /\ (fast_neg a = true -> n_draws w' = n_draws w)
      /\ steps_from (call_ok a ds num_pos max_i) i new
      /\ (forall i', r = Ret i' -> i' = i + Z.of_nat (length new))
      /\ (0 < num_batches -> forall e,
            i <= num_batches * e ->
            i + Z.of_nat (length new) <= num_batches * (e + Z.of_nat n)).
Proof.
  induction n as [|n IH]; intros i w r w' E.
  - simpl in E. unfold ret in E. injection E as <- <-.
    exists []. rewrite app_nil_r. simpl. repeat split; trivial.
    + intros i' [= <-]. lia.
    + intros. lia.
  - simpl in E. unfold bind at 1, shuffle_dataset in E.
    unfold bind at 1, get_walks in E. cbv beta iota in E. simpl ds_walks in E.
    unfold bind at 1 in E.
    match type of E with
    | context [training_loop rand fuel a ds ?ws num_batches num_pos max_i i ?w1] =>
        destruct (training_loop rand fuel a ds ws num_batches num_pos max_i i w1)
          as [r1 w1'] eqn:E1
    end.
    apply training_loop_log in E1.
    destruct E1 as (new1 & Hlog1 & Hfr1 & Hdr1 & Hst1 & Hret1 & Hlen1).
    simpl in Hlog1, Hdr1. destruct Hfr1 as (_ & _ & Hsp1 & Hsv1). simpl in Hsp1, Hsv1.
    assert (Hst1' : steps_from (call_ok a ds num_pos max_i) i new1).
    { eapply steps_from_impl; [|exact Hst1]. intros j c _. apply step_ok_call_ok. }
    assert (Hb1 : 0 < num_batches -> forall e, i <= num_batches * e ->
              i + Z.of_nat (length new1) <= num_batches * (e + 1)).
    { intros Hnb e He. specialize (Hlen1 Hnb).
      assert (i / num_batches <= e) by (apply Z.div_le_upper_bound; lia).
      pose proof (Z.div_mod i num_batches ltac:(lia)). nia. }
    destruct r1 as [i1| e1 |].
    + apply IH in E.
      destruct E as (new & Hlog & Hsp & Hsv & Hdr & Hst & Hret & Hlen).
      specialize (Hret1 _ eq_refl). subst i1.
      exists (new1 ++ new). rewrite Hlog, Hlog1, app_assoc.
      split; [reflexivity|]. split; [congruence|]. split; [congruence|].
      split; [intros Hf; rewrite Hdr, Hdr1; trivial|].
      split; [apply steps_from_app; tauto|].
      rewrite length_app, Nat2Z.inj_add. split.
      * intros i' Hi'. rewrite (Hret i' Hi'). lia.
      * intros Hnb e He. specialize (Hlen Hnb (e + 1) (Hb1 Hnb e He)). lia.
    + injection E as <- <-. exists new1.
      repeat split; trivial; try discriminate.
      intros Hnb e He. specialize (Hb1 Hnb e He). nia.
    + injection E as <- <-. exists new1.
      repeat split; trivial; try discriminate.
      intros Hnb e He. specialize (Hb1 Hnb e He). nia.
Qed.

Lemma init_device_emb_cases (w : World) :
  init_device_emb a w = (Ret tt, w)
  \/ exists msg, init_device_emb a w = (Raise (Py.AssertionError msg), w).
Proof.
  unfold init_device_emb, bind, assert_, ret, raise.
  repeat match goal with |- context [if ?b then _ else _] => destruct b end;
    eauto.
Qed.

(** The calls [fast_train] adds to the log, whatever its outcome. *)
Lemma fast_train_log (fuel : nat) (w : World) (r : result unit) (w' : World) :
  fast_train shuffle_walks rand fuel a ds w = (r, w') ->
  exists new,
    learn_log w' = learn_log w ++ new
    /\ spawned w' = spawned w
    /\ (fast_neg a = true -> n_draws w' = n_draws w)
    /\ (Py.ceil_div (net_len ds * num_walks a) (batch_size a) = None -> new = [])
    /\ (init_device_emb a w <> (Ret tt, w) -> new = [])
    /\ (forall nb,
          Py.ceil_div (net_len ds * num_walks a) (batch_size a) = Some nb ->
          steps_from (call_ok a ds (num_pos_of a) (iterations a * nb)) 0 new
          /\ (0 < nb ->
              Z.of_nat (length new) <= nb * Z.of_nat (Z.to_nat (iterations a)))).
Proof.
  unfold fast_train. cbv zeta. unfold bind at 1, or_zero_division.
  destruct (Py.ceil_div (net_len ds * num_walks a) (batch_size a)) as [nb|] eqn:Hnb.
  2:{ unfold raise. intros [= <- <-]. exists []. rewrite app_nil_r.
      repeat split; trivial; discriminate. }
  unfold ret at 1. unfold bind at 1.
  destruct (init_device_emb_cases w) as [Hi|[msg Hi]]; rewrite Hi.
  2:{ intros [= <- <-]. exists []. rewrite app_nil_r. simpl.
      do 5 (split; [trivial|]). intros nb' _. split; [trivial|]. lia. }
  unfold bind at 1.
  destruct (epochs shuffle_walks rand (Z.to_nat (iterations a)) fuel a ds nb
              (num_pos_of a) (iterations a * nb) 0 w) as [r1 w1] eqn:E.
  apply epochs_log in E.
  destruct E as (new & Hlog & Hsp & Hsv & Hdr & Hst & _ & Hlen).
  intros Hr.
  assert (Hw : learn_log w' = learn_log w1 /\ spawned w' = spawned w1
               /\ n_draws w' = n_draws w1).
  { destruct r1; unfold save_embedding in Hr; injection Hr as <- <-; simpl; auto. }
  destruct Hw as (Hw1 & Hw2 & Hw3).
  exists new. rewrite Hw1, Hw2, Hw3.
  split; [exact Hlog|]. split; [exact Hsp|]. split; [exact Hdr|].
  split; [discriminate|]. split; [intros Hbad; contradiction|].
  intros nb' [= <-]. split; [exact Hst|].
  intros Hpos. specialize (Hlen Hpos 0 ltac:(lia)). lia.
Qed.

End RunFacts.

(* ------------------------------------------------------------------ *)
(** ** The learning rate of each step *)

Lemma Qltb_spec (x y : Q) : Qltb x y = true <-> (x < y)%Q.
Proof.
  unfold Qltb. rewrite negb_true_iff. split.
  - intros H. apply Qnot_le_lt. intros Hle.
    apply Qle_bool_iff in Hle. congruence.
  - intros H. destruct (Qle_bool y x) eqn:E; trivial.
    apply Qle_bool_iff in E. exfalso. now apply (Qlt_not_le x y).
Qed.

(** [lr_value] is the linear decay, replaced by the floor when below it. *)
Lemma lr_value_cases (a : Args) (max_i i : Z) :
  let v := (lr a * inject_Z (max_i - i) / inject_Z max_i)%Q in
  ((v < 1 # 100000)%Q -> lr_value a max_i i = (1 # 100000)%Q)
  /\ (~ (v < 1 # 100000)%Q -> lr_value a max_i i = v).
Proof.
  intros v. unfold lr_value. fold v. change lr_floor with (1 # 100000)%Q.
  destruct (Qltb v (1 # 100000)) eqn:E.
  - apply Qltb_spec in E. tauto.
  - split; [|reflexivity]. intros H. apply Qltb_spec in H. congruence.
Qed.





(** The calls a run added to the log of [w]. *)
Definition new_calls (w w' : World) : list LearnCall :=
  skipn (length (learn_log w)) (learn_log w').

Lemma new_calls_app (w w' : World) (new : list LearnCall) :
  learn_log w' = learn_log w ++ new -> new_calls w w' = new.
Proof.
  intros H. unfold new_calls. rewrite H, skipn_app, skipn_all, Nat.sub_diag.
  reflexivity.
Qed.

(** The rate of call [c], made at step [k] of a run with horizon
    [max_steps]: [initial_lr * (max_steps - k) / max_steps], and exactly
    [1e-5] whenever that value is below [1e-5]. *)
Definition decayed_rate_at (a : Args) (max_steps : Z) (k : nat) (c : LearnCall)
    : Prop :=
  let v := (lr a * inject_Z (max_steps - Z.of_nat k) / inject_Z max_steps)%Q in
  max_steps <> 0
  /\ ((v < 1 # 100000)%Q -> lc_lr c = (1 # 100000)%Q)
  /\ (~ (v < 1 # 100000)%Q -> lc_lr c = v).

Lemma call_ok_decayed_rate (a : Args) (ds : Dataset) (num_pos max_i : Z)
    (k : nat) (c : LearnCall) :
  call_ok a ds num_pos max_i (0 + Z.of_nat k) c -> decayed_rate_at a max_i k c.
Proof.
  intros (Hm & Hlr & _). rewrite Z.add_0_l in Hlr.
  unfold decayed_rate_at. rewrite Hlr. split; [exact Hm|].
  apply lr_value_cases.
Qed.

(** C1. In a run of [fast_train_sp] and in a run of [fast_train], whatever
    its outcome, the call of [fast_learn_super] made at step [k] (the
    [k]-th the run adds to the log) is given the rate
    [lr * (max_steps - k) / max_steps] for the horizon
    [max_steps = iterations * num_batches], and exactly [1e-5] whenever
    that value is below [1e-5]; the horizon of a step that is made is not
    zero. *)
Theorem lr_linear_decay_with_floor
    (shuffle_walks : nat -> list walk -> list walk) (rand : nat -> nat -> nat)
    (fuel : nat) (a : Args) (ds : Dataset) (w : World) :
  (forall (walks : list walk) (gpu_id num_batches : Z) (k : nat) (c : LearnCall),
      Py.ceil_div (Z.of_nat (length walks)) (batch_size a) = Some num_batches ->
      nth_error (new_calls w (snd (fast_train_sp rand fuel a ds walks gpu_id w))) k
      = Some c ->
      decayed_rate_at a (iterations a * num_batches) k c)
  /\ (forall (num_batches : Z) (k : nat) (c : LearnCall),
        Py.ceil_div (net_len ds * num_walks a) (batch_size a) = Some num_batches ->
        nth_error (new_calls w (snd (fast_train shuffle_walks rand fuel a ds w))) k
        = Some c ->
        decayed_rate_at a (iterations a * num_batches) k c).
Proof.
  split.
  - intros walks gpu_id nb k c Hnb Hk.
    destruct (fast_train_sp rand fuel a ds walks gpu_id w) as [r w'] eqn:E.
    apply fast_train_sp_log in E.
    destruct E as (new & Hlog & _ & _ & _ & Hst).
    simpl snd in Hk. rewrite (new_calls_app _ _ _ Hlog) in Hk.
    destruct (Hst nb Hnb) as [Hsteps _].
    apply (call_ok_decayed_rate a ds (num_pos_of a)).
    eapply step_ok_call_ok, steps_from_nth; eassumption.
  - intros nb k c Hnb Hk.
    destruct (fast_train shuffle_walks rand fuel a ds w) as [r w'] eqn:E.
    apply fast_train_log in E.
    destruct E as (new & Hlog & _ & _ & _ & _ & Hst).
    simpl snd in Hk. rewrite (new_calls_app _ _ _ Hlog) in Hk.
    destruct (Hst nb Hnb) as [Hsteps _].
    apply (call_ok_decayed_rate a ds (num_pos_of a)).
    eapply steps_from_nth; eassumption.
Qed.

(** The trainer's arguments used in the examples: the defaults of the
    command line with [--only_cpu --sgd], and variations of them. *)
Definition example_args : Args :=
  Cli.set_sgd true (Cli.set_only_cpu true Cli.defaults).

(** [n] walks of one node each, the nodes [0], ..., [n - 1]. *)
Definition example_walks (n : nat) : list walk :=
  map (fun i => [Z.of_nat i]) (seq 0 n).

Definition example_world (n : nat) : World :=
  mkWorld (example_walks n) [] 0 0 [] 0.

(** Twelve walks in batches of ten: the second of the two steps of a worker
    gets half the initial rate. *)
Lemma lr_linear_decay_with_floor_witness :
  decayed_rate_at example_args 2 1
    (mkLearnCall (skipn 10 (example_walks 12))
                 ((2 # 10) * inject_Z (2 - 1) / inject_Z 2)%Q None).
Proof.
  exact (proj1 (lr_linear_decay_with_floor (fun _ l => l) (fun _ _ => 0%nat) 5
                  example_args (mkDataset 12 []) (example_world 12))
               (example_walks 12) 0 2 1%nat _ eq_refl eq_refl).
Defined.








(* ------------------------------------------------------------------ *)
(** ** Negative samples *)

Lemma neg_ok_table (a : Args) (ds : Dataset) (num_pos : Z) (c : LearnCall) :
  fast_neg a = false -> neg_ok a ds num_pos c ->
  exists l,
    lc_neg c = Some l
    /\ Z.of_nat (length l) = Z.of_nat (length (lc_walks c)) * num_pos * negative a
    /\ Forall (fun x => In x (neg_table ds)) l.
Proof. unfold neg_ok. now intros ->. Qed.

(** The count the claim C3 states for a call: [batch_size * num_pos *
    negative] indices, with the configured batch size. *)
Definition configured_neg_count (a : Args) (c : LearnCall) : Prop :=
  exists l,
    lc_neg c = Some l
    /\ Z.of_nat (length l) = batch_size a * num_pos_of a * negative a.

(** The arguments of the example below: walks of four nodes, a window of
    one (six positive pairs per walk), five negatives per pair, batches of
    two, table sampling. *)
Definition table_args : Args :=
  Cli.set_fast_neg false
    (Cli.set_batch_size 2 (Cli.set_window_size 1 (Cli.set_walk_length 4 example_args))).

(** Three walks in batches of two: the second batch of the worker holds one
    walk, and 30 indices are drawn for it, not 2 * 6 * 5 = 60. *)
Lemma neg_count_final_batch_counterexample :
  ~ (forall c,
        In c (new_calls (example_world 3)
                (snd (fast_train_sp (fun _ _ => 0%nat) 5 table_args
                        (mkDataset 3 [0; 1; 2]) (example_walks 3) 0 (example_world 3)))) ->
        configured_neg_count table_args c).
Proof.
  intros H.
  destruct (H (mkLearnCall [[2]] ((2 # 10) * inject_Z (2 - 1) / inject_Z 2)%Q
                 (Some (repeat 0 30)))) as (l & Hl & Hlen).
  - vm_compute. auto.
  - injection Hl as <-. vm_compute in Hlen. discriminate.
Qed.

(** C3, amended. With [fast_neg] disabled, every call of [fast_learn_super]
    a run of [fast_train_sp] or of [fast_train] makes is passed
    [len(batch) * num_pos * negative] indices, all taken from the negative
    table, where [len(batch)] is the number of walks of the batch it
    processes; that is [batch_size * num_pos * negative] for a batch of
    [batch_size] walks, and with a positive batch size every batch a worker
    processes before the last of its pass is such a batch. *)
Theorem neg_count_per_batch
    (shuffle_walks : nat -> list walk -> list walk) (rand : nat -> nat -> nat)
    (fuel : nat) (a : Args) (ds : Dataset) (w : World)
    (walks : list walk) (gpu_id : Z) :
  fast_neg a = false ->
  let sp := new_calls w (snd (fast_train_sp rand fuel a ds walks gpu_id w)) in
  let ft := new_calls w (snd (fast_train shuffle_walks rand fuel a ds w)) in
  let drawn := fun c : LearnCall =>
    exists l,
      lc_neg c = Some l
      /\ Z.of_nat (length l)
         = Z.of_nat (length (lc_walks c)) * num_pos_of a * negative a
      /\ (Z.of_nat (length (lc_walks c)) = batch_size a ->
          Z.of_nat (length l) = batch_size a * num_pos_of a * negative a)
      /\ Forall (fun x => In x (neg_table ds)) l in
  (forall c, In c sp -> drawn c)
  /\ (forall c, In c ft -> drawn c)
  /\ (0 < batch_size a ->
      forall (num_batches : Z) (k : nat) (c : LearnCall),
        Py.ceil_div (Z.of_nat (length walks)) (batch_size a) = Some num_batches ->
        nth_error sp k = Some c -> Z.of_nat k < num_batches - 1 ->
        Z.of_nat (length (lc_walks c)) = batch_size a).
Proof.
  intros Hf sp ft drawn.
  assert (Hdrawn : forall c, neg_ok a ds (num_pos_of a) c -> drawn c).
  { intros c Hc. destruct (neg_ok_table _ _ _ _ Hf Hc) as (l & Hl & Hlen & Hin).
    exists l. repeat split; trivial. intros E. now rewrite <- E. }
  unfold sp, ft.
  destruct (fast_train_sp rand fuel a ds walks gpu_id w) as [r w1] eqn:E1.
  destruct (fast_train shuffle_walks rand fuel a ds w) as [r' w2] eqn:E2.
  apply fast_train_sp_log in E1. destruct E1 as (new1 & Hlog1 & _ & _ & Hn1 & Hst1).
  apply fast_train_log in E2. destruct E2 as (new2 & Hlog2 & _ & _ & Hn2 & _ & Hst2).
  simpl snd. rewrite (new_calls_app _ _ _ Hlog1), (new_calls_app _ _ _ Hlog2).
  split; [|split].
  - intros c Hin.
    destruct (Py.ceil_div (Z.of_nat (length walks)) (batch_size a)) as [nb|] eqn:Hnb.
    + destruct (Hst1 nb eq_refl) as [Hs _].
      assert (HF : Forall drawn new1).
      { apply (steps_from_Forall _ _ _ _ Hs). intros j c0 Hc0.
        apply Hdrawn, Hc0. }
      rewrite Forall_forall in HF. auto.
    + rewrite (Hn1 eq_refl) in Hin. contradiction.
  - intros c Hin.
    destruct (Py.ceil_div (net_len ds * num_walks a) (batch_size a)) as [nb|] eqn:Hnb.
    + destruct (Hst2 nb eq_refl) as [Hs _].
      assert (HF : Forall drawn new2).
      { apply (steps_from_Forall _ _ _ _ Hs). intros j c0 Hc0.
        apply Hdrawn, Hc0. }
      rewrite Forall_forall in HF. auto.
    + rewrite (Hn2 eq_refl) in Hin. contradiction.
  - intros Hbs nb k c Hnb Hk Hlt.
    destruct (Hst1 nb Hnb) as [Hs _].
    destruct (steps_from_nth _ _ _ _ _ Hs Hk) as (_ & _ & _ & Hw & _).
    rewrite Hw, Z.add_0_l.
    apply ceil_div_spec in Hnb; trivial.
    rewrite Z.mod_small by lia.
    apply batch_full with (nb := nb); lia.
Qed.

(** On the three walks of the example: 60 indices for the full first batch,
    30 for the second. *)
Lemma neg_count_per_batch_witness :
  let sp := new_calls (example_world 3)
              (snd (fast_train_sp (fun _ _ => 0%nat) 5 table_args
                      (mkDataset 3 [0; 1; 2]) (example_walks 3) 0 (example_world 3))) in
  map (fun c => option_map (@length Z) (lc_neg c)) sp = [Some 60%nat; Some 30%nat]
  /\ forall c, In c sp ->
       exists l, lc_neg c = Some l
                 /\ Z.of_nat (length l)
                    = Z.of_nat (length (lc_walks c)) * num_pos_of table_args
                      * negative table_args.
Proof.
  intros sp. split; [vm_compute; reflexivity|].
  intros c Hc.
  destruct (proj1 (neg_count_per_batch (fun _ l => l) (fun _ _ => 0%nat) 5 table_args
                     (mkDataset 3 [0; 1; 2]) (example_world 3) (example_walks 3) 0
                     eq_refl) c Hc) as (l & Hl & Hlen & _).
  exists l. split; assumption.
Defined.

(* ------------------------------------------------------------------ *)
(** ** The configuration check *)

(** Exactly one of three flags is set. *)
Definition exactly_one (x y z : bool) : Prop :=
  (x = true /\ y = false /\ z = false)
  \/ (x = false /\ y = true /\ z = false)
  \/ (x = false /\ y = false /\ z = true).

Lemma sum_bools_one (x y z : bool) :
  (Py.sum_bools [x; y; z] =? 1) = true <-> exactly_one x y z.
Proof.
  unfold exactly_one. destruct x, y, z; cbv; intuition discriminate.
Qed.

Lemma exactly_one_dec (x y z : bool) : exactly_one x y z \/ ~ exactly_one x y z.
Proof.
  unfold exactly_one. destruct x, y, z; intuition discriminate.
Qed.

Lemma exactly_one_perm (x y z : bool) : exactly_one x y z <-> exactly_one y x z.
Proof. unfold exactly_one. tauto. Qed.

(** The configuration [init_device_emb] accepts. *)
Definition valid_config (a : Args) : Prop :=
  exactly_one (only_cpu a) (only_gpu a) (mix a)
  /\ exactly_one (sgd a) (adam a) (avg_sgd a)
  /\ 1 <= num_procs a.

Lemma init_device_emb_ok (a : Args) (w : World) :
  init_device_emb a w = (Ret tt, w) <-> valid_config a.
Proof.
  unfold valid_config. rewrite (exactly_one_perm (only_cpu a)).
  rewrite <- !sum_bools_one, <- Z.geb_le.
  unfold init_device_emb, bind, assert_, ret, raise.
  destruct (Py.sum_bools [only_gpu a; only_cpu a; mix a] =? 1);
    destruct (num_procs a >=? 1);
    destruct (Py.sum_bools [sgd a; adam a; avg_sgd a] =? 1);
    intuition discriminate.
Qed.

Lemma init_device_emb_raises (a : Args) (w : World) :
  (exists msg, init_device_emb a w = (Raise (Py.AssertionError msg), w))
  <-> ~ valid_config a.
Proof.
  rewrite <- (init_device_emb_ok a w).
  destruct (init_device_emb_cases a w) as [H|[msg H]]; rewrite H.
  - split; [intros [m Hm]; discriminate | intros Hn; now contradiction Hn].
  - split; [intros _; discriminate | eauto].
Qed.

Lemma valid_config_dec (a : Args) : valid_config a \/ ~ valid_config a.
Proof.
  destruct (init_device_emb_cases a (mkWorld [] [] 0 0 [] 0)) as [H|[msg H]].
  - left. now apply init_device_emb_ok in H.
  - right. apply (init_device_emb_raises a (mkWorld [] [] 0 0 [] 0)). eauto.
Qed.

Section CheckFacts.

Variable shuffle_walks : nat -> list walk -> list walk.
Variable rand : nat -> nat -> nat.

(** A failed check ends [fast_train_mp] before the shuffle: nothing is
    changed and no process is started. *)
Lemma mp_start_invalid (a : Args) (w : World) (msg : string) :
  init_device_emb a w = (Raise (Py.AssertionError msg), w) ->
  mp_start shuffle_walks a w = (Raise (Py.AssertionError msg), w)
  /\ fast_train_mp shuffle_walks a w = (Raise (Py.AssertionError msg), w).
Proof.
  intros H. unfold fast_train_mp, mp_start, bind. now rewrite H.
Qed.

End CheckFacts.

(** C4. [init_device_emb] raises an assertion failure exactly when the
    configuration does not select exactly one of [only_cpu], [only_gpu],
    [mix], or does not select exactly one of [sgd], [adam], [avg_sgd], or
    has [num_procs < 1]; otherwise it returns. When it raises, a run of
    [fast_train] ends with an exception and without a learning step, and a
    run of [fast_train_mp] ends with that assertion failure, its state
    unchanged and no worker started. *)
Theorem init_device_emb_validates
    (shuffle_walks : nat -> list walk -> list walk) (rand : nat -> nat -> nat)
    (fuel : nat) (a : Args) (ds : Dataset) (w : World) :
  let invalid :=
    ~ exactly_one (only_cpu a) (only_gpu a) (mix a)
    \/ ~ exactly_one (sgd a) (adam a) (avg_sgd a)
    \/ num_procs a < 1 in
  ((exists msg, init_device_emb a w = (Raise (Py.AssertionError msg), w))
   <-> invalid)
  /\ (init_device_emb a w = (Ret tt, w) <-> ~ invalid)
  /\ (invalid ->
      new_calls w (snd (fast_train shuffle_walks rand fuel a ds w)) = []
      /\ (exists e, fst (fast_train shuffle_walks rand fuel a ds w) = Raise e)
      /\ (exists msg,
            fast_train_mp shuffle_walks a w = (Raise (Py.AssertionError msg), w))
      /\ mp_workers shuffle_walks rand fuel a ds w = []).
Proof.
  intros invalid.
  assert (Hinv : invalid <-> ~ valid_config a).
  { unfold invalid, valid_config.
    destruct (exactly_one_dec (only_cpu a) (only_gpu a) (mix a));
      destruct (exactly_one_dec (sgd a) (adam a) (avg_sgd a));
      destruct (Z.lt_ge_cases (num_procs a) 1); split; intros; intuition lia. }
  split; [|split].
  - rewrite Hinv. apply init_device_emb_raises.
  - rewrite Hinv, init_device_emb_ok.
    destruct (valid_config_dec a); tauto.
  - intros Hbad. apply Hinv in Hbad.
    apply (init_device_emb_raises a w) in Hbad. destruct Hbad as [msg Hmsg].
    destruct (mp_start_invalid shuffle_walks a w msg Hmsg) as [Hst Hmp].
    destruct (fast_train shuffle_walks rand fuel a ds w) as [r w'] eqn:E.
    pose proof E as E'. apply fast_train_log in E'.
    destruct E' as (new & Hlog & _ & _ & _ & Hnil & _).
    assert (Hnew : new = []) by (apply Hnil; rewrite Hmsg; discriminate).
    subst new. simpl fst. simpl snd.
    split; [now apply new_calls_app|]. split; [|split].
    + revert E. unfold fast_train. cbv zeta. unfold bind at 1, or_zero_division.
      destruct (Py.ceil_div (net_len ds * num_walks a) (batch_size a)).
      * unfold ret at 1. unfold bind at 1. rewrite Hmsg. intros [= <- _]. eauto.
      * unfold raise. intros [= <- _]. eauto.
    + eauto.
    + unfold mp_workers, mp_procs. rewrite Hst. simpl snd.
      now rewrite skipn_all.
Qed.

(** The defaults of the command line select no training mode: the check
    raises, and [fast_train_mp] with it, with nothing changed. *)
Lemma init_device_emb_validates_witness :
  exists msg,
    fast_train_mp (fun _ l => l) Cli.defaults (example_world 3)
    = (Raise (Py.AssertionError msg), example_world 3).
Proof.
  refine (proj1 (proj2 (proj2 (proj2 (proj2
            (init_device_emb_validates (fun _ l => l) (fun _ _ => 0%nat) 3
               Cli.defaults (mkDataset 3 []) (example_world 3))) _)))).
  left. unfold exactly_one. simpl. intuition discriminate.
Defined.

(* ------------------------------------------------------------------ *)
(** ** Workers: empty shards and single passes *)

Section WorkerFacts.

Variable rand : nat -> nat -> nat.
Variables (a : Args) (ds : Dataset).

(** A worker whose horizon is zero raises at its first rate, before any
    learning call. *)
Lemma fast_train_sp_zero_horizon (fuel : nat) (walks : list walk) (gpu_id nb : Z)
    (w : World) :
  Py.ceil_div (Z.of_nat (length walks)) (batch_size a) = Some nb ->
  iterations a * nb = 0 ->
  fast_train_sp rand (S fuel) a ds walks gpu_id w = (Raise Py.ZeroDivisionError, w).
Proof.
  intros Hnb Hm. unfold fast_train_sp, bind at 1, or_zero_division.
  rewrite Hnb. unfold ret at 1. cbv zeta. unfold bind at 1.
  rewrite training_loop_S. unfold bind at 1, decayed_lr.
  rewrite Hm. reflexivity.
Qed.

(** A worker never returns while its horizon is zero. *)
Lemma fast_train_sp_zero_horizon_no_return (fuel : nat) (walks : list walk)
    (gpu_id nb : Z) (w : World) :
  Py.ceil_div (Z.of_nat (length walks)) (batch_size a) = Some nb ->
  iterations a * nb = 0 ->
  fst (fast_train_sp rand fuel a ds walks gpu_id w) <> Ret tt
  /\ snd (fast_train_sp rand fuel a ds walks gpu_id w) = w.
Proof.
  intros Hnb Hm. destruct fuel as [|fuel].
  - unfold fast_train_sp, bind at 1, or_zero_division.
    rewrite Hnb. unfold ret at 1. cbv zeta. unfold bind at 1. simpl.
    split; [discriminate | reflexivity].
  - rewrite (fast_train_sp_zero_horizon fuel walks gpu_id nb w Hnb Hm). simpl.
    split; [discriminate | reflexivity].
Qed.

End WorkerFacts.





(** A worker on a non-empty shard, with a positive batch size, a horizon
    other than zero and a sampling that cannot raise: it returns once fuel
    covers its batches, after one call per batch of the shard. *)
Lemma fast_train_sp_pass (rand : nat -> nat -> nat) (a : Args) (ds : Dataset)
    (fuel : nat) (walks : list walk) (gpu_id nb : Z) (w : World) :
  0 < batch_size a ->
  walks <> [] ->
  Py.ceil_div (Z.of_nat (length walks)) (batch_size a) = Some nb ->
  iterations a <> 0 ->
  sampling_ok a ds (num_pos_of a) ->
  nb <= Z.of_nat fuel ->
  exists w' new,
    fast_train_sp rand fuel a ds walks gpu_id w = (Ret tt, w')
    /\ learn_log w' = learn_log w ++ new
    /\ same_frame w w'
    /\ Z.of_nat (length new) = nb
    /\ steps_from (step_ok a ds walks nb (num_pos_of a) (iterations a * nb)) 0 new
    /\ map lc_walks new = batches_of walks (batch_size a) nb.
Proof.
  intros Hbs Hne Hnb Hit Hs Hfuel.
  assert (Hpos : 0 < nb).
  { pose proof (ceil_div_spec _ _ _ Hbs Hnb).
    destruct walks; [contradiction | simpl length in *; nia]. }
  destruct (training_loop_pass rand a ds fuel walks nb (num_pos_of a)
              (iterations a * nb) 0 w Hbs Hne Hnb ltac:(nia) Hs
              (Z.mod_0_l nb ltac:(lia)) Hfuel)
    as (w' & new & Hrun & Hlog & Hfr & _ & Hlen & Hst & Hw).
  exists w', new. repeat split; trivial; try apply Hfr.
  unfold fast_train_sp, bind at 1, or_zero_division. rewrite Hnb.
  unfold ret at 1. cbv zeta. unfold bind. now rewrite Hrun.
Qed.

(* ------------------------------------------------------------------ *)
(** ** The epochs of [fast_train] *)

(** The walk list after [n] more shuffles, the first of them the [k]-th
    call of [shuffle_walks]. *)
Fixpoint shuffled (shuffle_walks : nat -> list walk -> list walk)
    (k : nat) (ws : list walk) (n : nat) : list walk :=
  match n with
  | O => ws
  | S n' => shuffled shuffle_walks (S k) (shuffle_walks k ws) n'
  end.

Lemma shuffled_perm (shuffle_walks : nat -> list walk -> list walk) :
  (forall k l, Permutation (shuffle_walks k l) l) ->
  forall n k ws, Permutation (shuffled shuffle_walks k ws n) ws.
Proof.
  intros Hsh. induction n as [|n IH]; intros k ws; simpl.
  - apply Permutation_refl.
  - eapply Permutation_trans; [apply IH | apply Hsh].
Qed.

Lemma flat_map_seq_shift {B : Type} (f : nat -> list B) (n : nat) :
  flat_map f (seq 1 n) = flat_map (fun e => f (S e)) (seq 0 n).
Proof.
  rewrite <- seq_shift. induction (seq 0 n) as [|x l IH]; simpl; [reflexivity|].
  now rewrite IH.
Qed.

Section EpochFacts.

Variable shuffle_walks : nat -> list walk -> list walk.
Variable rand : nat -> nat -> nat.
Variables (a : Args) (ds : Dataset).

Hypothesis shuffle_perm : forall k l, Permutation (shuffle_walks k l) l.

Lemma shuffle_length (k : nat) (l : list walk) :
  length (shuffle_walks k l) = length l.
Proof. apply Permutation_length, shuffle_perm. Qed.

(** [n] epochs that start at a multiple of the batch count: each shuffles
    the walk list and makes one pass over it. *)
Lemma epochs_pass (fuel : nat) (num_batches num_pos max_i : Z) (n : nat) :
  0 < batch_size a ->
  sampling_ok a ds num_pos ->
  (n <> O -> max_i <> 0) ->
  num_batches <= Z.of_nat fuel ->
  forall (i : Z) (w : World),
    ds_walks w <> [] ->
    Py.ceil_div (Z.of_nat (length (ds_walks w))) (batch_size a) = Some num_batches ->
    i mod num_batches = 0 ->
    exists w' new,
      epochs shuffle_walks rand n fuel a ds num_batches num_pos max_i i w
      = (Ret (i + Z.of_nat n * num_batches), w')
      /\ learn_log w' = learn_log w ++ new
      /\ ds_walks w' = shuffled shuffle_walks (n_shuffles w) (ds_walks w) n
      /\ n_shuffles w' = (n_shuffles w + n)%nat
      /\ saved w' = saved w
      /\ map lc_walks new
         = flat_map (fun e => batches_of
                                (shuffled shuffle_walks (n_shuffles w) (ds_walks w) (S e))
                                (batch_size a) num_batches)
                    (seq 0 n).
Proof.
  intros Hbs Hs Hm Hfuel. induction n as [|n IH]; intros i w Hne Hnb Hi.
  - exists w, []. simpl. unfold ret. rewrite app_nil_r, Nat.add_0_r.
    repeat split; trivial. do 2 f_equal. lia.
  - simpl epochs. unfold bind at 1, shuffle_dataset.
    unfold bind at 1, get_walks. cbv beta iota. simpl ds_walks.
    set (ws1 := shuffle_walks (n_shuffles w) (ds_walks w)).
    set (w1 := mkWorld ws1 (learn_log w) (S (n_shuffles w)) (n_draws w)
                 (spawned w) (saved w)).
    assert (Hlen1 : length ws1 = length (ds_walks w)) by apply shuffle_length.
    assert (Hne1 : ws1 <> []).
    { intros E. rewrite E in Hlen1. destruct (ds_walks w); [contradiction|discriminate]. }
    assert (Hnb1 : Py.ceil_div (Z.of_nat (length ws1)) (batch_size a) = Some num_batches)
      by (now rewrite Hlen1).
    destruct (training_loop_pass rand a ds fuel ws1 num_batches num_pos max_i i w1
                Hbs Hne1 Hnb1 (Hm ltac:(discriminate)) Hs Hi Hfuel)
      as (w2 & new1 & Hrun & Hlog1 & Hfr & _ & _ & _ & Hw1).
    unfold bind at 1. rewrite Hrun.
    destruct Hfr as (Hd2 & Hs2 & _ & Hsv2). simpl in Hd2, Hs2, Hsv2, Hlog1.
    assert (Hm' : n <> O -> max_i <> 0) by (intros _; apply Hm; discriminate).
    destruct (IH Hm' (i + num_batches) w2) as (w' & new & Hrun' & Hlog & Hd & Hsh & Hsv & Hw).
    + now rewrite Hd2.
    + now rewrite Hd2.
    + rewrite <- (Z.mul_1_l num_batches) at 1.
      rewrite Z_mod_plus_full. exact Hi.
    + exists w', (new1 ++ new). rewrite Hrun'.
      split; [do 2 f_equal; lia|].
      split; [now rewrite Hlog, Hlog1, app_assoc|].
      split; [now rewrite Hd, Hs2, Hd2|].
      split; [rewrite Hsh, Hs2; lia|].
      split; [congruence|].
      rewrite map_app, Hw1, Hw, Hs2, Hd2.
      change (seq 0 (S n)) with (0%nat :: seq 1 n).
      simpl flat_map. f_equal.
      now rewrite flat_map_seq_shift.
Qed.

End EpochFacts.

(** The epochs of [fast_train] without its output. With a valid
    configuration, a positive batch size, a shuffle that permutes, the
    [len(net) * num_walks] walks of the dataset (at least one) and a
    sampling that cannot raise, the learning calls of [fast_train] are those
    of [iterations] epochs (none for a negative count): each starts with
    one shuffle of the whole walk list and processes its [num_batches]
    batches, the consecutive slices of width [batch_size], in order; the
    rate of step [k] is the decay over the horizon
    [iterations * num_batches]. *)
Lemma fast_train_epochs_calls
    (shuffle_walks : nat -> list walk -> list walk) (rand : nat -> nat -> nat)
    (a : Args) (ds : Dataset) (w : World) :
  (forall k l, Permutation (shuffle_walks k l) l) ->
  valid_config a ->
  0 < batch_size a ->
  ds_walks w <> [] ->
  Z.of_nat (length (ds_walks w)) = net_len ds * num_walks a ->
  sampling_ok a ds (num_pos_of a) ->
  let epoch_walks := fun e : nat =>
    shuffled shuffle_walks (n_shuffles w) (ds_walks w) (S e) in
  let n := Z.to_nat (iterations a) in
  exists num_batches,
    Py.ceil_div (net_len ds * num_walks a) (batch_size a) = Some num_batches
    /\ 0 < num_batches
    /\ (forall e,
          Permutation (epoch_walks e) (ds_walks w)
          /\ length (batches_of (epoch_walks e) (batch_size a) num_batches)
             = Z.to_nat num_batches
          /\ concat (batches_of (epoch_walks e) (batch_size a) num_batches)
             = epoch_walks e)
    /\ forall fuel, num_batches <= Z.of_nat fuel ->
         exists w',
           fast_train shuffle_walks rand fuel a ds w = (Ret tt, w')
           /\ n_shuffles w' = (n_shuffles w + n)%nat
           /\ saved w' = S (saved w)
           /\ map lc_walks (new_calls w w')
              = flat_map (fun e => batches_of (epoch_walks e) (batch_size a) num_batches)
                         (seq 0 n)
           /\ Z.of_nat (length (new_calls w w')) = Z.of_nat n * num_batches
           /\ forall k c, nth_error (new_calls w w') k = Some c ->
                          decayed_rate_at a (iterations a * num_batches) k c.
Proof.
  intros Hsh Hv Hbs Hne Hlen Hs epoch_walks n.
  destruct (ceil_div_some (net_len ds * num_walks a) (batch_size a)) as [nb Hnb];
    [lia|].
  pose proof (ceil_div_spec _ _ _ Hbs Hnb) as Hspec.
  assert (Hpos : 0 < nb)
    by (destruct (ds_walks w); [contradiction | simpl length in *; nia]).
  exists nb. split; [exact Hnb|]. split; [exact Hpos|]. split.
  - intros e.
    assert (Hp : Permutation (epoch_walks e) (ds_walks w))
      by exact (shuffled_perm shuffle_walks Hsh (S e) (n_shuffles w) (ds_walks w)).
    split; [exact Hp|]. split; [apply batches_of_length|].
    apply batches_concat; try lia.
    rewrite (Permutation_length Hp). lia.
  - intros fuel Hfuel.
    assert (Hm : n <> O -> iterations a * nb <> 0) by (unfold n; nia).
    destruct (epochs_pass shuffle_walks rand a ds Hsh fuel nb (num_pos_of a)
                (iterations a * nb) n Hbs Hs Hm Hfuel 0 w Hne)
      as (w1 & new & Hrun & Hlog & _ & Hshf & Hsv & Hw).
    { now rewrite Hlen. }
    { apply Z.mod_0_l. lia. }
    pose proof Hrun as Hrun'. apply epochs_log in Hrun'.
    destruct Hrun' as (new' & Hlog' & _ & _ & _ & Hst & Hret & _).
    assert (new' = new) as ->.
    { apply (app_inv_head (learn_log w)). congruence. }
    specialize (Hret _ eq_refl).
    exists (mkWorld (ds_walks w1) (learn_log w1) (n_shuffles w1) (n_draws w1)
              (spawned w1) (S (saved w1))).
    split.
    { unfold fast_train. cbv zeta. unfold bind at 1, or_zero_division.
      rewrite Hnb. unfold ret at 1. unfold bind at 1.
      rewrite (proj2 (init_device_emb_ok a w) Hv).
      unfold bind. fold n. rewrite Hrun. reflexivity. }
    simpl n_shuffles. simpl saved.
    assert (Hnew : new_calls w (mkWorld (ds_walks w1) (learn_log w1) (n_shuffles w1)
                                  (n_draws w1) (spawned w1) (S (saved w1))) = new)
      by (apply new_calls_app; exact Hlog).
    rewrite Hnew.
    split; [exact Hshf|]. split; [congruence|]. split; [exact Hw|].
    split; [lia|].
    intros k c Hk. apply (call_ok_decayed_rate a ds (num_pos_of a)).
    eapply steps_from_nth; eassumption.
Qed.

(* ------------------------------------------------------------------ *)
(** ** What a worker depends on *)

(** Two states agree on what a worker reads and writes: the log of learning
    calls and the position of the random source. *)
Definition same_inputs (w1 w2 : World) : Prop :=
  learn_log w1 = learn_log w2 /\ n_draws w1 = n_draws w2.

(** A computation whose outcome and effect depend on those inputs only. *)
Definition local {A : Type} (m : M A) : Prop :=
  forall w1 w2, same_inputs w1 w2 ->
    fst (m w1) = fst (m w2) /\ same_inputs (snd (m w1)) (snd (m w2)).

Lemma local_ret {A : Type} (x : A) : local (ret x).
Proof. intros w1 w2 H. simpl. auto. Qed.

Lemma local_raise {A : Type} (e : Py.exn) : local (@raise A e).
Proof. intros w1 w2 H. simpl. auto. Qed.

Lemma local_bind {A B : Type} (m : M A) (k : A -> M B) :
  local m -> (forall x, local (k x)) -> local (bind m k).
Proof.
  intros Hm Hk w1 w2 H. unfold bind.
  destruct (Hm w1 w2 H) as [Hr Hw].
  destruct (m w1) as [r1 w1'], (m w2) as [r2 w2']. simpl in Hr, Hw. subst r2.
  destruct r1; simpl; auto. now apply Hk.
Qed.

Lemma local_or_zero_division {A : Type} (o : option A) : local (or_zero_division o).
Proof. destruct o; [apply local_ret | apply local_raise]. Qed.

Lemma local_decayed_lr (a : Args) (max_i i : Z) : local (decayed_lr a max_i i).
Proof.
  unfold decayed_lr. destruct (max_i =? 0); [apply local_raise | apply local_ret].
Qed.

Lemma local_fast_learn_super (ws : list walk) (rate : Q) (neg : option (list Z)) :
  local (fast_learn_super ws rate neg).
Proof.
  intros w1 w2 [Hl Hd]. unfold fast_learn_super, same_inputs. simpl.
  rewrite Hl. auto.
Qed.

Lemma local_random_choice (rand : nat -> nat -> nat) (tbl : list Z) (size : Z) :
  local (random_choice rand tbl size).
Proof.
  intros w1 w2 [Hl Hd]. unfold random_choice, same_inputs.
  destruct (size <? 0); [simpl; auto|].
  destruct (Nat.eqb (length tbl) 0 && (0 <? size)); simpl; [auto|].
  rewrite Hd. auto.
Qed.

Lemma local_training_loop (rand : nat -> nat -> nat) (a : Args) (ds : Dataset)
    (walks : list walk) (num_batches num_pos max_i : Z) (fuel : nat) :
  forall i, local (training_loop rand fuel a ds walks num_batches num_pos max_i i).
Proof.
  induction fuel as [|fuel IH]; intros i.
  - intros w1 w2 H. simpl. auto.
  - rewrite training_loop_S.
    apply local_bind; [apply local_decayed_lr|]. intros rate.
    apply local_bind; [apply local_or_zero_division|]. intros i_.
    cbv zeta. destruct (Nat.eqb _ 0); [apply local_ret|].
    apply local_bind.
    + destruct (fast_neg a); [apply local_fast_learn_super|].
      apply local_bind; [apply local_random_choice|].
      intros neg. apply local_fast_learn_super.
    + intros _. destruct (i_ =? num_batches - 1); [apply local_ret | apply IH].
Qed.

Lemma local_fast_train_sp (rand : nat -> nat -> nat) (a : Args) (ds : Dataset)
    (fuel : nat) (walks : list walk) (gpu_id : Z) :
  local (fast_train_sp rand fuel a ds walks gpu_id).
Proof.
  unfold fast_train_sp.
  apply local_bind; [apply local_or_zero_division|]. intros nb.
  apply local_bind; [apply local_training_loop|]. intros _. apply local_ret.
Qed.

(** The parent's side of [fast_train_mp] leaves the random source where it
    is. *)
Lemma mp_start_draws (shuffle_walks : nat -> list walk -> list walk)
    (a : Args) (w : World) :
  n_draws (snd (mp_start shuffle_walks a w)) = n_draws w.
Proof.
  unfold mp_start, bind at 1.
  destruct (init_device_emb_cases a w) as [H|[msg H]]; rewrite H; [|reflexivity].
  unfold bind at 1, shuffle_dataset. unfold bind at 1, get_walks.
  cbv beta iota. simpl ds_walks.
  destruct (Z.eq_dec (num_procs a) 0) as [Hz|Hz].
  - rewrite Hz. reflexivity.
  - rewrite start_workers_run by assumption. reflexivity.
Qed.

(** With a valid configuration [fast_train_mp] starts one worker per
    shard of the shuffled walk list. *)
Lemma mp_procs_shards (shuffle_walks : nat -> list walk -> list walk)
    (a : Args) (w : World) :
  valid_config a ->
  mp_procs shuffle_walks a w
  = map (shard_of (shuffle_walks (n_shuffles w) (ds_walks w)) (num_procs a))
        (Py.range (num_procs a)).
Proof.
  intros Hv. unfold mp_procs, mp_start, bind at 1.
  rewrite (proj2 (init_device_emb_ok a w) Hv).
  unfold bind at 1, shuffle_dataset. unfold bind at 1, get_walks.
  cbv beta iota. simpl ds_walks.
  rewrite start_workers_run by (destruct Hv as (_ & _ & ?); lia).
  simpl. rewrite skipn_app, skipn_all, Nat.sub_diag. reflexivity.
Qed.

(** The horizon [max_i] a worker computes for its shard (lines 105 and
    116); [None] for the ZeroDivisionError of a zero batch size. *)
Definition sp_horizon (a : Args) (shard : list walk) : option Z :=
  option_map (fun num_batches => iterations a * num_batches)
             (Py.ceil_div (Z.of_nat (length shard)) (batch_size a)).

(** The arguments of the example below: the defaults with two processes. *)
Definition mp_args : Args := Cli.set_num_procs 2 example_args.

(** Seven walks, two processes, batches of ten: the shards have three and
    four walks, and both workers use the horizon [1 * 1]. *)
Lemma equal_horizons_counterexample :
  ~ (forall p q,
        In p (mp_procs (fun _ l => l) mp_args (example_world 7)) ->
        In q (mp_procs (fun _ l => l) mp_args (example_world 7)) ->
        length (proc_walks p) <> length (proc_walks q) ->
        sp_horizon mp_args (proc_walks p) <> sp_horizon mp_args (proc_walks q)).
Proof.
  intros H.
  apply (H (mkProc (firstn 3 (example_walks 7)) 0)
           (mkProc (skipn 3 (example_walks 7)) 1)).
  - vm_compute. auto.
  - vm_compute. auto.
  - vm_compute. discriminate.
  - vm_compute. reflexivity.
Qed.

(** C7, amended. In multi-process mode with a valid configuration the
    workers are started on the shards of the shuffled walk list, and each
    worker runs [fast_train_sp] on its own shard: every batch it learns is
    a slice of width [batch_size] of that shard, and the rate of its
    [k]-th step is the decay over the horizon
    [iterations * ceil(len(own shard) / batch_size)]. What a worker does is
    the same for every state of the parent that has the same position of
    the random source, whatever the walk list and the other shards are. Two
    workers use the same horizon exactly when [iterations] is zero or their
    shards need the same number of batches; shards of different sizes may
    need the same number. *)
Theorem workers_use_local_horizon
    (shuffle_walks : nat -> list walk -> list walk) (rand : nat -> nat -> nat)
    (fuel : nat) (a : Args) (ds : Dataset) (w : World) :
  valid_config a ->
  let ws := shuffle_walks (n_shuffles w) (ds_walks w) in
  map proc_walks (mp_procs shuffle_walks a w)
  = map (fun i => Py.slice ws (Z.quot (i * Z.of_nat (length ws)) (num_procs a))
                    (Z.quot ((i + 1) * Z.of_nat (length ws)) (num_procs a)))
        (Py.range (num_procs a))
  /\ mp_workers shuffle_walks rand fuel a ds w
     = map (fun p => fast_train_sp rand fuel a ds (proc_walks p) (proc_gpu p)
                       (forked (snd (mp_start shuffle_walks a w))))
           (mp_procs shuffle_walks a w)
  /\ (forall p num_batches k c,
        In p (mp_procs shuffle_walks a w) ->
        Py.ceil_div (Z.of_nat (length (proc_walks p))) (batch_size a)
        = Some num_batches ->
        nth_error
          (learn_log (snd (run_worker rand fuel a ds
                             (snd (mp_start shuffle_walks a w)) p))) k = Some c ->
        sp_horizon a (proc_walks p) = Some (iterations a * num_batches)
        /\ decayed_rate_at a (iterations a * num_batches) k c
        /\ lc_walks c
           = Py.slice (proc_walks p)
               (Z.of_nat k mod num_batches * batch_size a)
               ((1 + Z.of_nat k mod num_batches) * batch_size a))
  /\ (forall (w2 : World) (p : Proc),
        n_draws w2 = n_draws w ->
        let run1 := run_worker rand fuel a ds (snd (mp_start shuffle_walks a w)) p in
        let run2 := run_worker rand fuel a ds (snd (mp_start shuffle_walks a w2)) p in
        fst run1 = fst run2 /\ learn_log (snd run1) = learn_log (snd run2))
  /\ (forall (s1 s2 : list walk) (nb1 nb2 : Z),
        Py.ceil_div (Z.of_nat (length s1)) (batch_size a) = Some nb1 ->
        Py.ceil_div (Z.of_nat (length s2)) (batch_size a) = Some nb2 ->
        (sp_horizon a s1 = sp_horizon a s2 <-> iterations a = 0 \/ nb1 = nb2)).
Proof.
  intros Hv ws. split; [|split; [|split; [|split]]].
  - rewrite mp_procs_shards by assumption. rewrite map_map. reflexivity.
  - reflexivity.
  - intros p nb k c _ Hnb Hk.
    unfold run_worker in Hk.
    destruct (fast_train_sp rand fuel a ds (proc_walks p) (proc_gpu p)
                (forked (snd (mp_start shuffle_walks a w)))) as [r w'] eqn:E.
    apply fast_train_sp_log in E.
    destruct E as (new & Hlog & _ & _ & _ & Hst).
    simpl in Hlog, Hk. rewrite Hlog in Hk.
    destruct (Hst nb Hnb) as [Hsteps _].
    pose proof (steps_from_nth _ _ _ _ _ Hsteps Hk) as Hstep.
    split; [unfold sp_horizon; now rewrite Hnb|]. split.
    + apply (call_ok_decayed_rate a ds (num_pos_of a)).
      eapply step_ok_call_ok. exact Hstep.
    + destruct Hstep as (_ & _ & _ & Hw & _). now rewrite Z.add_0_l in Hw.
  - intros w2 p Hd run1 run2. unfold run1, run2, run_worker.
    destruct (local_fast_train_sp rand a ds fuel (proc_walks p) (proc_gpu p)
                (forked (snd (mp_start shuffle_walks a w)))
                (forked (snd (mp_start shuffle_walks a w2)))) as [H1 [H2 _]].
    + unfold same_inputs, forked. simpl. split; [reflexivity|].
      rewrite !mp_start_draws. congruence.
    + auto.
  - intros s1 s2 nb1 nb2 H1 H2. unfold sp_horizon. rewrite H1, H2. simpl.
    split.
    + intros [= E]. destruct (Z.eq_dec (iterations a) 0); [auto|].
      right. apply Z.mul_reg_l with (iterations a); assumption.
    + intros [E| ->]; [|reflexivity]. now rewrite E.
Qed.

(** On the seven walks and two processes of the example: the second worker
    learns its four walks as one batch, at the initial rate. *)
Lemma workers_use_local_horizon_witness :
  map (fun run => map lc_walks (learn_log (snd run)))
      (mp_workers (fun _ l => l) (fun _ _ => 0%nat) 3 mp_args (mkDataset 7 [])
         (example_world 7))
  = [[firstn 3 (example_walks 7)]; [skipn 3 (example_walks 7)]]
  /\ sp_horizon mp_args (skipn 3 (example_walks 7)) = Some (1 * 1).
Proof.
  split; [vm_compute; reflexivity|].
  refine (proj1 (proj1 (proj2 (proj2
            (workers_use_local_horizon (fun _ l => l) (fun _ _ => 0%nat) 3 mp_args
               (mkDataset 7 []) (example_world 7) _)))
            (mkProc (skipn 3 (example_walks 7)) 1) 1 0%nat
            (mkLearnCall (skipn 3 (example_walks 7))
                         ((2 # 10) * inject_Z (1 - 0) / inject_Z 1)%Q None)
            _ eq_refl eq_refl)).
  - unfold valid_config, exactly_one. simpl. intuition lia.
  - vm_compute. auto.
Defined.

(* ------------------------------------------------------------------ *)
(** ** The command line never disables [fast_neg] *)

(** An action that leaves a set [fast_neg] set. *)
Definition keeps_fast_neg (act : Cli.action) : Prop :=
  match act with
  | Cli.Store_str set => forall v a, fast_neg a = true -> fast_neg (set v a) = true
  | Cli.Store_int set => forall v a, fast_neg a = true -> fast_neg (set v a) = true
  | Cli.Store_float set => forall v a, fast_neg a = true -> fast_neg (set v a) = true
  | Cli.Store_true set => forall a, fast_neg a = true -> fast_neg (set true a) = true
  end.

Lemma options_keep_fast_neg :
  Forall (fun o => keeps_fast_neg (snd o)) Cli.options.
Proof.
  unfold Cli.options.
  repeat (constructor; [simpl; intros; trivial|]). constructor.
Qed.

Lemma resolve_option (name : string) (act : Cli.action) :
  Cli.resolve name = Some act -> exists o, In o Cli.options /\ snd o = act.
Proof.
  unfold Cli.resolve.
  destruct (find _ Cli.options) as [o|] eqn:Hfind.
  - intros [= <-]. apply find_some in Hfind. exists o. tauto.
  - destruct (filter _ Cli.options) as [|o [|o' l]] eqn:Hfilter; try discriminate.
    intros [= <-]. exists o. split; [|reflexivity].
    assert (Hin : In o (filter (fun o0 => String.prefix name (fst o0)) Cli.options))
      by (rewrite Hfilter; now left).
    apply filter_In in Hin. tauto.
Qed.

Lemma resolve_keeps_fast_neg (name : string) (act : Cli.action) :
  Cli.resolve name = Some act -> keeps_fast_neg act.
Proof.
  intros H. destruct (resolve_option name act H) as (o & Hin & <-).
  pose proof options_keep_fast_neg as HF. rewrite Forall_forall in HF. auto.
Qed.

Section ParserFacts.

Variable py_int : string -> option Z.
Variable py_float : string -> option Q.

Lemma store_keeps_fast_neg (act : Cli.action) (v : string) (a a' : Args) :
  keeps_fast_neg act -> fast_neg a = true ->
  Cli.store py_int py_float act v a = Some a' -> fast_neg a' = true.
Proof.
  intros Hk Ha. destruct act as [set|set|set|set]; simpl in *.
  - intros [= <-]. auto.
  - destruct (py_int v); [|discriminate]. intros [= <-]. simpl. auto.
  - destruct (py_float v); [|discriminate]. intros [= <-]. simpl. auto.
  - discriminate.
Qed.

(** Parsing keeps a set [fast_neg] set, whatever the tokens. *)
Lemma parse_keeps_fast_neg (n : nat) :
  forall (argv : list string) (a a' : Args),
    (length argv <= n)%nat -> fast_neg a = true ->
    Cli.parse py_int py_float argv a = Some a' -> fast_neg a' = true.
Proof.
  induction n as [|n IH]; intros argv a a' Hlen Ha.
  - destruct argv; [|simpl in Hlen; lia]. simpl. now intros [= <-].
  - destruct argv as [|tok rest]; [simpl; now intros [= <-]|].
    simpl in Hlen. simpl Cli.parse.
    destruct (String.eqb tok "--").
    { destruct rest; [now intros [= <-] | discriminate]. }
    destruct (Cli.split_eq tok) as [name explicit].
    destruct (Cli.resolve name) as [act|] eqn:Hres; [|discriminate].
    pose proof (resolve_keeps_fast_neg name act Hres) as Hk.
    assert (Hstore : forall v tail a1,
              (length tail <= n)%nat ->
              match Cli.store py_int py_float act v a with
              | Some a0 => Cli.parse py_int py_float tail a0
              | None => None
              end = Some a1 -> fast_neg a1 = true).
    { intros v tail a1 Ht.
      destruct (Cli.store py_int py_float act v a) as [a0|] eqn:Hs; [|discriminate].
      apply (IH tail a0 a1 Ht).
      eapply store_keeps_fast_neg; eassumption. }
    destruct act as [set|set|set|set].
    + destruct explicit as [v|]; [apply Hstore; lia|].
      destruct rest as [|v rest']; [discriminate|]. apply Hstore. simpl in Hlen. lia.
    + destruct explicit as [v|]; [apply Hstore; lia|].
      destruct rest as [|v rest']; [discriminate|]. apply Hstore. simpl in Hlen. lia.
    + destruct explicit as [v|]; [apply Hstore; lia|].
      destruct rest as [|v rest']; [discriminate|]. apply Hstore. simpl in Hlen. lia.
    + destruct explicit; [discriminate|].
      apply IH; [lia|]. simpl in Hk. auto.
Qed.

End ParserFacts.

Lemma fast_neg_no_table (a : Args) (ds : Dataset) (num_pos : Z) (c : LearnCall) :
  fast_neg a = true -> neg_ok a ds num_pos c -> lc_neg c = None.
Proof. unfold neg_ok. now intros ->. Qed.

(** The parent of the workers makes no learning call and draws nothing. *)
Lemma fast_train_mp_frame (shuffle_walks : nat -> list walk -> list walk)
    (a : Args) (w : World) :
  learn_log (snd (fast_train_mp shuffle_walks a w)) = learn_log w
  /\ n_draws (snd (fast_train_mp shuffle_walks a w)) = n_draws w.
Proof.
  unfold fast_train_mp, bind.
  assert (H : learn_log (snd (mp_start shuffle_walks a w)) = learn_log w
              /\ n_draws (snd (mp_start shuffle_walks a w)) = n_draws w).
  { split; [|apply mp_start_draws].
    unfold mp_start, bind at 1.
    destruct (init_device_emb_cases a w) as [H|[msg H]]; rewrite H; [|reflexivity].
    unfold bind at 1, shuffle_dataset. unfold bind at 1, get_walks.
    cbv beta iota. simpl ds_walks.
    destruct (Z.eq_dec (num_procs a) 0) as [Hz|Hz].
    - rewrite Hz. reflexivity.
    - rewrite start_workers_run by assumption. reflexivity. }
  destruct (mp_start shuffle_walks a w) as [[[]|e|] w1]; simpl in *; exact H.
Qed.

(** C10. Every command line the parser accepts yields [args.fast_neg =
    True]: the option is declared [store_true] with default [True], and no
    action of the table stores [False] in it. Consequently no run of
    [train] on parsed arguments, single-process or with workers, passes
    table-drawn [neg_nodes] to a learning call or draws from the table. *)
Theorem cli_fast_neg_always_true
    (py_int : string -> option Z) (py_float : string -> option Q)
    (argv : list string) (a : Args) :
  Cli.parse_args py_int py_float argv = Some a ->
  fast_neg a = true
  /\ forall (shuffle_walks : nat -> list walk -> list walk)
            (rand : nat -> nat -> nat) (fuel : nat) (ds : Dataset) (w : World),
       let w' := snd (train shuffle_walks rand fuel a ds w) in
       (forall c, In c (new_calls w w') -> lc_neg c = None)
       /\ n_draws w' = n_draws w
       /\ forall run,
            In run (mp_workers shuffle_walks rand fuel a ds w) ->
            (forall c, In c (learn_log (snd run)) -> lc_neg c = None)
            /\ n_draws (snd run) = n_draws w.
Proof.
  intros Hparse.
  assert (Hf : fast_neg a = true).
  { unfold Cli.parse_args in Hparse.
    apply (parse_keeps_fast_neg py_int py_float (length argv) argv Cli.defaults a);
      trivial. }
  split; [exact Hf|].
  intros shuffle_walks rand fuel ds w w'.
  split; [|split].
  - unfold w', train. destruct (num_procs a >? 1).
    + destruct (fast_train_mp_frame shuffle_walks a w) as [Hl _].
      intros c. rewrite (new_calls_app _ _ [] ); [contradiction|].
      now rewrite app_nil_r.
    + destruct (fast_train shuffle_walks rand fuel a ds w) as [r w1] eqn:E.
      apply fast_train_log in E.
      destruct E as (new & Hlog & _ & _ & Hnil & _ & Hst).
      simpl snd. rewrite (new_calls_app _ _ _ Hlog).
      destruct (Py.ceil_div (net_len ds * num_walks a) (batch_size a)) as [nb|].
      * destruct (Hst nb eq_refl) as [Hs _].
        assert (HF : Forall (fun c => lc_neg c = None) new).
        { apply (steps_from_Forall _ _ _ _ Hs). intros j c (_ & _ & _ & Hn).
          eapply fast_neg_no_table; eassumption. }
        rewrite Forall_forall in HF. exact HF.
      * rewrite (Hnil eq_refl). intros c [].
  - unfold w', train. destruct (num_procs a >? 1).
    + apply fast_train_mp_frame.
    + destruct (fast_train shuffle_walks rand fuel a ds w) as [r w1] eqn:E.
      apply fast_train_log in E.
      destruct E as (new & _ & _ & Hd & _). simpl. auto.
  - intros run Hin. unfold mp_workers in Hin. apply in_map_iff in Hin.
    destruct Hin as (p & <- & _). unfold run_worker.
    destruct (fast_train_sp rand fuel a ds (proc_walks p) (proc_gpu p)
                (forked (snd (mp_start shuffle_walks a w)))) as [r w1] eqn:E.
    apply fast_train_sp_log in E.
    destruct E as (new & Hlog & _ & Hd & Hnil & Hst).
    simpl in Hlog, Hd. simpl snd. rewrite Hlog, (Hd Hf), mp_start_draws.
    split; [|reflexivity].
    destruct (Py.ceil_div (Z.of_nat (length (proc_walks p))) (batch_size a)) as [nb|].
    + destruct (Hst nb eq_refl) as [Hs _].
      assert (HF : Forall (fun c => lc_neg c = None) new).
      { apply (steps_from_Forall _ _ _ _ Hs). intros j c (_ & _ & _ & _ & _ & Hn).
        eapply fast_neg_no_table; eassumption. }
      rewrite Forall_forall in HF. exact HF.
    + rewrite (Hnil eq_refl). intros c [].
Qed.

(** A command line that names the option, abbreviated, among others. *)
Lemma cli_fast_neg_always_true_witness :
  exists a,
    Cli.parse_args (fun _ => Some 2) (fun _ => Some (1 # 2))
      ["--only_cpu"; "--fast"; "--sgd"; "--batch_size=2"; "--lr"; "0.5"]%string
    = Some a
    /\ fast_neg a = true /\ batch_size a = 2.
Proof.
  eexists. split; [vm_compute; reflexivity|]. split; [|reflexivity].
  exact (proj1 (cli_fast_neg_always_true (fun _ => Some 2) (fun _ => Some (1 # 2))
                  ["--only_cpu"; "--fast"; "--sgd"; "--batch_size=2"; "--lr"; "0.5"]%string
                  _ eq_refl)).
Defined.

(* ================================================================== *)
(** * The training functions with their output

    The functions above leave out what the trainer prints. The progress
    line of lines 143-145 and 195-197 is printed when
    [i % self.args.print_interval == 0], a test that raises
    ZeroDivisionError for [print_interval = 0]; the functions below are
    [fast_train_sp], [init_device_emb] and [fast_train] with their [print]
    calls, the elapsed times of the lines left out. A run returns the lines
    it printed. What is proved about a run returning is proved of these. *)

Inductive line : Type :=
| Line_num_batches (num_batches : Z) (gpu_id : option Z)
| Line_iteration (n : Z)
| Line_batch (gpu_id : option Z) (i : Z)
| Line_used_time
| Line_run_gpu
| Line_mix (num_procs : Z)
| Line_run_cpu (num_procs : Z).

(** Lines 61-69: the line [init_device_emb] prints at its end,
    ["Run in 1 GPU"], ["Mix CPU with %d GPU"] or ["Run in %d CPU process"]
    with [num_procs]. *)
Definition device_line (a : Args) : line :=
  if only_gpu a then Line_run_gpu
  else if mix a then Line_mix (num_procs a)
  else Line_run_cpu (num_procs a).

(** Lines 30-69 with their output. *)
Definition init_device_emb_logged (a : Args) (out : list line) : M (list line) :=
  init_device_emb a ;;
  ret (out ++ [device_line a]).

(** Lines 143-145 and 195-197, with [i] already advanced:
    [if i > 0 and i % self.args.print_interval == 0: print(...)]. *)
Definition print_progress (a : Args) (gpu_id : option Z) (i : Z) (out : list line)
    : M (list line) :=
  if i >? 0 then
    m <- or_zero_division (Py.mod_ i (print_interval a)) ;;
    ret (if m =? 0 then out ++ [Line_batch gpu_id i] else out)
  else ret out.

Section TrainerOutput.

Variable shuffle_walks : nat -> list walk -> list walk.
Variable rand : nat -> nat -> nat.

(** The [while True] loop of lines 118-147 and 170-199, with the progress
    line. *)
Fixpoint training_loop_logged (fuel : nat) (a : Args) (ds : Dataset)
    (walks : list walk) (gpu_id : option Z) (num_batches num_pos max_i i : Z)
    (out : list line) : M (Z * list line) :=
  match fuel with
  | O => fun w => (OutOfFuel, w)
  | S fuel' =>
      rate <- decayed_lr a max_i i ;;
      i_ <- or_zero_division (Py.mod_ i num_batches) ;;
      let walks_ := Py.slice walks (i_ * batch_size a) ((1 + i_) * batch_size a) in
      if Nat.eqb (length walks_) 0 then ret (i, out)
      else
        (if fast_neg a then fast_learn_super walks_ rate None
         else
           let bs := Z.of_nat (length walks_) in
           neg_nodes <- random_choice rand (neg_table ds) (bs * num_pos * negative a) ;;
           fast_learn_super walks_ rate (Some neg_nodes)) ;;
        let i := i + 1 in
        out <- print_progress a gpu_id i out ;;
        if i_ =? num_batches - 1 then ret (i, out)
        else training_loop_logged fuel' a ds walks gpu_id num_batches num_pos max_i i out
  end.

(** Lines 101-147 with their output. *)
Definition fast_train_sp_logged (fuel : nat) (a : Args) (ds : Dataset)
    (walks : list walk) (gpu_id : Z) : M (list line) :=
  num_batches <- or_zero_division
                   (Py.ceil_div (Z.of_nat (length walks)) (batch_size a)) ;;
  let num_pos := num_pos_of a in
  let out := [Line_num_batches num_batches (Some gpu_id)] in
  let i := 0 in
  let max_i := iterations a * num_batches in
  p <- training_loop_logged fuel a ds walks (Some gpu_id) num_batches num_pos max_i i out ;;
  ret (snd p).

(** The [for] loop of lines 166-199 with its output; [iteration] is the
    loop variable, [n] the iterations to go. *)
Fixpoint epochs_logged (n : nat) (fuel : nat) (a : Args) (ds : Dataset)
    (num_batches num_pos max_i iteration i : Z) (out : list line)
    : M (Z * list line) :=
  match n with
  | O => ret (i, out)
  | S n' =>
      let out := out ++ [Line_iteration (iteration + 1)] in
      shuffle_dataset shuffle_walks ;;
      walks <- get_walks ;;
      p <- training_loop_logged fuel a ds walks None num_batches num_pos max_i i out ;;
      epochs_logged n' fuel a ds num_batches num_pos max_i (iteration + 1)
        (fst p) (snd p)
  end.

(** Lines 149-202 with their output. *)
Definition fast_train_logged (fuel : nat) (a : Args) (ds : Dataset) : M (list line) :=
  let num_pos := num_pos_of a in
  num_batches <- or_zero_division
                   (Py.ceil_div (net_len ds * num_walks a) (batch_size a)) ;;
  let out := [Line_num_batches num_batches None] in
  out <- init_device_emb_logged a out ;;
  let i := 0 in
  let max_i := iterations a * num_batches in
  p <- epochs_logged (Z.to_nat (iterations a)) fuel a ds num_batches num_pos max_i 0 i out ;;
  let out := snd p ++ [Line_used_time] in
  save_embedding ;;
  ret out.

(** What process [p], started from state [w], does and prints. *)
Definition run_worker_logged (fuel : nat) (a : Args) (ds : Dataset) (w : World)
    (p : Proc) : result (list line) * World :=
  fast_train_sp_logged fuel a ds (proc_walks p) (proc_gpu p) (forked w).

(** The runs of all workers of one [fast_train_mp], in starting order. *)
Definition mp_workers_logged (fuel : nat) (a : Args) (ds : Dataset) (w : World)
    : list (result (list line) * World) :=
  map (run_worker_logged fuel a ds (snd (mp_start shuffle_walks a w)))
      (mp_procs shuffle_walks a w).

End TrainerOutput.

(* ------------------------------------------------------------------ *)
(** ** The output and the learning calls *)

(** The outcome of a run, its value read through [f]. *)
Definition result_map {A B : Type} (f : A -> B) (r : result A) : result B :=
  match r with
  | Ret x => Ret (f x)
  | Raise e => Raise e
  | OutOfFuel => OutOfFuel
  end.

(** A run that forgets part of what it returns. *)
Definition forget {A B : Type} (f : A -> B) (m : M A) : M B :=
  fun w => let (r, w') := m w in (result_map f r, w').

Lemma print_progress_cases (a : Args) (gpu_id : option Z) (i : Z) (out : list line)
    (w : World) :
  (print_interval a <> 0 \/ i <= 0 ->
   exists out', print_progress a gpu_id i out w = (Ret out', w))
  /\ (print_interval a = 0 -> 0 < i ->
      print_progress a gpu_id i out w = (Raise Py.ZeroDivisionError, w)).
Proof.
  unfold print_progress, bind, or_zero_division, Py.mod_, ret, raise.
  destruct (Z.gtb_spec i 0) as [Hi|Hi];
    destruct (Z.eqb_spec (print_interval a) 0) as [Hp|Hp];
    split; intros; try lia; eauto.
Qed.

Lemma training_loop_logged_S (rand : nat -> nat -> nat) (fuel : nat) (a : Args)
    (ds : Dataset) (walks : list walk) (gpu_id : option Z)
    (num_batches num_pos max_i i : Z) (out : list line) :
  training_loop_logged rand (S fuel) a ds walks gpu_id num_batches num_pos max_i i out
  = (rate <- decayed_lr a max_i i ;;
     i_ <- or_zero_division (Py.mod_ i num_batches) ;;
     let walks_ := Py.slice walks (i_ * batch_size a) ((1 + i_) * batch_size a) in
     if Nat.eqb (length walks_) 0 then ret (i, out)
     else
       (if fast_neg a then fast_learn_super walks_ rate None
        else
          let bs := Z.of_nat (length walks_) in
          neg_nodes <- random_choice rand (neg_table ds) (bs * num_pos * negative a) ;;
          fast_learn_super walks_ rate (Some neg_nodes)) ;;
       let i := i + 1 in
       out <- print_progress a gpu_id i out ;;
       if i_ =? num_batches - 1 then ret (i, out)
       else training_loop_logged rand fuel a ds walks gpu_id num_batches num_pos
              max_i i out).
Proof. reflexivity. Qed.

Lemma forget_bind {A B C : Type} (f : B -> C) (m : M A) (k : A -> M B) (w : World) :
  forget f (bind m k) w = bind m (fun x => forget f (k x)) w.
Proof.
  unfold forget, bind. destruct (m w) as [[x|e|] w']; reflexivity.
Qed.

Lemma bind_congr {A B : Type} (m : M A) (k k' : A -> M B) (w : World) :
  (forall x w', k x w' = k' x w') -> bind m k w = bind m k' w.
Proof.
  intros H. unfold bind. destruct (m w) as [[x|e|] w']; auto.
Qed.

Lemma bind_forget {A B C : Type} (f : A -> B) (m : M A) (m' : M B) (k : B -> M C)
    (w : World) :
  forget f m w = m' w -> bind m' k w = bind m (fun x => k (f x)) w.
Proof.
  unfold forget, bind. intros <-. destruct (m w) as [[x|e|] w']; reflexivity.
Qed.

Lemma bind_assoc {A B C : Type} (m : M A) (f : A -> M B) (k : B -> M C) (w : World) :
  bind (bind m f) k w = bind m (fun x => bind (f x) k) w.
Proof. unfold bind. destruct (m w) as [[x|e|] w']; reflexivity. Qed.

Lemma init_device_emb_logged_valid (a : Args) (out : list line) (w : World) :
  init_device_emb a w = (Ret tt, w) ->
  init_device_emb_logged a out w = (Ret (out ++ [device_line a]), w).
Proof. intros H. unfold init_device_emb_logged, bind. now rewrite H. Qed.

Lemma forget_if {A B : Type} (f : A -> B) (b : bool) (m1 m2 : M A) (w : World) :
  forget f (if b then m1 else m2) w = (if b then forget f m1 else forget f m2) w.
Proof. destruct b; reflexivity. Qed.

Lemma bind_print_progress {B : Type} (a : Args) (gpu_id : option Z) (i : Z)
    (out : list line) (k : list line -> M B) (k' : M B) (w : World) :
  print_interval a <> 0 ->
  (forall out' w', k out' w' = k' w') ->
  bind (print_progress a gpu_id i out) k w = k' w.
Proof.
  intros Hp Hk.
  destruct (proj1 (print_progress_cases a gpu_id i out w) (or_introl Hp)) as [out' H].
  unfold bind. rewrite H. apply Hk.
Qed.

Section OutputFacts.

Variable shuffle_walks : nat -> list walk -> list walk.
Variable rand : nat -> nat -> nat.
Variables (a : Args) (ds : Dataset).

(** With a print interval other than zero the loop with the progress line
    is the loop without it. *)
Lemma training_loop_logged_forget (walks : list walk) (gpu_id : option Z)
    (num_batches num_pos max_i : Z) :
  print_interval a <> 0 ->
  forall (fuel : nat) (i : Z) (out : list line) (w : World),
    forget fst (training_loop_logged rand fuel a ds walks gpu_id num_batches
                  num_pos max_i i out) w
    = training_loop rand fuel a ds walks num_batches num_pos max_i i w.
Proof.
  intros Hp. induction fuel as [|fuel IH]; intros i out w; [reflexivity|].
  rewrite training_loop_logged_S, training_loop_S.
  rewrite forget_bind. apply bind_congr. intros rate w1.
  rewrite forget_bind. apply bind_congr. intros i_ w2.
  cbv zeta. rewrite forget_if.
  destruct (Nat.eqb _ 0); [reflexivity|].
  rewrite forget_bind. apply bind_congr. intros _ w3.
  rewrite forget_bind. apply bind_print_progress; [exact Hp|].
  intros out' w'. rewrite forget_if.
  destruct (i_ =? num_batches - 1); [reflexivity | apply IH].
Qed.

Lemma fast_train_sp_logged_forget (fuel : nat) (walks : list walk) (gpu_id : Z)
    (w : World) :
  print_interval a <> 0 ->
  forget (fun _ => tt) (fast_train_sp_logged rand fuel a ds walks gpu_id) w
  = fast_train_sp rand fuel a ds walks gpu_id w.
Proof.
  intros Hp. unfold fast_train_sp_logged, fast_train_sp.
  rewrite forget_bind. apply bind_congr. intros nb w1. cbv zeta.
  rewrite forget_bind. symmetry.
  apply (bind_forget fst). now apply training_loop_logged_forget.
Qed.

Lemma epochs_logged_forget (fuel : nat) (num_batches num_pos max_i : Z) (n : nat) :
  print_interval a <> 0 ->
  forall (iteration i : Z) (out : list line) (w : World),
    forget fst (epochs_logged shuffle_walks rand n fuel a ds num_batches num_pos
                  max_i iteration i out) w
    = epochs shuffle_walks rand n fuel a ds num_batches num_pos max_i i w.
Proof.
  intros Hp. induction n as [|n IH]; intros iteration i out w; [reflexivity|].
  simpl epochs_logged. simpl epochs.
  rewrite forget_bind. apply bind_congr. intros _ w1.
  rewrite forget_bind. apply bind_congr. intros walks w2.
  rewrite forget_bind.
  rewrite (bind_forget fst _ _ _ w2
             (training_loop_logged_forget walks None num_batches num_pos max_i Hp
                fuel i (out ++ [Line_iteration (iteration + 1)]) w2)).
  apply bind_congr. intros p w3. apply IH.
Qed.

Lemma fast_train_logged_forget (fuel : nat) (w : World) :
  print_interval a <> 0 ->
  forget (fun _ => tt) (fast_train_logged shuffle_walks rand fuel a ds) w
  = fast_train shuffle_walks rand fuel a ds w.
Proof.
  intros Hp. unfold fast_train_logged, fast_train. cbv zeta.
  rewrite forget_bind. apply bind_congr. intros nb w1.
  rewrite forget_bind. unfold init_device_emb_logged. rewrite bind_assoc.
  apply bind_congr. intros _ w2.
  unfold bind at 1, ret at 1.
  rewrite forget_bind.
  rewrite (bind_forget fst _ _ _ w2
             (epochs_logged_forget fuel nb (num_pos_of a) (iterations a * nb)
                (Z.to_nat (iterations a)) Hp 0 0
                ([Line_num_batches nb None] ++ [device_line a]) w2)).
  apply bind_congr. intros p w3.
  rewrite forget_bind. reflexivity.
Qed.

End OutputFacts.

(** X1. With a print interval other than zero the progress lines have no
    influence on training: for every input, [fast_train_sp] and
    [fast_train] with their output end in the same state, with the same
    learning calls, as without it, and with the same outcome (a return, the
    same exception, or the same lack of fuel). *)
Theorem logging_is_transparent
    (shuffle_walks : nat -> list walk -> list walk) (rand : nat -> nat -> nat)
    (fuel : nat) (a : Args) (ds : Dataset) (walks : list walk) (gpu_id : Z)
    (w : World) :
  print_interval a <> 0 ->
  (let run := fast_train_sp_logged rand fuel a ds walks gpu_id w in
   (result_map (fun _ => tt) (fst run), snd run)
   = fast_train_sp rand fuel a ds walks gpu_id w)
  /\ (let run := fast_train_logged shuffle_walks rand fuel a ds w in
      (result_map (fun _ => tt) (fst run), snd run)
      = fast_train shuffle_walks rand fuel a ds w).
Proof.
  intros Hp. split.
  - rewrite <- (fast_train_sp_logged_forget rand a ds fuel walks gpu_id w Hp).
    unfold forget. now destruct (fast_train_sp_logged rand fuel a ds walks gpu_id w).
  - rewrite <- (fast_train_logged_forget shuffle_walks rand a ds fuel w Hp).
    unfold forget.
    now destruct (fast_train_logged shuffle_walks rand fuel a ds w).
Qed.

(** Twelve walks in batches of ten, a line every batch: the worker prints
    its batch count and two progress lines, and ends as without them. *)
Lemma logging_is_transparent_witness :
  let a := Cli.set_print_interval 1 example_args in
  let run := fast_train_sp_logged (fun _ _ => 0%nat) 5 a (mkDataset 12 [])
               (example_walks 12) 0 (example_world 12) in
  fst run = Ret [Line_num_batches 2 (Some 0); Line_batch (Some 0) 1;
                 Line_batch (Some 0) 2]
  /\ (result_map (fun _ => tt) (fst run), snd run)
     = fast_train_sp (fun _ _ => 0%nat) 5 a (mkDataset 12 []) (example_walks 12) 0
         (example_world 12).
Proof.
  intros a run. split; [vm_compute; reflexivity|].
  exact (proj1 (logging_is_transparent (fun _ l => l) (fun _ _ => 0%nat) 5 a
                  (mkDataset 12 []) (example_walks 12) 0 (example_world 12)
                  ltac:(discriminate))).
Defined.

(* ------------------------------------------------------------------ *)
(** ** A print interval of zero *)

Section ZeroInterval.

Variable shuffle_walks : nat -> list walk -> list walk.
Variable rand : nat -> nat -> nat.
Variables (a : Args) (ds : Dataset).

Hypothesis interval_zero : print_interval a = 0.

(** The first pass through the loop body learns its batch and raises at
    the progress test. *)
Lemma training_loop_logged_zero_interval (fuel : nat) (walks : list walk)
    (gpu_id : option Z) (num_batches num_pos max_i i : Z) (out : list line)
    (w : World) :
  0 < batch_size a ->
  walks <> [] ->
  Py.ceil_div (Z.of_nat (length walks)) (batch_size a) = Some num_batches ->
  max_i <> 0 ->
  sampling_ok a ds num_pos ->
  0 <= i ->
  exists w' c,
    training_loop_logged rand (S fuel) a ds walks gpu_id num_batches num_pos
      max_i i out w = (Raise Py.ZeroDivisionError, w')
    /\ learn_log w' = learn_log w ++ [c]
    /\ lc_walks c = Py.slice walks (i mod num_batches * batch_size a)
                      ((1 + i mod num_batches) * batch_size a)
    /\ same_frame w w'.
Proof.
  intros Hbs Hne Hnb Hm Hs Hi.
  apply ceil_div_spec in Hnb; [|assumption].
  assert (Hlen : 0 < Z.of_nat (length walks))
    by (destruct walks; [contradiction | simpl; lia]).
  assert (Hnb1 : 0 < num_batches) by nia.
  pose proof (Z.mod_pos_bound i num_batches Hnb1) as Hmod.
  rewrite training_loop_logged_S. unfold bind at 1, decayed_lr.
  destruct (Z.eqb_spec max_i 0) as [?|_]; [contradiction|].
  unfold ret at 1. unfold bind at 1, or_zero_division, Py.mod_.
  destruct (Z.eqb_spec num_batches 0) as [?|_]; [lia|].
  unfold ret at 1. cbv zeta.
  set (walks_ := Py.slice walks (i mod num_batches * batch_size a)
                   ((1 + i mod num_batches) * batch_size a)).
  assert (Hw : walks_ <> []) by (apply slice_nonempty; nia).
  destruct (Nat.eqb_spec (length walks_) 0) as [He|_].
  { apply length_zero_iff_nil in He. contradiction. }
  unfold bind at 1.
  set (rate := if Qltb (lr a * inject_Z (max_i - i) / inject_Z max_i) lr_floor
               then lr_floor
               else (lr a * inject_Z (max_i - i) / inject_Z max_i)%Q).
  destruct (learn_step_returns rand a ds num_pos walks_ rate w Hs Hw) as [w1 Hrun].
  rewrite Hrun.
  apply learn_step_spec in Hrun. destruct Hrun as (Hfr & _ & c & Hlog & Hcw & _).
  unfold bind at 1.
  rewrite (proj2 (print_progress_cases a gpu_id (i + 1) out w1) interval_zero)
    by lia.
  exists w1, c. auto.
Qed.

End ZeroInterval.

Lemma epochs_logged_S (shuffle_walks : nat -> list walk -> list walk)
    (rand : nat -> nat -> nat) (n fuel : nat) (a : Args) (ds : Dataset)
    (num_batches num_pos max_i iteration i : Z) (out : list line) :
  epochs_logged shuffle_walks rand (S n) fuel a ds num_batches num_pos max_i
    iteration i out
  = (shuffle_dataset shuffle_walks ;;
     walks <- get_walks ;;
     p <- training_loop_logged rand fuel a ds walks None num_batches num_pos max_i i
            (out ++ [Line_iteration (iteration + 1)]) ;;
     epochs_logged shuffle_walks rand n fuel a ds num_batches num_pos max_i
       (iteration + 1) (fst p) (snd p)).
Proof. reflexivity. Qed.

(** X2. With [print_interval = 0], a positive batch size and a sampling of
    negatives that cannot raise: a worker on a non-empty shard with
    [iterations <> 0] learns its first batch and then raises
    ZeroDivisionError at the progress test of line 143; [fast_train], with a
    valid configuration and at least one iteration over a non-empty walk
    list, shuffles once, learns its first batch and raises in the same way
    at line 195, without saving the embedding. *)
Theorem zero_print_interval_raises
    (shuffle_walks : nat -> list walk -> list walk) (rand : nat -> nat -> nat)
    (fuel : nat) (a : Args) (ds : Dataset) (walks : list walk) (gpu_id : Z)
    (w : World) :
  print_interval a = 0 ->
  0 < batch_size a ->
  sampling_ok a ds (num_pos_of a) ->
  (walks <> [] -> iterations a <> 0 ->
   exists w' c,
     fast_train_sp_logged rand (S fuel) a ds walks gpu_id w
     = (Raise Py.ZeroDivisionError, w')
     /\ learn_log w' = learn_log w ++ [c]
     /\ lc_walks c = Py.slice walks 0 (batch_size a))
  /\ (valid_config a -> 0 < iterations a ->
      (forall k l, Permutation (shuffle_walks k l) l) ->
      ds_walks w <> [] ->
      Z.of_nat (length (ds_walks w)) = net_len ds * num_walks a ->
      exists w' c,
        fast_train_logged shuffle_walks rand (S fuel) a ds w
        = (Raise Py.ZeroDivisionError, w')
        /\ learn_log w' = learn_log w ++ [c]
        /\ lc_walks c
           = Py.slice (shuffle_walks (n_shuffles w) (ds_walks w)) 0 (batch_size a)
        /\ n_shuffles w' = S (n_shuffles w)
        /\ saved w' = saved w).
Proof.
  intros Hp Hbs Hs. split.
  - intros Hne Hit.
    destruct (ceil_div_some (Z.of_nat (length walks)) (batch_size a)) as [nb Hnb];
      [lia|].
    pose proof (ceil_div_spec _ _ _ Hbs Hnb) as Hspec.
    assert (Hpos : 0 < nb)
      by (destruct walks; [contradiction | simpl length in *; nia]).
    destruct (training_loop_logged_zero_interval rand a ds Hp fuel walks
                (Some gpu_id) nb (num_pos_of a) (iterations a * nb) 0
                [Line_num_batches nb (Some gpu_id)] w Hbs Hne Hnb ltac:(nia) Hs
                ltac:(lia)) as (w' & c & Hrun & Hlog & Hcw & _).
    exists w', c. split; [|split; [exact Hlog|]].
    + unfold fast_train_sp_logged, bind at 1, or_zero_division. rewrite Hnb.
      unfold ret at 1. cbv zeta. unfold bind. now rewrite Hrun.
    + rewrite Hcw, Z.mod_0_l by lia. f_equal; lia.
  - intros Hv Hit Hsh Hne Hlen.
    destruct (ceil_div_some (net_len ds * num_walks a) (batch_size a)) as [nb Hnb];
      [lia|].
    pose proof (ceil_div_spec _ _ _ Hbs Hnb) as Hspec.
    assert (Hpos : 0 < nb)
      by (destruct (ds_walks w); [contradiction | simpl length in *; nia]).
    set (ws1 := shuffle_walks (n_shuffles w) (ds_walks w)).
    set (w1 := mkWorld ws1 (learn_log w) (S (n_shuffles w)) (n_draws w)
                 (spawned w) (saved w)).
    assert (Hlen1 : length ws1 = length (ds_walks w))
      by apply Permutation_length, Hsh.
    assert (Hne1 : ws1 <> []).
    { intros E. rewrite E in Hlen1. destruct (ds_walks w); [contradiction|discriminate]. }
    assert (Hnb1 : Py.ceil_div (Z.of_nat (length ws1)) (batch_size a) = Some nb)
      by (rewrite Hlen1, Hlen; exact Hnb).
    destruct (training_loop_logged_zero_interval rand a ds Hp fuel ws1 None nb
                (num_pos_of a) (iterations a * nb) 0
                (([Line_num_batches nb None] ++ [device_line a])
                 ++ [Line_iteration (0 + 1)]) w1
                Hbs Hne1 Hnb1 ltac:(nia) Hs ltac:(lia))
      as (w' & c & Hrun & Hlog & Hcw & Hfr).
    exists w', c. destruct Hfr as (_ & Hsf & _ & Hsv).
    split; [|split; [exact Hlog|split; [|split; assumption]]].
    + unfold fast_train_logged. cbv zeta. unfold bind at 1, or_zero_division.
      rewrite Hnb. unfold ret at 1. unfold bind at 1.
      rewrite (init_device_emb_logged_valid a _ w (proj2 (init_device_emb_ok a w) Hv)).
      unfold bind at 1.
      replace (Z.to_nat (iterations a)) with (S (Z.to_nat (iterations a - 1))) by lia.
      rewrite epochs_logged_S. unfold bind at 1, shuffle_dataset.
      unfold bind at 1, get_walks. cbv beta iota. simpl ds_walks.
      fold ws1. fold w1. unfold bind at 1. now rewrite Hrun.
    + rewrite Hcw, Z.mod_0_l by lia. f_equal; lia.
Qed.

(** Three walks and [--print_interval 0]: the worker learns them as its one
    batch and raises. *)
Lemma zero_print_interval_raises_witness :
  let a := Cli.set_print_interval 0 example_args in
  exists w' c,
    fast_train_sp_logged (fun _ _ => 0%nat) 1 a (mkDataset 3 []) (example_walks 3) 0
      (example_world 3) = (Raise Py.ZeroDivisionError, w')
    /\ learn_log w' = [c]
    /\ lc_walks c = example_walks 3.
Proof.
  intros a.
  destruct (proj1 (zero_print_interval_raises (fun _ l => l) (fun _ _ => 0%nat) 0 a
                     (mkDataset 3 []) (example_walks 3) 0 (example_world 3)
                     eq_refl eq_refl (or_introl eq_refl))
                  ltac:(discriminate) ltac:(discriminate))
    as (w' & c & Hrun & Hlog & Hcw).
  exists w', c. split; [exact Hrun|]. split; [exact Hlog|].
  rewrite Hcw. reflexivity.
Defined.

(* ------------------------------------------------------------------ *)
(** ** A worker makes a single pass *)

(** A worker whose horizon is zero never returns and leaves its state as
    it is: the first rate divides by [max_i = 0]. *)
Lemma fast_train_sp_logged_zero_horizon (rand : nat -> nat -> nat) (a : Args)
    (ds : Dataset) (fuel : nat) (walks : list walk) (gpu_id nb : Z) (w : World) :
  Py.ceil_div (Z.of_nat (length walks)) (batch_size a) = Some nb ->
  iterations a * nb = 0 ->
  (forall out, fst (fast_train_sp_logged rand fuel a ds walks gpu_id w) <> Ret out)
  /\ snd (fast_train_sp_logged rand fuel a ds walks gpu_id w) = w.
Proof.
  intros Hnb Hm.
  assert (E : exists r, fast_train_sp_logged rand fuel a ds walks gpu_id w = (r, w)
                        /\ forall out, r <> Ret out).
  { unfold fast_train_sp_logged, bind at 1, or_zero_division.
    rewrite Hnb. unfold ret at 1. cbv zeta. unfold bind at 1.
    destruct fuel as [|fuel].
    - simpl. eexists. split; [reflexivity | discriminate].
    - rewrite training_loop_logged_S. unfold bind at 1, decayed_lr.
      rewrite Hm. simpl. eexists. split; [reflexivity | discriminate]. }
  destruct E as (r & -> & Hr). simpl. split; [exact Hr | reflexivity].
Qed.

(** With [--iterations 0] a worker on three walks (one batch) never
    returns and makes no learning step, whatever the fuel: its first rate
    computation divides by [max_i = 0]. *)
Lemma sp_zero_iterations_counterexample :
  ~ (exists fuel,
        let run := fast_train_sp_logged (fun _ _ => 0%nat) fuel
                     (Cli.set_iterations 0 example_args)
                     (mkDataset 3 []) (example_walks 3) 0 (example_world 3) in
        (exists out, fst run = Ret out)
        \/ new_calls (example_world 3) (snd run) <> []).
Proof.
  intros (fuel & H). cbv zeta in H.
  destruct (fast_train_sp_logged_zero_horizon (fun _ _ => 0%nat)
              (Cli.set_iterations 0 example_args) (mkDataset 3 []) fuel
              (example_walks 3) 0 1 (example_world 3) eq_refl eq_refl) as [Hne Hw].
  destruct H as [[out H]|H]; [now apply (Hne out)|].
  rewrite Hw in H. now apply H.
Qed.

(** C8, amended. For every non-empty walk shard, a positive batch size, a
    print interval other than zero, a sampling of negatives that cannot
    raise and every value of [iterations] other than zero, the loop of
    [fast_train_sp] ends, as soon as fuel covers
    [num_batches = ceil(len(walks) / batch_size)] iterations, after exactly
    [num_batches] learning steps: one per batch of the shard in order, a
    single pass over it. The batches do not depend on [iterations]. *)
Theorem sp_single_pass
    (rand : nat -> nat -> nat) (a : Args) (ds : Dataset)
    (walks : list walk) (gpu_id : Z) (w : World) :
  walks <> [] ->
  0 < batch_size a ->
  iterations a <> 0 ->
  print_interval a <> 0 ->
  sampling_ok a ds (num_pos_of a) ->
  exists num_batches,
    Py.ceil_div (Z.of_nat (length walks)) (batch_size a) = Some num_batches
    /\ 0 < num_batches
    /\ forall fuel, num_batches <= Z.of_nat fuel ->
         exists out w',
           fast_train_sp_logged rand fuel a ds walks gpu_id w = (Ret out, w')
           /\ Z.of_nat (length (new_calls w w')) = num_batches
           /\ map lc_walks (new_calls w w')
              = map (fun b => Py.slice walks (b * batch_size a)
                                ((1 + b) * batch_size a))
                    (Py.range num_batches)
           /\ concat (map lc_walks (new_calls w w')) = walks.
Proof.
  intros Hne Hbs Hit Hp Hs.
  destruct (ceil_div_some (Z.of_nat (length walks)) (batch_size a)) as [nb Hnb];
    [lia|].
  pose proof (ceil_div_spec _ _ _ Hbs Hnb) as Hspec.
  assert (Hpos : 0 < nb)
    by (destruct walks; [contradiction | simpl length in *; nia]).
  exists nb. split; [exact Hnb|]. split; [exact Hpos|].
  intros fuel Hfuel.
  destruct (fast_train_sp_pass rand a ds fuel walks gpu_id nb w
              Hbs Hne Hnb Hit Hs Hfuel)
    as (w' & new & Hrun & Hlog & _ & Hlen & _ & Hw).
  pose proof (fast_train_sp_logged_forget rand a ds fuel walks gpu_id w Hp) as Hf.
  rewrite Hrun in Hf. unfold forget in Hf.
  destruct (fast_train_sp_logged rand fuel a ds walks gpu_id w) as [r wl].
  injection Hf as Hr Hwl. subst wl.
  destruct r as [out|e|]; simpl in Hr; try discriminate.
  exists out, w'. rewrite (new_calls_app _ _ _ Hlog).
  split; [reflexivity|]. split; [exact Hlen|]. split; [exact Hw|].
  rewrite Hw. apply batches_concat; lia.
Qed.

(** Twenty-five walks in batches of ten with [--iterations 7]: three
    steps. *)
Lemma sp_single_pass_witness :
  exists out w',
    fast_train_sp_logged (fun _ _ => 0%nat) 3 (Cli.set_iterations 7 example_args)
      (mkDataset 25 []) (example_walks 25) 0 (example_world 25)
    = (Ret out, w')
    /\ length (new_calls (example_world 25) w') = 3%nat.
Proof.
  destruct (sp_single_pass (fun _ _ => 0%nat) (Cli.set_iterations 7 example_args)
              (mkDataset 25 []) (example_walks 25) 0 (example_world 25)
              ltac:(discriminate) ltac:(reflexivity) ltac:(discriminate)
              ltac:(discriminate) ltac:(left; reflexivity))
    as (nb & Hnb & _ & Hrun).
  vm_compute in Hnb. injection Hnb as <-.
  destruct (Hrun 3%nat ltac:(lia)) as (out & w' & Hw' & Hlen & _).
  exists out, w'. split; [exact Hw' | lia].
Defined.

(* ------------------------------------------------------------------ *)
(** ** The epochs of [fast_train], with its output *)

(** With [print_interval = 0], [fast_train] never returns and makes at most
    one learning call: out of fuel before the first step, it raises after
    it. *)
Lemma fast_train_logged_zero_interval
    (shuffle_walks : nat -> list walk -> list walk) (rand : nat -> nat -> nat)
    (fuel : nat) (a : Args) (ds : Dataset) (w : World) :
  print_interval a = 0 ->
  0 < batch_size a ->
  sampling_ok a ds (num_pos_of a) ->
  valid_config a ->
  0 < iterations a ->
  (forall k l, Permutation (shuffle_walks k l) l) ->
  ds_walks w <> [] ->
  Z.of_nat (length (ds_walks w)) = net_len ds * num_walks a ->
  let run := fast_train_logged shuffle_walks rand fuel a ds w in
  (forall out, fst run <> Ret out)
  /\ (length (new_calls w (snd run)) <= 1)%nat.
Proof.
  intros Hp Hbs Hs Hv Hit Hsh Hne Hlen.
  destruct (ceil_div_some (net_len ds * num_walks a) (batch_size a)) as [nb Hnb];
    [lia|].
  pose proof (ceil_div_spec _ _ _ Hbs Hnb) as Hspec.
  assert (Hpos : 0 < nb)
    by (destruct (ds_walks w); [contradiction | simpl length in *; nia]).
  set (ws1 := shuffle_walks (n_shuffles w) (ds_walks w)).
  set (w1 := mkWorld ws1 (learn_log w) (S (n_shuffles w)) (n_draws w)
               (spawned w) (saved w)).
  assert (Hlen1 : length ws1 = length (ds_walks w))
    by apply Permutation_length, Hsh.
  assert (Hne1 : ws1 <> []).
  { intros E. rewrite E in Hlen1. destruct (ds_walks w); [contradiction|discriminate]. }
  assert (Hnb1 : Py.ceil_div (Z.of_nat (length ws1)) (batch_size a) = Some nb)
    by (rewrite Hlen1, Hlen; exact Hnb).
  assert (E : exists r w' new,
             fast_train_logged shuffle_walks rand fuel a ds w = (r, w')
             /\ (forall out, r <> Ret out)
             /\ learn_log w' = learn_log w ++ new /\ (length new <= 1)%nat).
  { unfold fast_train_logged. cbv zeta. unfold bind at 1, or_zero_division.
    rewrite Hnb. unfold ret at 1. unfold bind at 1.
    rewrite (init_device_emb_logged_valid a _ w (proj2 (init_device_emb_ok a w) Hv)).
    unfold bind at 1.
    replace (Z.to_nat (iterations a)) with (S (Z.to_nat (iterations a - 1))) by lia.
    rewrite epochs_logged_S. unfold bind at 1, shuffle_dataset.
    unfold bind at 1, get_walks. cbv beta iota. simpl ds_walks.
    fold ws1. fold w1. unfold bind at 1.
    destruct fuel as [|fuel].
    - simpl. exists OutOfFuel, w1, []. split; [reflexivity|].
      split; [discriminate|]. split; [unfold w1; simpl; now rewrite app_nil_r|].
      simpl. lia.
    - destruct (training_loop_logged_zero_interval rand a ds Hp fuel ws1 None nb
                  (num_pos_of a) (iterations a * nb) 0
                  (([Line_num_batches nb None] ++ [device_line a])
                   ++ [Line_iteration (0 + 1)]) w1
                  Hbs Hne1 Hnb1 ltac:(nia) Hs ltac:(lia))
        as (w' & c & Hrun & Hlog & _).
      rewrite Hrun. exists (Raise Py.ZeroDivisionError), w', [c].
      split; [reflexivity|]. split; [discriminate|]. split; [exact Hlog|].
      simpl. lia. }
  destruct E as (r & w' & new & Hrun & Hr & Hlog & Hlen').
  intros run. unfold run. rewrite Hrun. simpl fst. simpl snd.
  split; [exact Hr|]. now rewrite (new_calls_app w w' new Hlog).
Qed.

(** With [--print_interval 0], [fast_train] over twenty-five walks in
    batches of ten and three iterations, nine steps in three epochs, never
    returns and never makes a second learning step, whatever the fuel: the
    progress test after the first step divides by zero. *)
Lemma zero_print_interval_counterexample :
  ~ (exists fuel,
        let a := Cli.set_print_interval 0
                   (Cli.set_iterations 3 (Cli.set_num_walks 1 example_args)) in
        let run := fast_train_logged (fun _ l => rev l) (fun _ _ => 0%nat) fuel a
                     (mkDataset 25 []) (example_world 25) in
        (exists out, fst run = Ret out)
        \/ (1 < length (new_calls (example_world 25) (snd run)))%nat).
Proof.
  intros (fuel & H). cbv zeta in H.
  destruct (fast_train_logged_zero_interval (fun _ l => rev l) (fun _ _ => 0%nat)
              fuel
              (Cli.set_print_interval 0
                 (Cli.set_iterations 3 (Cli.set_num_walks 1 example_args)))
              (mkDataset 25 []) (example_world 25)
              eq_refl eq_refl (or_introl eq_refl)
              ltac:(unfold valid_config, exactly_one; simpl; intuition lia)
              eq_refl (fun _ l => Permutation_sym (Permutation_rev l))
              ltac:(discriminate) eq_refl) as [Hne Hle].
  destruct H as [[out H]|H]; [now apply (Hne out) | lia].
Qed.

(** C6, amended. With a valid configuration, a positive batch size, a
    print interval other than zero, a shuffle that permutes, the
    [len(net) * num_walks] walks of the dataset (at least one) and a
    sampling that cannot raise, [fast_train] returns once fuel covers
    [num_batches = ceil(len(net) * num_walks / batch_size)] loop
    iterations, after exactly [iterations] epochs (none for a negative
    count): each starts with one shuffle of the whole walk list and
    processes its [num_batches] batches, the consecutive slices of width
    [batch_size], in order, a full pass over a permutation of the walks;
    the rate of step [k] is the decay over the horizon
    [iterations * num_batches]; the embedding is saved once at the end. *)
Theorem fast_train_full_epochs
    (shuffle_walks : nat -> list walk -> list walk) (rand : nat -> nat -> nat)
    (a : Args) (ds : Dataset) (w : World) :
  (forall k l, Permutation (shuffle_walks k l) l) ->
  valid_config a ->
  0 < batch_size a ->
  print_interval a <> 0 ->
  ds_walks w <> [] ->
  Z.of_nat (length (ds_walks w)) = net_len ds * num_walks a ->
  sampling_ok a ds (num_pos_of a) ->
  let epoch_walks := fun e : nat =>
    shuffled shuffle_walks (n_shuffles w) (ds_walks w) (S e) in
  let n := Z.to_nat (iterations a) in
  exists num_batches,
    Py.ceil_div (net_len ds * num_walks a) (batch_size a) = Some num_batches
    /\ 0 < num_batches
    /\ (forall e,
          Permutation (epoch_walks e) (ds_walks w)
          /\ length (batches_of (epoch_walks e) (batch_size a) num_batches)
             = Z.to_nat num_batches
          /\ concat (batches_of (epoch_walks e) (batch_size a) num_batches)
             = epoch_walks e)
    /\ forall fuel, num_batches <= Z.of_nat fuel ->
         exists out w',
           fast_train_logged shuffle_walks rand fuel a ds w = (Ret out, w')
           /\ n_shuffles w' = (n_shuffles w + n)%nat
           /\ saved w' = S (saved w)
           /\ map lc_walks (new_calls w w')
              = flat_map (fun e => batches_of (epoch_walks e) (batch_size a) num_batches)
                         (seq 0 n)
           /\ Z.of_nat (length (new_calls w w')) = Z.of_nat n * num_batches
           /\ forall k c, nth_error (new_calls w w') k = Some c ->
                          decayed_rate_at a (iterations a * num_batches) k c.
Proof.
  intros Hsh Hv Hbs Hp Hne Hlen Hs epoch_walks n.
  destruct (fast_train_epochs_calls shuffle_walks rand a ds w Hsh Hv Hbs Hne Hlen Hs)
    as (nb & Hnb & Hpos & Hep & Hrun).
  exists nb. split; [exact Hnb|]. split; [exact Hpos|]. split; [exact Hep|].
  intros fuel Hfuel.
  destruct (Hrun fuel Hfuel) as (w' & Hw' & Hrest).
  pose proof (fast_train_logged_forget shuffle_walks rand a ds fuel w Hp) as Hf.
  rewrite Hw' in Hf. unfold forget in Hf.
  destruct (fast_train_logged shuffle_walks rand fuel a ds w) as [r wl].
  injection Hf as Hr Hwl. subst wl.
  destruct r as [out|e|]; simpl in Hr; try discriminate.
  exists out, w'. split; [reflexivity | exact Hrest].
Qed.

(** Three epochs over twenty-five walks in batches of ten, the shuffle a
    reversal: three shuffles, nine learning calls, one save. *)
Lemma fast_train_full_epochs_witness :
  let a := Cli.set_iterations 3 (Cli.set_num_walks 1 example_args) in
  exists out w',
    fast_train_logged (fun _ l => rev l) (fun _ _ => 0%nat) 3 a (mkDataset 25 [])
      (example_world 25) = (Ret out, w')
    /\ n_shuffles w' = 3%nat /\ saved w' = 1%nat
    /\ length (new_calls (example_world 25) w') = 9%nat.
Proof.
  intros a.
  destruct (fast_train_full_epochs (fun _ l => rev l) (fun _ _ => 0%nat) a
              (mkDataset 25 []) (example_world 25)
              (fun _ l => Permutation_sym (Permutation_rev l))
              ltac:(unfold valid_config, exactly_one; simpl; intuition lia)
              ltac:(reflexivity) ltac:(discriminate) ltac:(discriminate)
              ltac:(reflexivity) ltac:(left; reflexivity))
    as (nb & Hnb & _ & _ & Hrun).
  vm_compute in Hnb. injection Hnb as <-.
  destruct (Hrun 3%nat ltac:(lia)) as (out & w' & Hw' & Hs & Hsv & _ & Hlen & _).
  exists out, w'. repeat split; trivial.
  change (Z.of_nat (Z.to_nat (iterations a))) with 3 in Hlen. lia.
Defined.

(* ------------------------------------------------------------------ *)
(** ** The progress lines of a pass *)

(** The steps among [from + 1], ..., [from + n] at which a progress line is
    printed: the multiples of the print interval. *)
Definition progress_steps (interval from : Z) (n : nat) : list Z :=
  filter (fun i => i mod interval =? 0) (map (fun k => from + Z.of_nat k) (seq 1 n)).

Lemma progress_steps_S (interval from : Z) (n : nat) :
  progress_steps interval from (S n)
  = (if (from + 1) mod interval =? 0 then [from + 1] else [])
    ++ progress_steps interval (from + 1) n.
Proof.
  unfold progress_steps. simpl seq. simpl map. simpl filter.
  replace (from + 1) with (from + 1) by reflexivity.
  assert (E : map (fun k => from + Z.of_nat k) (seq 2 n)
              = map (fun k => from + 1 + Z.of_nat k) (seq 1 n)).
  { rewrite <- (seq_shift n 1), map_map. apply map_ext. intros k. lia. }
  rewrite E. destruct ((from + 1) mod interval =? 0); reflexivity.
Qed.

Lemma print_progress_value (a : Args) (gpu_id : option Z) (i : Z) (out : list line)
    (w : World) :
  print_interval a <> 0 -> 0 < i ->
  print_progress a gpu_id i out w
  = (Ret (out ++ (if i mod print_interval a =? 0 then [Line_batch gpu_id i] else [])), w).
Proof.
  intros Hp Hi. unfold print_progress, bind, or_zero_division, Py.mod_, ret.
  destruct (Z.gtb_spec i 0) as [_|?]; [|lia].
  destruct (Z.eqb_spec (print_interval a) 0) as [?|_]; [contradiction|].
  destruct (i mod print_interval a =? 0); [reflexivity|].
  now rewrite app_nil_r.
Qed.

Section ProgressFacts.

Variable rand : nat -> nat -> nat.
Variables (a : Args) (ds : Dataset) (walks : list walk).
Variables (gpu_id : option Z) (num_batches num_pos max_i : Z).

Hypothesis batch_size_pos : 0 < batch_size a.
Hypothesis walks_nonempty : walks <> [].
Hypothesis batches :
  Py.ceil_div (Z.of_nat (length walks)) (batch_size a) = Some num_batches.
Hypothesis horizon : max_i <> 0.
Hypothesis sampling : sampling_ok a ds num_pos.
Hypothesis interval : print_interval a <> 0.

(** The loop with its output, up to the end of the pass. *)
Lemma training_loop_logged_returns (fuel : nat) :
  forall (i : Z) (out : list line) (w : World),
    0 <= i ->
    num_batches - i mod num_batches <= Z.of_nat fuel ->
    exists w',
      training_loop_logged rand fuel a ds walks gpu_id num_batches num_pos max_i
        i out w
      = (Ret (i + (num_batches - i mod num_batches),
              out ++ map (Line_batch gpu_id)
                       (progress_steps (print_interval a) i
                          (Z.to_nat (num_batches - i mod num_batches)))),
         w').
Proof.
  pose proof (ceil_div_spec _ _ _ batch_size_pos batches) as Hnb.
  assert (Hlen : 0 < Z.of_nat (length walks))
    by (destruct walks; [contradiction | simpl; lia]).
  assert (Hnb1 : 0 < num_batches) by nia.
  induction fuel as [|fuel IH]; intros i out w Hi Hfuel;
    pose proof (Z.mod_pos_bound i num_batches Hnb1) as Hmod.
  - simpl in Hfuel. lia.
  - rewrite training_loop_logged_S. unfold bind at 1, decayed_lr.
    destruct (Z.eqb_spec max_i 0) as [?|_]; [contradiction|].
    unfold ret at 1. unfold bind at 1, or_zero_division, Py.mod_.
    destruct (Z.eqb_spec num_batches 0) as [?|_]; [lia|].
    unfold ret at 1. cbv zeta.
    set (walks_ := Py.slice walks (i mod num_batches * batch_size a)
                     ((1 + i mod num_batches) * batch_size a)).
    assert (Hw : walks_ <> []) by (apply slice_nonempty; nia).
    destruct (Nat.eqb_spec (length walks_) 0) as [He|_].
    { apply length_zero_iff_nil in He. contradiction. }
    unfold bind at 1.
    set (rate := if Qltb (lr a * inject_Z (max_i - i) / inject_Z max_i) lr_floor
                 then lr_floor
                 else (lr a * inject_Z (max_i - i) / inject_Z max_i)%Q).
    destruct (learn_step_returns rand a ds num_pos walks_ rate w sampling Hw)
      as [w1 ->].
    unfold bind at 1. rewrite print_progress_value by (trivial; lia).
    destruct (Z.eqb_spec (i mod num_batches) (num_batches - 1)) as [Hlast|Hlast].
    + unfold ret. exists w1. rewrite Hlast.
      replace (Z.to_nat (num_batches - (num_batches - 1))) with 1%nat by lia.
      rewrite progress_steps_S. unfold progress_steps at 1. simpl.
      rewrite app_nil_r. do 3 f_equal; [lia|].
      now destruct ((i + 1) mod print_interval a =? 0).
    + destruct (IH (i + 1)
                  (out ++ (if (i + 1) mod print_interval a =? 0
                           then [Line_batch gpu_id (i + 1)] else [])) w1)
        as [w' Hw']; [lia | rewrite mod_succ by assumption; lia |].
      exists w'. rewrite Hw'. rewrite mod_succ by assumption.
      replace (Z.to_nat (num_batches - i mod num_batches))
        with (S (Z.to_nat (num_batches - (i mod num_batches + 1)))) by lia.
      rewrite progress_steps_S, map_app, <- app_assoc.
      do 3 f_equal; [lia|].
      f_equal. now destruct ((i + 1) mod print_interval a =? 0).
Qed.

End ProgressFacts.

(** X3. A worker on a non-empty shard, with a positive batch size,
    [iterations <> 0], a print interval other than zero and a sampling of
    negatives that cannot raise, prints its batch count and then one
    progress line for each step [i] of [1, ..., num_batches] with
    [i % print_interval == 0], in order, and nothing else. *)
Theorem worker_progress_lines
    (rand : nat -> nat -> nat) (a : Args) (ds : Dataset) (walks : list walk)
    (gpu_id : Z) (w : World) :
  walks <> [] ->
  0 < batch_size a ->
  iterations a <> 0 ->
  print_interval a <> 0 ->
  sampling_ok a ds (num_pos_of a) ->
  exists num_batches,
    Py.ceil_div (Z.of_nat (length walks)) (batch_size a) = Some num_batches
    /\ forall fuel, num_batches <= Z.of_nat fuel ->
         exists w',
           fast_train_sp_logged rand fuel a ds walks gpu_id w
           = (Ret (Line_num_batches num_batches (Some gpu_id)
                   :: map (Line_batch (Some gpu_id))
                        (filter (fun i => i mod print_interval a =? 0)
                                (map Z.of_nat (seq 1 (Z.to_nat num_batches))))),
              w').
Proof.
  intros Hne Hbs Hit Hp Hs.
  destruct (ceil_div_some (Z.of_nat (length walks)) (batch_size a)) as [nb Hnb];
    [lia|].
  pose proof (ceil_div_spec _ _ _ Hbs Hnb) as Hspec.
  assert (Hpos : 0 < nb)
    by (destruct walks; [contradiction | simpl length in *; nia]).
  exists nb. split; [exact Hnb|]. intros fuel Hfuel.
  destruct (training_loop_logged_returns rand a ds walks (Some gpu_id) nb
              (num_pos_of a) (iterations a * nb) Hbs Hne Hnb ltac:(nia) Hs Hp fuel
              0 [Line_num_batches nb (Some gpu_id)] w ltac:(lia))
    as [w' Hrun].
  { rewrite Z.mod_0_l by lia. lia. }
  exists w'. unfold fast_train_sp_logged, bind at 1, or_zero_division.
  rewrite Hnb. unfold ret at 1. cbv zeta. unfold bind. rewrite Hrun.
  unfold ret. simpl snd. rewrite Z.mod_0_l, Z.sub_0_r by lia.
  unfold progress_steps. simpl app. reflexivity.
Qed.

(** Forty-five walks in batches of ten with [--print_interval 2]: five
    steps, progress lines at steps 2 and 4. *)
Lemma worker_progress_lines_witness :
  let a := Cli.set_print_interval 2 example_args in
  exists w',
    fast_train_sp_logged (fun _ _ => 0%nat) 5 a (mkDataset 45 []) (example_walks 45) 3
      (example_world 45)
    = (Ret [Line_num_batches 5 (Some 3); Line_batch (Some 3) 2; Line_batch (Some 3) 4],
       w').
Proof.
  intros a.
  destruct (worker_progress_lines (fun _ _ => 0%nat) a (mkDataset 45 [])
              (example_walks 45) 3 (example_world 45)
              ltac:(discriminate) ltac:(reflexivity) ltac:(discriminate)
              ltac:(discriminate) ltac:(left; reflexivity))
    as (nb & Hnb & Hrun).
  vm_compute in Hnb. injection Hnb as <-.
  destruct (Hrun 5%nat ltac:(lia)) as (w' & Hw').
  exists w'. exact Hw'.
Defined.

(* ------------------------------------------------------------------ *)
(** ** A negative batch size *)

(** For a negative batch size [bs] and a walk count [l] with
    [-bs <= l < -2 * bs] the batch count [int(np.ceil(l / bs))] is [-1]. *)
Lemma ceil_div_minus_one (l bs : Z) :
  bs < 0 -> - bs <= l < - 2 * bs -> Py.ceil_div l bs = Some (-1).
Proof.
  intros Hbs Hl. unfold Py.ceil_div.
  destruct (Z.eqb_spec bs 0) as [?|_]; [lia|].
  assert (E : - l / bs = 1)
    by (symmetry; apply Z.div_unique with (r := - l - bs); lia).
  now rewrite E.
Qed.

Lemma mod_minus_one (i : Z) : i mod (-1) = 0.
Proof. pose proof (Z.mod_neg_bound i (-1) ltac:(lia)). lia. Qed.

(** [walks[0 : bs]] for a negative [bs]: all but the last [-bs] walks. *)
Lemma slice_negative_stop {A : Type} (l : list A) (bs : Z) :
  bs < 0 -> - bs <= Z.of_nat (length l) ->
  Py.slice l (0 * bs) ((1 + 0) * bs)
  = firstn (Z.to_nat (Z.of_nat (length l) + bs)) l.
Proof.
  intros Hbs Hl. rewrite Z.mul_0_l, Z.add_0_r, Z.mul_1_l.
  unfold Py.slice, Py.slice_index.
  destruct (Z.ltb_spec bs 0) as [_|?]; [|lia].
  change (0 <? 0) with false. cbv iota.
  rewrite Z.min_l by lia. rewrite Z.max_r by lia.
  rewrite Z.sub_0_r. simpl skipn. f_equal. lia.
Qed.

Section NegativeBatch.

Variable rand : nat -> nat -> nat.
Variables (a : Args) (ds : Dataset) (walks : list walk).
Variables (num_pos max_i : Z).

Hypothesis batch_size_neg : batch_size a < 0.
Hypothesis walks_count :
  - batch_size a < Z.of_nat (length walks) < - 2 * batch_size a.
Hypothesis horizon : max_i <> 0.
Hypothesis sampling : sampling_ok a ds num_pos.

(** With the batch count [-1] the batch number [i % -1] is always [0] and
    never the last, [-2]: the loop learns the same batch for as long as it
    has fuel. *)
Lemma training_loop_negative_batch (fuel : nat) :
  forall (i : Z) (w : World),
    exists w' new,
      training_loop rand fuel a ds walks (-1) num_pos max_i i w = (OutOfFuel, w')
      /\ learn_log w' = learn_log w ++ new
      /\ length new = fuel
      /\ Forall (fun c => lc_walks c
                          = firstn (Z.to_nat (Z.of_nat (length walks) + batch_size a))
                                   walks) new.
Proof.
  induction fuel as [|fuel IH]; intros i w.
  - exists w, []. simpl. rewrite app_nil_r. auto.
  - rewrite training_loop_S. unfold bind at 1, decayed_lr.
    destruct (Z.eqb_spec max_i 0) as [?|_]; [contradiction|].
    unfold ret at 1. unfold bind at 1, or_zero_division, Py.mod_.
    destruct (Z.eqb_spec (-1) 0) as [?|_]; [lia|].
    unfold ret at 1. cbv zeta. rewrite mod_minus_one.
    rewrite slice_negative_stop by lia.
    set (walks_ := firstn (Z.to_nat (Z.of_nat (length walks) + batch_size a)) walks).
    assert (Hw : walks_ <> []).
    { intros E. apply (f_equal (@length walk)) in E.
      unfold walks_ in E. rewrite length_firstn in E. simpl in E. lia. }
    destruct (Nat.eqb_spec (length walks_) 0) as [He|_].
    { apply length_zero_iff_nil in He. contradiction. }
    unfold bind at 1.
    set (rate := if Qltb (lr a * inject_Z (max_i - i) / inject_Z max_i) lr_floor
                 then lr_floor
                 else (lr a * inject_Z (max_i - i) / inject_Z max_i)%Q).
    destruct (learn_step_returns rand a ds num_pos walks_ rate w sampling Hw)
      as [w1 Hrun].
    rewrite Hrun.
    apply learn_step_spec in Hrun. destruct Hrun as (_ & _ & c & Hlog & Hcw & _).
    destruct (Z.eqb_spec 0 (-1 - 1)) as [?|_]; [lia|].
    destruct (IH (i + 1) w1) as (w' & new & Hrun' & Hlog' & Hlen & Hall).
    exists w', (c :: new). rewrite Hrun', Hlog', Hlog, <- app_assoc.
    repeat split; simpl; auto.
Qed.

End NegativeBatch.

(** X4. A worker never finishes when the batch size is negative and the
    shard holds more than [-batch_size] and fewer than [-2 * batch_size]
    walks (with [iterations <> 0], a print interval other than zero and a
    sampling of negatives that cannot raise): [num_batches] is [-1], every
    pass through the loop learns the same batch
    [walks[0 : batch_size]], and no pass meets an exit. However much fuel
    the run is given, it uses it all, with one learning call per unit. *)
Theorem negative_batch_size_never_ends
    (rand : nat -> nat -> nat) (a : Args) (ds : Dataset) (walks : list walk)
    (gpu_id : Z) (w : World) :
  batch_size a < 0 ->
  - batch_size a < Z.of_nat (length walks) < - 2 * batch_size a ->
  iterations a <> 0 ->
  print_interval a <> 0 ->
  sampling_ok a ds (num_pos_of a) ->
  forall fuel,
    exists w',
      fast_train_sp_logged rand fuel a ds walks gpu_id w = (OutOfFuel, w')
      /\ length (new_calls w w') = fuel
      /\ forall c, In c (new_calls w w') ->
           lc_walks c = Py.slice walks 0 (batch_size a).
Proof.
  intros Hbs Hl Hit Hp Hs fuel.
  pose proof (fast_train_sp_logged_forget rand a ds fuel walks gpu_id w Hp) as Hf.
  assert (Hold : exists w' new,
             fast_train_sp rand fuel a ds walks gpu_id w = (OutOfFuel, w')
             /\ learn_log w' = learn_log w ++ new
             /\ length new = fuel
             /\ Forall (fun c => lc_walks c
                                 = firstn (Z.to_nat (Z.of_nat (length walks)
                                                     + batch_size a)) walks) new).
  { destruct (training_loop_negative_batch rand a ds walks (num_pos_of a)
                (iterations a * -1) Hbs Hl ltac:(lia) Hs fuel 0 w)
      as (w' & new & Hrun & Hrest).
    exists w', new. split; [|exact Hrest].
    unfold fast_train_sp, bind at 1, or_zero_division.
    rewrite (ceil_div_minus_one _ _ Hbs) by lia.
    unfold ret at 1. cbv zeta. unfold bind. now rewrite Hrun. }
  destruct Hold as (w' & new & Hrun & Hlog & Hlen & Hall).
  rewrite Hrun in Hf. unfold forget in Hf.
  destruct (fast_train_sp_logged rand fuel a ds walks gpu_id w) as [r wl].
  injection Hf as Hr Hw. subst wl.
  exists w'. split; [|split].
  - destruct r; simpl in Hr; try discriminate. reflexivity.
  - now rewrite (new_calls_app _ _ _ Hlog).
  - rewrite (new_calls_app _ _ _ Hlog). intros c Hc.
    rewrite Forall_forall in Hall. rewrite (Hall c Hc).
    rewrite <- (slice_negative_stop walks (batch_size a)) by lia.
    f_equal; lia.
Qed.

(** Three walks and [--batch_size -2]: with fuel for seven passes the
    worker has learnt the first walk seven times and is still running. *)
Lemma negative_batch_size_never_ends_witness :
  let a := Cli.set_batch_size (-2) example_args in
  exists w',
    fast_train_sp_logged (fun _ _ => 0%nat) 7 a (mkDataset 3 []) (example_walks 3) 0
      (example_world 3) = (OutOfFuel, w')
    /\ map lc_walks (learn_log w') = repeat [[0]] 7.
Proof.
  intros a.
  destruct (negative_batch_size_never_ends (fun _ _ => 0%nat) a (mkDataset 3 [])
              (example_walks 3) 0 (example_world 3)
              ltac:(reflexivity) ltac:(simpl; lia) ltac:(discriminate)
              ltac:(discriminate) ltac:(left; reflexivity) 7%nat)
    as (w' & Hrun & _).
  exists w'. split; [exact Hrun|].
  vm_compute in Hrun. injection Hrun as <-. reflexivity.
Defined.

(* ------------------------------------------------------------------ *)
(** ** What the workers learn together *)

Section WorkersTogether.

Variable shuffle_walks : nat -> list walk -> list walk.
Variable rand : nat -> nat -> nat.
Variables (a : Args) (ds : Dataset).

Hypothesis batch_size_pos : 0 < batch_size a.
Hypothesis iterations_nonzero : iterations a <> 0.
Hypothesis interval : print_interval a <> 0.
Hypothesis sampling : sampling_ok a ds (num_pos_of a).

(** The state a run with output ends in is the state of the run without. *)
Lemma fast_train_sp_logged_state (fuel : nat) (walks : list walk) (gpu_id : Z)
    (w : World) :
  snd (fast_train_sp_logged rand fuel a ds walks gpu_id w)
  = snd (fast_train_sp rand fuel a ds walks gpu_id w).
Proof.
  rewrite <- (fast_train_sp_logged_forget rand a ds fuel walks gpu_id w interval).
  unfold forget. now destruct (fast_train_sp_logged rand fuel a ds walks gpu_id w).
Qed.

(** Started with an empty log and fuel for its walks, a worker ends with
    the walks of its shard in its log, in order, whether the shard is empty
    (the worker raises) or not (it returns). *)
Lemma worker_learns_shard (fuel : nat) (walks : list walk) (gpu_id : Z) (w : World) :
  learn_log w = [] ->
  Z.of_nat (length walks) <= Z.of_nat fuel ->
  concat (map lc_walks
            (learn_log (snd (fast_train_sp_logged rand fuel a ds walks gpu_id w))))
  = walks.
Proof.
  intros Hlog Hfuel. rewrite fast_train_sp_logged_state.
  destruct (ceil_div_some (Z.of_nat (length walks)) (batch_size a)) as [nb Hnb];
    [lia|].
  pose proof (ceil_div_spec _ _ _ batch_size_pos Hnb) as Hspec.
  destruct walks as [|x walks'] eqn:Hw.
  - simpl length in *. assert (nb = 0) by nia. subst nb.
    destruct (fast_train_sp_zero_horizon_no_return rand a ds fuel [] gpu_id 0 w Hnb)
      as [_ ->]; [lia|].
    now rewrite Hlog.
  - rewrite <- Hw in *.
    assert (Hne : walks <> []) by (rewrite Hw; discriminate).
    assert (Hpos : 0 < Z.of_nat (length walks)) by (rewrite Hw; simpl; lia).
    destruct (fast_train_sp_pass rand a ds fuel walks gpu_id nb w batch_size_pos Hne
                Hnb iterations_nonzero sampling ltac:(nia))
      as (w' & new & Hrun & Hlog' & _ & _ & _ & Hbatches).
    rewrite Hrun. simpl snd. rewrite Hlog', Hlog. simpl app.
    rewrite Hbatches. apply batches_concat; nia.
Qed.

End WorkersTogether.

(** X5. With a valid configuration, a positive batch size,
    [iterations <> 0], a print interval other than zero, a shuffle that
    permutes and a sampling of negatives that cannot raise, the parent of
    [fast_train_mp] returns, and the batches the workers learn, taken
    worker by worker, are the shuffled walk list: each walk of the dataset
    is learnt exactly once, by one worker, whatever [iterations] is. *)
Theorem mp_learns_each_walk_once
    (shuffle_walks : nat -> list walk -> list walk) (rand : nat -> nat -> nat)
    (fuel : nat) (a : Args) (ds : Dataset) (w : World) :
  (forall k l, Permutation (shuffle_walks k l) l) ->
  valid_config a ->
  0 < batch_size a ->
  iterations a <> 0 ->
  print_interval a <> 0 ->
  sampling_ok a ds (num_pos_of a) ->
  Z.of_nat (length (ds_walks w)) <= Z.of_nat fuel ->
  let learnt :=
    concat (map (fun run => concat (map lc_walks (learn_log (snd run))))
                (mp_workers_logged shuffle_walks rand fuel a ds w)) in
  fst (fast_train_mp shuffle_walks a w) = Ret tt
  /\ learnt = shuffle_walks (n_shuffles w) (ds_walks w)
  /\ Permutation learnt (ds_walks w).
Proof.
  intros Hsh Hv Hbs Hit Hp Hs Hfuel learnt.
  assert (Hlearnt : learnt = shuffle_walks (n_shuffles w) (ds_walks w)).
  { unfold learnt, mp_workers_logged. rewrite map_map.
    rewrite (map_ext_in _ proc_walks).
    - rewrite mp_procs_shards by assumption.
      apply shards_concat. destruct Hv as (_ & _ & ?). lia.
    - intros p Hin. unfold run_worker_logged.
      apply worker_learns_shard; trivial.
      rewrite mp_procs_shards in Hin by assumption.
      apply in_map_iff in Hin. destruct Hin as (i & <- & Hi).
      unfold Py.range in Hi. apply in_map_iff in Hi.
      destruct Hi as (k & <- & Hk). apply in_seq in Hk.
      destruct Hv as (_ & _ & Hprocs).
      set (ws := shuffle_walks (n_shuffles w) (ds_walks w)).
      assert (Hlen : length ws = length (ds_walks w))
        by apply Permutation_length, Hsh.
      unfold shard_of. simpl proc_walks.
      assert (Hl : 0 <= Z.of_nat (length ws)) by lia.
      rewrite !cut_quot by lia.
      pose proof (cut_bounds (Z.of_nat (length ws)) (num_procs a) (Z.of_nat k) Hl
                    ltac:(lia) ltac:(lia)) as B1.
      pose proof (cut_mono (Z.of_nat (length ws)) (num_procs a) (Z.of_nat k)
                    (Z.of_nat k + 1) Hl ltac:(lia) ltac:(lia)) as B2.
      pose proof (cut_bounds (Z.of_nat (length ws)) (num_procs a) (Z.of_nat k + 1) Hl
                    ltac:(lia) ltac:(lia)) as B3.
      rewrite slice_forward by lia.
      rewrite length_firstn, length_skipn. lia. }
  split; [|split; [exact Hlearnt|]].
  - unfold fast_train_mp, mp_start, bind at 1. unfold bind at 1.
    rewrite (proj2 (init_device_emb_ok a w) Hv).
    unfold bind at 1, shuffle_dataset. unfold bind at 1, get_walks.
    cbv beta iota. simpl ds_walks.
    rewrite start_workers_run by (destruct Hv as (_ & _ & ?); lia).
    reflexivity.
  - rewrite Hlearnt. apply Hsh.
Qed.

(** Seven walks, two workers, batches of two, [--iterations 5], the shuffle
    a reversal: the workers learn walks 6, 5, 4 and 3, 2, 1, 0. *)
Lemma mp_learns_each_walk_once_witness :
  let a := Cli.set_iterations 5 (Cli.set_batch_size 2 mp_args) in
  concat (map (fun run => concat (map lc_walks (learn_log (snd run))))
              (mp_workers_logged (fun _ l => rev l) (fun _ _ => 0%nat) 7 a
                 (mkDataset 7 []) (example_world 7)))
  = rev (example_walks 7).
Proof.
  intros a.
  refine (proj1 (proj2 (mp_learns_each_walk_once (fun _ l => rev l)
            (fun _ _ => 0%nat) 7 a (mkDataset 7 []) (example_world 7)
            (fun _ l => Permutation_sym (Permutation_rev l)) _ _ _ _ _ _))).
  - unfold valid_config, exactly_one. simpl. intuition lia.
  - reflexivity.
  - discriminate.
  - discriminate.
  - left. reflexivity.
  - simpl. lia.
Defined.

(* ------------------------------------------------------------------ *)
(** ** The output of [fast_train] *)

(** What iteration [e] (from [0]) of [fast_train] prints with [nb] batches
    per pass: its heading and a progress line for each multiple of the
    print interval among the steps [e * nb + 1, ..., e * nb + nb]. *)
Definition epoch_lines (a : Args) (nb : Z) (e : nat) : list line :=
  Line_iteration (Z.of_nat e + 1)
  :: map (Line_batch None)
       (filter (fun i => i mod print_interval a =? 0)
               (map (fun j => Z.of_nat e * nb + Z.of_nat j) (seq 1 (Z.to_nat nb)))).

Section EpochOutput.

Variable shuffle_walks : nat -> list walk -> list walk.
Variable rand : nat -> nat -> nat.
Variables (a : Args) (ds : Dataset).
Variables (fuel : nat) (nb num_pos max_i : Z).

Hypothesis shuffle_perm : forall k l, Permutation (shuffle_walks k l) l.
Hypothesis batch_size_pos : 0 < batch_size a.
Hypothesis batches :
  Py.ceil_div (net_len ds * num_walks a) (batch_size a) = Some nb.
Hypothesis horizon : max_i <> 0.
Hypothesis sampling : sampling_ok a ds num_pos.
Hypothesis interval : print_interval a <> 0.
Hypothesis enough_fuel : nb <= Z.of_nat fuel.

(** The loop with its output leaves the walks, the shuffle count and the
    save count as they are. *)
Lemma training_loop_logged_frame (f : nat) (walks : list walk) (gpu_id : option Z)
    (i : Z) (out : list line) (w : World) (r : result (Z * list line)) (w' : World) :
  training_loop_logged rand f a ds walks gpu_id nb num_pos max_i i out w = (r, w') ->
  same_frame w w'.
Proof.
  intros E.
  pose proof (training_loop_logged_forget rand a ds walks gpu_id nb num_pos max_i
                interval f i out w) as Hf.
  unfold forget in Hf. rewrite E in Hf. symmetry in Hf.
  apply training_loop_log in Hf. destruct Hf as (new & _ & Hfr & _). exact Hfr.
Qed.

Lemma epochs_logged_returns (n : nat) :
  forall (e : nat) (out : list line) (w : World),
    ds_walks w <> [] ->
    Z.of_nat (length (ds_walks w)) = net_len ds * num_walks a ->
    exists w',
      epochs_logged shuffle_walks rand n fuel a ds nb num_pos max_i (Z.of_nat e)
        (Z.of_nat e * nb) out w
      = (Ret (Z.of_nat (e + n) * nb, out ++ flat_map (epoch_lines a nb) (seq e n)), w')
      /\ saved w' = saved w
      /\ n_shuffles w' = (n_shuffles w + n)%nat.
Proof.
  induction n as [|n IH]; intros e out w Hne Hlen.
  - exists w. simpl. unfold ret. rewrite app_nil_r, Nat.add_0_r. auto.
  - rewrite epochs_logged_S. unfold bind at 1, shuffle_dataset.
    unfold bind at 1, get_walks. cbv beta iota. simpl ds_walks.
    set (walks := shuffle_walks (n_shuffles w) (ds_walks w)).
    set (w1 := mkWorld walks (learn_log w) (S (n_shuffles w)) (n_draws w)
                 (spawned w) (saved w)).
    assert (Hlen' : Z.of_nat (length walks) = net_len ds * num_walks a)
      by (unfold walks; now rewrite (Permutation_length (shuffle_perm _ _))).
    assert (Hne' : walks <> []).
    { intros E. apply (f_equal (@length walk)) in E. simpl in E.
      destruct (ds_walks w); [contradiction | simpl in Hlen; lia]. }
    assert (Hnb : Py.ceil_div (Z.of_nat (length walks)) (batch_size a) = Some nb)
      by now rewrite Hlen'.
    pose proof (ceil_div_spec _ _ _ batch_size_pos batches) as Hspec.
    assert (Hpos : 0 < nb).
    { destruct walks; [contradiction | simpl length in Hlen'; nia]. }
    assert (Hmod : (Z.of_nat e * nb) mod nb = 0) by (apply Z.mod_mul; lia).
    destruct (training_loop_logged_returns rand a ds walks None nb num_pos max_i
                batch_size_pos Hne' Hnb horizon sampling interval fuel
                (Z.of_nat e * nb) (out ++ [Line_iteration (Z.of_nat e + 1)]) w1
                ltac:(lia) ltac:(lia)) as [w2 H2].
    unfold bind at 1. rewrite H2.
    apply training_loop_logged_frame in H2.
    destruct H2 as (Hw2 & Hsh2 & _ & Hsv2).
    simpl fst. simpl snd. rewrite Hmod, Z.sub_0_r.
    replace (Z.of_nat e * nb + nb) with (Z.of_nat (S e) * nb) by lia.
    replace (Z.of_nat e + 1) with (Z.of_nat (S e)) by lia.
    destruct (IH (S e)
                (out ++ [Line_iteration (Z.of_nat (S e))]
                 ++ map (Line_batch None)
                      (progress_steps (print_interval a) (Z.of_nat e * nb)
                         (Z.to_nat nb)))
                w2) as (w' & Hrun & Hsv & Hsh).
    + rewrite Hw2. exact Hne'.
    + rewrite Hw2. exact Hlen'.
    + exists w'. rewrite <- app_assoc. rewrite Hrun.
      split; [|split].
      * replace (e + S n)%nat with (S e + n)%nat by lia.
        do 2 f_equal. simpl seq. simpl flat_map. unfold epoch_lines at 2.
        rewrite <- !app_assoc. f_equal.
        replace (Z.of_nat e + 1) with (Z.of_nat (S e)) by lia.
        reflexivity.
      * rewrite Hsv, Hsv2. reflexivity.
      * rewrite Hsh, Hsh2. simpl. lia.
Qed.

End EpochOutput.

(** X6. With a valid configuration, a positive batch size, a print interval
    other than zero, a shuffle that permutes, a sampling of negatives that
    cannot raise and [len(self.dataset.walks) = len(net) * num_walks > 0],
    [fast_train] returns once fuel covers one pass, and what it prints is:
    the batch count; the line of [init_device_emb] for the training mode;
    for each iteration its heading and, numbered through all iterations and
    not from [1] in each, a progress line for every step that is a multiple
    of the print interval; the line with the time used. It shuffles once
    per iteration and saves once. *)
Theorem fast_train_output
    (shuffle_walks : nat -> list walk -> list walk) (rand : nat -> nat -> nat)
    (fuel : nat) (a : Args) (ds : Dataset) (w : World) :
  (forall k l, Permutation (shuffle_walks k l) l) ->
  valid_config a ->
  0 < batch_size a ->
  print_interval a <> 0 ->
  sampling_ok a ds (num_pos_of a) ->
  ds_walks w <> [] ->
  Z.of_nat (length (ds_walks w)) = net_len ds * num_walks a ->
  exists nb,
    Py.ceil_div (net_len ds * num_walks a) (batch_size a) = Some nb
    /\ (nb <= Z.of_nat fuel ->
        exists w',
          fast_train_logged shuffle_walks rand fuel a ds w
          = (Ret (Line_num_batches nb None
                  :: device_line a
                  :: flat_map (epoch_lines a nb) (seq 0 (Z.to_nat (iterations a)))
                  ++ [Line_used_time]),
             w')
          /\ saved w' = S (saved w)
          /\ n_shuffles w' = (n_shuffles w + Z.to_nat (iterations a))%nat).
Proof.
  intros Hsh Hv Hbs Hp Hs Hne Hlen.
  destruct (ceil_div_some (net_len ds * num_walks a) (batch_size a)) as [nb Hnb];
    [lia|].
  exists nb. split; [exact Hnb|]. intros Hfuel.
  pose proof (ceil_div_spec _ _ _ Hbs Hnb) as Hspec.
  assert (Hpos : 0 < nb).
  { destruct (ds_walks w); [contradiction | simpl length in Hlen; nia]. }
  unfold fast_train_logged. cbv zeta. unfold bind at 1, or_zero_division.
  rewrite Hnb. unfold ret at 1. unfold bind at 1.
  rewrite (init_device_emb_logged_valid a _ w (proj2 (init_device_emb_ok a w) Hv)).
  unfold bind at 1.
  destruct (Z.to_nat (iterations a)) as [|n] eqn:Hn.
  - simpl. unfold save_embedding, bind, ret. simpl. eauto.
  - destruct (epochs_logged_returns shuffle_walks rand a ds fuel nb (num_pos_of a)
                (iterations a * nb) Hsh Hbs Hnb ltac:(nia) Hs Hp Hfuel (S n) 0%nat
                ([Line_num_batches nb None] ++ [device_line a]) w Hne Hlen)
      as (w' & Hrun & Hsv & Hshf).
    change (Z.of_nat 0) with 0 in Hrun. rewrite Z.mul_0_l in Hrun.
    rewrite Hrun. unfold save_embedding, bind, ret. simpl snd.
    eexists. split; [reflexivity|]. simpl. split; [now rewrite Hsv | exact Hshf].
Qed.

(** Five walks in batches of two, three iterations, a line every second
    step: steps 2 and 4 fall in the first two iterations, 6 and 8 in the
    second and the third. *)
Lemma fast_train_output_witness :
  let a := Cli.set_print_interval 2
             (Cli.set_iterations 3
                (Cli.set_batch_size 2 (Cli.set_num_walks 1 example_args))) in
  exists w',
    fast_train_logged (fun _ l => rev l) (fun _ _ => 0%nat) 3 a (mkDataset 5 [])
      (example_world 5)
    = (Ret [Line_num_batches 3 None; Line_run_cpu 1;
            Line_iteration 1; Line_batch None 2;
            Line_iteration 2; Line_batch None 4; Line_batch None 6;
            Line_iteration 3; Line_batch None 8;
            Line_used_time], w').
Proof.
  intros a.
  destruct (fast_train_output (fun _ l => rev l) (fun _ _ => 0%nat) 3 a
              (mkDataset 5 []) (example_world 5)
              (fun _ l => Permutation_sym (Permutation_rev l))
              ltac:(unfold valid_config, exactly_one; simpl; intuition lia)
              ltac:(reflexivity) ltac:(discriminate) ltac:(left; reflexivity)
              ltac:(discriminate) ltac:(reflexivity))
    as (nb & Hnb & Hrun).
  vm_compute in Hnb. injection Hnb as <-.
  destruct (Hrun ltac:(simpl; lia)) as (w' & Hw' & _).
  exists w'. exact Hw'.
Defined.

(* ------------------------------------------------------------------ *)
(** ** A sampling of negatives that raises *)

(** With [fast_neg] off, [np.random.choice] refuses the first batch: the
    number of samples per walk is negative, or it is positive and the table
    is empty. *)
Definition sampling_fails (a : Args) (ds : Dataset) (num_pos : Z) : Prop :=
  fast_neg a = false
  /\ (num_pos * negative a < 0
      \/ (neg_table ds = [] /\ 0 < num_pos * negative a)).

Lemma sampling_fails_not_ok (a : Args) (ds : Dataset) (num_pos : Z) :
  sampling_fails a ds num_pos <-> ~ sampling_ok a ds num_pos.
Proof.
  unfold sampling_fails, sampling_ok. split.
  - intros [Hf Hc] [Ht|[Hpos Htbl]]; [congruence|].
    destruct Hc as [?|[Hnil ?]]; [lia|]. specialize (Htbl Hnil). lia.
  - intros Hn. destruct (fast_neg a); [exfalso; auto|]. split; [reflexivity|].
    destruct (Z.lt_ge_cases (num_pos * negative a) 0) as [?|Hge]; [now left|].
    right. destruct (neg_table ds) as [|x t].
    + split; [reflexivity|].
      destruct (Z.eq_dec (num_pos * negative a) 0) as [E|?]; [|lia].
      exfalso. apply Hn. right. split; [lia | trivial].
    + exfalso. apply Hn. right. split; [lia | discriminate].
Qed.

Section FailedSampling.

Variable rand : nat -> nat -> nat.
Variables (a : Args) (ds : Dataset) (num_pos : Z).

Hypothesis fails : sampling_fails a ds num_pos.

(** The first pass through the loop body raises at the sampling, before the
    learning call, and leaves the state as it is. *)
Lemma training_loop_logged_failed_sampling (fuel : nat) (walks : list walk)
    (gpu_id : option Z) (num_batches max_i i : Z) (out : list line) (w : World) :
  0 < batch_size a ->
  walks <> [] ->
  Py.ceil_div (Z.of_nat (length walks)) (batch_size a) = Some num_batches ->
  max_i <> 0 ->
  0 <= i ->
  training_loop_logged rand (S fuel) a ds walks gpu_id num_batches num_pos max_i i
    out w
  = (Raise Py.ValueError, w).
Proof.
  intros Hbs Hne Hnb Hm Hi. destruct fails as [Hf Hc].
  apply ceil_div_spec in Hnb; [|assumption].
  assert (Hlen : 0 < Z.of_nat (length walks))
    by (destruct walks; [contradiction | simpl; lia]).
  assert (Hnb1 : 0 < num_batches) by nia.
  pose proof (Z.mod_pos_bound i num_batches Hnb1) as Hmod.
  rewrite training_loop_logged_S. unfold bind at 1, decayed_lr.
  destruct (Z.eqb_spec max_i 0) as [?|_]; [contradiction|].
  unfold ret at 1. unfold bind at 1, or_zero_division, Py.mod_.
  destruct (Z.eqb_spec num_batches 0) as [?|_]; [lia|].
  unfold ret at 1. cbv zeta.
  set (walks_ := Py.slice walks (i mod num_batches * batch_size a)
                   ((1 + i mod num_batches) * batch_size a)).
  assert (Hw : walks_ <> []) by (apply slice_nonempty; nia).
  assert (Hl : 0 < Z.of_nat (length walks_))
    by (destruct walks_; [contradiction | simpl; lia]).
  destruct (Nat.eqb_spec (length walks_) 0) as [He|_]; [lia|].
  rewrite Hf. unfold bind at 1. unfold bind at 1, random_choice.
  destruct (Z.ltb_spec (Z.of_nat (length walks_) * num_pos * negative a) 0)
    as [_|Hge]; [reflexivity|].
  destruct Hc as [?|[Hnil Hpos]]; [nia|].
  rewrite Hnil. simpl length. simpl Nat.eqb.
  destruct (Z.ltb_spec 0 (Z.of_nat (length walks_) * num_pos * negative a))
    as [_|?]; [reflexivity | nia].
Qed.

End FailedSampling.

(** X7. With [fast_neg] off and a number [num_pos * negative] of samples
    per walk that is negative, or positive with an empty negative table,
    [np.random.choice] raises ValueError in the first step, before any
    learning call: a worker on a non-empty shard (positive batch size,
    [iterations <> 0]) raises with its state unchanged; [fast_train] (valid
    configuration, at least one iteration, a non-empty walk list) raises
    after its first shuffle, with nothing learnt and nothing saved. The
    print interval plays no part. *)
Theorem failed_sampling_raises
    (shuffle_walks : nat -> list walk -> list walk) (rand : nat -> nat -> nat)
    (fuel : nat) (a : Args) (ds : Dataset) (walks : list walk) (gpu_id : Z)
    (w : World) :
  sampling_fails a ds (num_pos_of a) ->
  0 < batch_size a ->
  (walks <> [] -> iterations a <> 0 ->
   fast_train_sp_logged rand (S fuel) a ds walks gpu_id w = (Raise Py.ValueError, w))
  /\ (valid_config a -> 0 < iterations a ->
      (forall k l, Permutation (shuffle_walks k l) l) ->
      ds_walks w <> [] ->
      Z.of_nat (length (ds_walks w)) = net_len ds * num_walks a ->
      fast_train_logged shuffle_walks rand (S fuel) a ds w
      = (Raise Py.ValueError,
         mkWorld (shuffle_walks (n_shuffles w) (ds_walks w)) (learn_log w)
                 (S (n_shuffles w)) (n_draws w) (spawned w) (saved w))).
Proof.
  intros Hs Hbs. split.
  - intros Hne Hit.
    destruct (ceil_div_some (Z.of_nat (length walks)) (batch_size a)) as [nb Hnb];
      [lia|].
    pose proof (ceil_div_spec _ _ _ Hbs Hnb) as Hspec.
    assert (Hpos : 0 < nb)
      by (destruct walks; [contradiction | simpl length in *; nia]).
    unfold fast_train_sp_logged, bind at 1, or_zero_division. rewrite Hnb.
    unfold ret at 1. cbv zeta. unfold bind.
    now rewrite (training_loop_logged_failed_sampling rand a ds (num_pos_of a) Hs
                   fuel walks (Some gpu_id) nb (iterations a * nb) 0
                   [Line_num_batches nb (Some gpu_id)] w Hbs Hne Hnb ltac:(nia)
                   ltac:(lia)).
  - intros Hv Hit Hsh Hne Hlen.
    destruct (ceil_div_some (net_len ds * num_walks a) (batch_size a)) as [nb Hnb];
      [lia|].
    pose proof (ceil_div_spec _ _ _ Hbs Hnb) as Hspec.
    assert (Hpos : 0 < nb)
      by (destruct (ds_walks w); [contradiction | simpl length in *; nia]).
    set (ws1 := shuffle_walks (n_shuffles w) (ds_walks w)).
    set (w1 := mkWorld ws1 (learn_log w) (S (n_shuffles w)) (n_draws w)
                 (spawned w) (saved w)).
    assert (Hlen1 : length ws1 = length (ds_walks w))
      by apply Permutation_length, Hsh.
    assert (Hne1 : ws1 <> []).
    { intros E. rewrite E in Hlen1. destruct (ds_walks w); [contradiction|discriminate]. }
    assert (Hnb1 : Py.ceil_div (Z.of_nat (length ws1)) (batch_size a) = Some nb)
      by (rewrite Hlen1, Hlen; exact Hnb).
    unfold fast_train_logged. cbv zeta. unfold bind at 1, or_zero_division.
    rewrite Hnb. unfold ret at 1. unfold bind at 1.
    rewrite (init_device_emb_logged_valid a _ w (proj2 (init_device_emb_ok a w) Hv)).
    unfold bind at 1.
    replace (Z.to_nat (iterations a)) with (S (Z.to_nat (iterations a - 1))) by lia.
    rewrite epochs_logged_S. unfold bind at 1, shuffle_dataset.
    unfold bind at 1, get_walks. cbv beta iota. simpl ds_walks.
    fold ws1. fold w1. unfold bind at 1.
    now rewrite (training_loop_logged_failed_sampling rand a ds (num_pos_of a) Hs
                   fuel ws1 None nb (iterations a * nb) 0
                   (([Line_num_batches nb None] ++ [device_line a])
                    ++ [Line_iteration (0 + 1)]) w1
                   Hbs Hne1 Hnb1 ltac:(nia) ltac:(lia)).
Qed.

(** Three walks, [fast_neg] off and an empty negative table: the worker
    raises at its first sampling. *)
Lemma failed_sampling_raises_witness :
  let a := Cli.set_fast_neg false example_args in
  fast_train_sp_logged (fun _ _ => 0%nat) 1 a (mkDataset 3 []) (example_walks 3) 0
    (example_world 3)
  = (Raise Py.ValueError, example_world 3).
Proof.
  intros a.
  refine (proj1 (failed_sampling_raises (fun _ l => l) (fun _ _ => 0%nat) 0 a
                   (mkDataset 3 []) (example_walks 3) 0 (example_world 3) _ _) _ _).
  - split; [reflexivity|]. right. split; [reflexivity|]. vm_compute. reflexivity.
  - reflexivity.
  - discriminate.
  - discriminate.
Defined.

(* ------------------------------------------------------------------ *)
(** ** A batch size of zero *)

(** With a valid configuration the parent of [fast_train_mp] returns, with
    one process started per shard and the embedding saved once, whatever the
    workers do. *)
Lemma fast_train_mp_valid (shuffle_walks : nat -> list walk -> list walk)
    (a : Args) (w : World) :
  valid_config a ->
  fast_train_mp shuffle_walks a w
  = (Ret tt,
     mkWorld (shuffle_walks (n_shuffles w) (ds_walks w)) (learn_log w)
             (S (n_shuffles w)) (n_draws w)
             (spawned w
              ++ map (shard_of (shuffle_walks (n_shuffles w) (ds_walks w))
                        (num_procs a))
                     (Py.range (num_procs a)))
             (S (saved w))).
Proof.
  intros Hv. unfold fast_train_mp, mp_start, bind at 1. unfold bind at 1.
  rewrite (proj2 (init_device_emb_ok a w) Hv).
  unfold bind at 1, shuffle_dataset. unfold bind at 1, get_walks.
  cbv beta iota. simpl ds_walks.
  rewrite start_workers_run by (destruct Hv as (_ & _ & ?); lia).
  reflexivity.
Qed.

(** X8. With [batch_size = 0]: [fast_train] raises ZeroDivisionError at
    its batch count, before the configuration check and with nothing
    changed, whatever the configuration; [fast_train_mp], with a valid
    configuration, starts its [num_procs] workers, each of which raises
    ZeroDivisionError at its batch count without a learning call, and the
    parent still returns and saves the embedding. *)
Theorem zero_batch_size_raises
    (shuffle_walks : nat -> list walk -> list walk) (rand : nat -> nat -> nat)
    (fuel : nat) (a : Args) (ds : Dataset) (w : World) :
  batch_size a = 0 ->
  fast_train_logged shuffle_walks rand fuel a ds w = (Raise Py.ZeroDivisionError, w)
  /\ (valid_config a ->
      fst (fast_train_mp shuffle_walks a w) = Ret tt
      /\ saved (snd (fast_train_mp shuffle_walks a w)) = S (saved w)
      /\ length (mp_workers_logged shuffle_walks rand fuel a ds w)
         = Z.to_nat (num_procs a)
      /\ forall run,
           In run (mp_workers_logged shuffle_walks rand fuel a ds w) ->
           fst run = Raise Py.ZeroDivisionError /\ learn_log (snd run) = []).
Proof.
  intros Hbs. split.
  - unfold fast_train_logged. cbv zeta.
    unfold bind at 1, or_zero_division, Py.ceil_div. now rewrite Hbs.
  - intros Hv. rewrite (fast_train_mp_valid shuffle_walks a w Hv). simpl fst. simpl snd.
    split; [reflexivity|]. split; [reflexivity|].
    unfold mp_workers_logged. rewrite (mp_procs_shards shuffle_walks a w Hv).
    split.
    + rewrite !length_map. unfold Py.range. now rewrite length_map, length_seq.
    + intros run Hin. apply in_map_iff in Hin. destruct Hin as (p & <- & _).
      unfold run_worker_logged, fast_train_sp_logged.
      unfold bind at 1, or_zero_division, Py.ceil_div. rewrite Hbs. simpl.
      auto.
Qed.

(** [--batch_size 0] with two processes over seven walks: two workers, both
    raising. *)
Lemma zero_batch_size_raises_witness :
  let a := Cli.set_batch_size 0 mp_args in
  map fst (mp_workers_logged (fun _ l => l) (fun _ _ => 0%nat) 5 a (mkDataset 7 [])
             (example_world 7))
  = [Raise Py.ZeroDivisionError; Raise Py.ZeroDivisionError].
Proof.
  intros a.
  pose proof (proj2 (zero_batch_size_raises (fun _ l => l) (fun _ _ => 0%nat) 5 a
                       (mkDataset 7 []) (example_world 7) eq_refl)
                ltac:(unfold valid_config, exactly_one; simpl; intuition lia))
    as (_ & _ & Hlen & Hall).
  destruct (mp_workers_logged (fun _ l => l) (fun _ _ => 0%nat) 5 a (mkDataset 7 [])
              (example_world 7)) as [|r1 [|r2 [|r3 l]]]; try discriminate Hlen.
  simpl. f_equal; [|f_equal].
  - apply (Hall r1). now left.
  - apply (Hall r2). right. now left.
Defined.

(* ------------------------------------------------------------------ *)
(** ** The flags a command line must name *)

(** The token may stand for the option [flag]: its name, the part before
    any [=], is [flag] or one of its prefixes. *)
Definition names (flag tok : string) : bool :=
  String.prefix (fst (Cli.split_eq tok)) flag.

Lemma prefix_refl (s : string) : String.prefix s s = true.
Proof.
  induction s as [|c s IH]; simpl; [reflexivity|].
  destruct (ascii_dec c c); [exact IH | contradiction].
Qed.

(** The option a name resolves to has that name or a longer one. *)
Lemma resolve_prefix (name : string) (act : Cli.action) :
  Cli.resolve name = Some act ->
  exists o, In o Cli.options /\ snd o = act /\ String.prefix name (fst o) = true.
Proof.
  unfold Cli.resolve.
  destruct (find _ Cli.options) as [o|] eqn:Hfind.
  - intros [= <-]. apply find_some in Hfind. destruct Hfind as [Hin He].
    apply String.eqb_eq in He. exists o.
    split; [exact Hin|]. split; [reflexivity|].
    rewrite <- He. apply prefix_refl.
  - destruct (filter _ Cli.options) as [|o [|o' l]] eqn:Hfilter; try discriminate.
    intros [= <-]. exists o.
    assert (Hin : In o (filter (fun o0 => String.prefix name (fst o0)) Cli.options))
      by (rewrite Hfilter; now left).
    apply filter_In in Hin. tauto.
Qed.

Section FlagFacts.

Variable py_int : string -> option Z.
Variable py_float : string -> option Q.

(** A [store_true] option [flag] and the attribute [f] it sets. *)
Variable flag : string.
Variable f : Args -> bool.

(** An action that leaves an unset [f] unset. *)
Definition keeps_unset (act : Cli.action) : Prop :=
  match act with
  | Cli.Store_str set => forall v a, f a = false -> f (set v a) = false
  | Cli.Store_int set => forall v a, f a = false -> f (set v a) = false
  | Cli.Store_float set => forall v a, f a = false -> f (set v a) = false
  | Cli.Store_true set => forall a, f a = false -> f (set true a) = false
  end.

(** No option of the table but [flag] sets [f]. *)
Hypothesis only_flag_sets :
  Forall (fun o => fst o = flag \/ keeps_unset (snd o)) Cli.options.

Lemma resolve_keeps_unset (name : string) (act : Cli.action) :
  String.prefix name flag = false ->
  Cli.resolve name = Some act -> keeps_unset act.
Proof.
  intros Hn H. destruct (resolve_prefix name act H) as (o & Hin & <- & Hp).
  pose proof only_flag_sets as HF. rewrite Forall_forall in HF.
  destruct (HF o Hin) as [E|Hk]; [|exact Hk].
  rewrite E in Hp. congruence.
Qed.

Lemma store_keeps_unset (act : Cli.action) (v : string) (a a' : Args) :
  keeps_unset act -> f a = false ->
  Cli.store py_int py_float act v a = Some a' -> f a' = false.
Proof.
  intros Hk Ha. destruct act as [set|set|set|set]; simpl in *.
  - intros [= <-]. auto.
  - destruct (py_int v); [|discriminate]. intros [= <-]. simpl. auto.
  - destruct (py_float v); [|discriminate]. intros [= <-]. simpl. auto.
  - discriminate.
Qed.

(** Parsing leaves [f] unset when no token may stand for [flag]. *)
Lemma parse_keeps_unset (n : nat) :
  forall (argv : list string) (a a' : Args),
    (length argv <= n)%nat -> f a = false ->
    Forall (fun tok => names flag tok = false) argv ->
    Cli.parse py_int py_float argv a = Some a' -> f a' = false.
Proof.
  induction n as [|n IH]; intros argv a a' Hlen Ha Hno.
  - destruct argv; [|simpl in Hlen; lia]. simpl. now intros [= <-].
  - destruct argv as [|tok rest]; [simpl; now intros [= <-]|].
    simpl in Hlen. simpl Cli.parse.
    apply Forall_cons_iff in Hno. destruct Hno as [Htok Hrest].
    destruct (String.eqb tok "--").
    { destruct rest; [now intros [= <-] | discriminate]. }
    unfold names in Htok.
    destruct (Cli.split_eq tok) as [name explicit]. simpl fst in Htok.
    destruct (Cli.resolve name) as [act|] eqn:Hres; [|discriminate].
    pose proof (resolve_keeps_unset name act Htok Hres) as Hk.
    assert (Hstore : forall v tail a1,
              (length tail <= n)%nat ->
              Forall (fun tok => names flag tok = false) tail ->
              match Cli.store py_int py_float act v a with
              | Some a0 => Cli.parse py_int py_float tail a0
              | None => None
              end = Some a1 -> f a1 = false).
    { intros v tail a1 Ht Hnt.
      destruct (Cli.store py_int py_float act v a) as [a0|] eqn:Hs; [|discriminate].
      apply (IH tail a0 a1 Ht); [|exact Hnt].
      eapply store_keeps_unset; eassumption. }
    assert (Htail : forall v rest', rest = v :: rest' ->
              (length rest' <= n)%nat
              /\ Forall (fun tok => names flag tok = false) rest').
    { intros v rest' ->. apply Forall_cons_iff in Hrest. simpl in Hlen.
      split; [lia | tauto]. }
    destruct act as [set|set|set|set].
    + destruct explicit as [v|]; [apply Hstore; [lia | exact Hrest]|].
      destruct rest as [|v rest']; [discriminate|].
      apply Hstore; now apply (Htail v).
    + destruct explicit as [v|]; [apply Hstore; [lia | exact Hrest]|].
      destruct rest as [|v rest']; [discriminate|].
      apply Hstore; now apply (Htail v).
    + destruct explicit as [v|]; [apply Hstore; [lia | exact Hrest]|].
      destruct rest as [|v rest']; [discriminate|].
      apply Hstore; now apply (Htail v).
    + destruct explicit; [discriminate|].
      apply IH; [lia | | exact Hrest]. simpl in Hk. auto.
Qed.

End FlagFacts.

Ltac only_flag :=
  unfold Cli.options;
  repeat (constructor;
          [first [right; simpl; intros; assumption | left; reflexivity]|]);
  constructor.

Lemma only_cpu_flag :
  Forall (fun o => fst o = "--only_cpu"%string \/ keeps_unset only_cpu (snd o))
         Cli.options.
Proof. only_flag. Qed.

Lemma only_gpu_flag :
  Forall (fun o => fst o = "--only_gpu"%string \/ keeps_unset only_gpu (snd o))
         Cli.options.
Proof. only_flag. Qed.

Lemma mix_flag :
  Forall (fun o => fst o = "--mix"%string \/ keeps_unset mix (snd o)) Cli.options.
Proof. only_flag. Qed.

Lemma sgd_flag :
  Forall (fun o => fst o = "--sgd"%string \/ keeps_unset sgd (snd o)) Cli.options.
Proof. only_flag. Qed.

Lemma adam_flag :
  Forall (fun o => fst o = "--adam"%string \/ keeps_unset adam (snd o)) Cli.options.
Proof. only_flag. Qed.

Lemma avg_sgd_flag :
  Forall (fun o => fst o = "--avg_sgd"%string \/ keeps_unset avg_sgd (snd o))
         Cli.options.
Proof. only_flag. Qed.

(** No token of the command line may stand for one of the [flags]. *)
Definition names_none (flags : list string) (argv : list string) : Prop :=
  Forall (fun flag => Forall (fun tok => names flag tok = false) argv) flags.

(** X9. The defaults of the command line select no training mode and no
    gradient descent strategy, and only the flags themselves set them: for
    every command line the parser accepts in which no token stands for
    [--only_cpu], [--only_gpu] or [--mix], or none stands for [--sgd],
    [--adam] or [--avg_sgd], the check of [init_device_emb] fails, and
    [train] ends with an exception and with nothing learnt, shuffled,
    started or saved. *)
Theorem cli_requires_mode_and_optimiser
    (py_int : string -> option Z) (py_float : string -> option Q)
    (argv : list string) (a : Args) :
  Cli.parse_args py_int py_float argv = Some a ->
  names_none ["--only_cpu"; "--only_gpu"; "--mix"]%string argv
  \/ names_none ["--sgd"; "--adam"; "--avg_sgd"]%string argv ->
  forall (shuffle_walks : nat -> list walk -> list walk)
         (rand : nat -> nat -> nat) (fuel : nat) (ds : Dataset) (w : World),
    (exists msg, init_device_emb a w = (Raise (Py.AssertionError msg), w))
    /\ (exists e, train shuffle_walks rand fuel a ds w = (Raise e, w)).
Proof.
  intros Hparse Hnone shuffle_walks rand fuel ds w.
  unfold Cli.parse_args in Hparse.
  assert (Hbad : ~ valid_config a).
  { unfold valid_config, exactly_one.
    destruct Hnone as [Hn|Hn]; unfold names_none in Hn;
      apply Forall_cons_iff in Hn; destruct Hn as [H1 Hn];
      apply Forall_cons_iff in Hn; destruct Hn as [H2 Hn];
      apply Forall_cons_iff in Hn; destruct Hn as [H3 _].
    - pose proof (parse_keeps_unset py_int py_float _ only_cpu only_cpu_flag
                    (length argv) argv Cli.defaults a (le_n _) eq_refl H1 Hparse).
      pose proof (parse_keeps_unset py_int py_float _ only_gpu only_gpu_flag
                    (length argv) argv Cli.defaults a (le_n _) eq_refl H2 Hparse).
      pose proof (parse_keeps_unset py_int py_float _ mix mix_flag
                    (length argv) argv Cli.defaults a (le_n _) eq_refl H3 Hparse).
      intuition congruence.
    - pose proof (parse_keeps_unset py_int py_float _ sgd sgd_flag
                    (length argv) argv Cli.defaults a (le_n _) eq_refl H1 Hparse).
      pose proof (parse_keeps_unset py_int py_float _ adam adam_flag
                    (length argv) argv Cli.defaults a (le_n _) eq_refl H2 Hparse).
      pose proof (parse_keeps_unset py_int py_float _ avg_sgd avg_sgd_flag
                    (length argv) argv Cli.defaults a (le_n _) eq_refl H3 Hparse).
      intuition congruence. }
  apply (init_device_emb_raises a w) in Hbad. destruct Hbad as [msg Hmsg].
  split; [eauto|].
  unfold train. destruct (num_procs a >? 1).
  - exists (Py.AssertionError msg).
    apply (mp_start_invalid shuffle_walks a w msg Hmsg).
  - unfold fast_train. cbv zeta. unfold bind at 1, or_zero_division.
    destruct (Py.ceil_div (net_len ds * num_walks a) (batch_size a)).
    + unfold ret at 1. unfold bind at 1. rewrite Hmsg. eauto.
    + unfold raise. eauto.
Qed.

(** A command line with a training mode and no gradient descent strategy:
    accepted by the parser, refused by the check. *)
Lemma cli_requires_mode_and_optimiser_witness :
  exists a,
    Cli.parse_args (fun _ => Some 2) (fun _ => Some (1 # 2))
      ["--only_cpu"; "--batch_size"; "2"]%string = Some a
    /\ exists e,
         train (fun _ l => l) (fun _ _ => 0%nat) 5 a (mkDataset 3 []) (example_world 3)
         = (Raise e, example_world 3).
Proof.
  eexists. split; [vm_compute; reflexivity|].
  refine (proj2 (cli_requires_mode_and_optimiser (fun _ => Some 2)
                   (fun _ => Some (1 # 2)) ["--only_cpu"; "--batch_size"; "2"]%string
                   _ eq_refl _ (fun _ l => l) (fun _ _ => 0%nat) 5 (mkDataset 3 [])
                   (example_world 3))).
  right. unfold names_none. repeat constructor.
Defined.

(* ------------------------------------------------------------------ *)
(** ** The progress test can only end a run *)

(** How a run with the progress test, ended in [(rl, wl)], stands to the
    run without it from the same state [w], ended in [(ru, wu)]: the same
    outcome and state; or the test has raised, and the calls made up to
    there are the first of those the run without it makes. *)
Definition cut_short {A B : Type} (f : A -> B) (w : World)
    (rl : result A) (wl : World) (ru : result B) (wu : World) : Prop :=
  (ru = result_map f rl /\ wu = wl)
  \/ (rl = Raise Py.ZeroDivisionError
      /\ exists new rest,
           learn_log wl = learn_log w ++ new
           /\ learn_log wu = learn_log wl ++ rest).

Lemma decayed_lr_state (a : Args) (max_i i : Z) (w : World) :
  snd (decayed_lr a max_i i w) = w.
Proof. unfold decayed_lr. destruct (max_i =? 0); reflexivity. Qed.

Lemma or_zero_division_state {A : Type} (o : option A) (w : World) :
  snd (or_zero_division o w) = w.
Proof. destruct o; reflexivity. Qed.

(** The progress test leaves the state as it is, and raises nothing but
    ZeroDivisionError. *)
Lemma print_progress_state (a : Args) (gpu_id : option Z) (i : Z) (out : list line)
    (w : World) :
  (exists out', print_progress a gpu_id i out w = (Ret out', w))
  \/ print_progress a gpu_id i out w = (Raise Py.ZeroDivisionError, w).
Proof.
  unfold print_progress, bind, or_zero_division, Py.mod_, ret, raise.
  destruct (i >? 0); [|eauto].
  destruct (print_interval a =? 0); eauto.
Qed.

Section CutShort.

Variable shuffle_walks : nat -> list walk -> list walk.
Variable rand : nat -> nat -> nat.
Variables (a : Args) (ds : Dataset).

Lemma training_loop_cut_short (walks : list walk) (gpu_id : option Z)
    (num_batches num_pos max_i : Z) (fuel : nat) :
  forall (i : Z) (out : list line) (w : World)
         (rl : result (Z * list line)) (wl : World) (ru : result Z) (wu : World),
    training_loop_logged rand fuel a ds walks gpu_id num_batches num_pos max_i i out w
    = (rl, wl) ->
    training_loop rand fuel a ds walks num_batches num_pos max_i i w = (ru, wu) ->
    cut_short fst w rl wl ru wu.
Proof.
  induction fuel as [|fuel IH]; intros i out w rl wl ru wu El Eu.
  - simpl in El, Eu. injection El as <- <-. injection Eu as <- <-. now left.
  - rewrite training_loop_logged_S in El. rewrite training_loop_S in Eu.
    unfold bind at 1 in El. unfold bind at 1 in Eu.
    pose proof (decayed_lr_state a max_i i w) as S1.
    destruct (decayed_lr a max_i i w) as [[rate|e|] w1]; simpl in S1; subst w1;
      [| injection El as <- <-; injection Eu as <- <-; now left
       | injection El as <- <-; injection Eu as <- <-; now left].
    unfold bind at 1 in El. unfold bind at 1 in Eu.
    pose proof (or_zero_division_state (Py.mod_ i num_batches) w) as S2.
    destruct (or_zero_division (Py.mod_ i num_batches) w) as [[i_|e|] w1];
      simpl in S2; subst w1;
      [| injection El as <- <-; injection Eu as <- <-; now left
       | injection El as <- <-; injection Eu as <- <-; now left].
    cbv zeta in El, Eu.
    destruct (Nat.eqb (length (Py.slice walks (i_ * batch_size a)
                                 ((1 + i_) * batch_size a))) 0).
    { unfold ret in El, Eu. injection El as <- <-. injection Eu as <- <-. now left. }
    unfold bind at 1 in El. unfold bind at 1 in Eu.
    match type of Eu with
    | context [match ?m w with _ => _ end] =>
        destruct (m w) as [r1 w1] eqn:E3
    end.
    apply learn_step_spec in E3. destruct E3 as (_ & _ & Hr1).
    destruct r1 as [[]|e|];
      [| injection El as <- <-; injection Eu as <- <-; now left | contradiction].
    destruct Hr1 as (c & Hlog1 & _).
    unfold bind at 1 in El.
    destruct (print_progress_state a gpu_id (i + 1) out w1) as [[out' Hp]|Hp];
      rewrite Hp in El.
    + destruct (i_ =? num_batches - 1).
      * unfold ret in El, Eu. injection El as <- <-. injection Eu as <- <-. now left.
      * destruct (IH _ _ _ _ _ _ _ El Eu) as [H|(Hr & new & rest & Hl & Hu)];
          [now left|].
        right. split; [exact Hr|]. exists ([c] ++ new), rest.
        split; [|exact Hu]. now rewrite Hl, Hlog1, app_assoc.
    + injection El as <- <-. right. split; [reflexivity|].
      destruct (i_ =? num_batches - 1).
      * unfold ret in Eu. injection Eu as <- <-. exists [c], [].
        split; [exact Hlog1 | now rewrite app_nil_r].
      * apply training_loop_log in Eu. destruct Eu as (rest & Hu & _).
        exists [c], rest. split; [exact Hlog1 | exact Hu].
Qed.

Lemma fast_train_sp_cut_short (fuel : nat) (walks : list walk) (gpu_id : Z)
    (w : World) :
  let l := fast_train_sp_logged rand fuel a ds walks gpu_id w in
  let u := fast_train_sp rand fuel a ds walks gpu_id w in
  cut_short (fun _ => tt) w (fst l) (snd l) (fst u) (snd u).
Proof.
  cbv zeta.
  destruct (fast_train_sp_logged rand fuel a ds walks gpu_id w) as [rl wl] eqn:El.
  destruct (fast_train_sp rand fuel a ds walks gpu_id w) as [ru wu] eqn:Eu.
  simpl fst. simpl snd.
  unfold fast_train_sp_logged, bind at 1 in El. unfold fast_train_sp, bind at 1 in Eu.
  pose proof (or_zero_division_state
                (Py.ceil_div (Z.of_nat (length walks)) (batch_size a)) w) as S1.
  destruct (or_zero_division
              (Py.ceil_div (Z.of_nat (length walks)) (batch_size a)) w)
    as [[nb|e|] w1]; simpl in S1; subst w1;
    [| injection El as <- <-; injection Eu as <- <-; now left
     | injection El as <- <-; injection Eu as <- <-; now left].
  cbv zeta in El, Eu. unfold bind in El, Eu.
  destruct (training_loop_logged rand fuel a ds walks (Some gpu_id) nb (num_pos_of a)
              (iterations a * nb) 0 [Line_num_batches nb (Some gpu_id)] w)
    as [rl1 wl1] eqn:El1.
  destruct (training_loop rand fuel a ds walks nb (num_pos_of a)
              (iterations a * nb) 0 w) as [ru1 wu1] eqn:Eu1.
  destruct (training_loop_cut_short _ _ _ _ _ _ _ _ _ _ _ _ _ El1 Eu1)
    as [[-> ->]|(-> & new & rest & Hl & Hu)].
  - left. destruct rl1 as [p|e|]; simpl in Eu; unfold ret in El;
      injection El as <- <-; injection Eu as <- <-; auto.
  - injection El as <- <-. right. split; [reflexivity|]. exists new, rest.
    split; [exact Hl|].
    destruct ru1; unfold ret in Eu; injection Eu as <- <-; exact Hu.
Qed.

Lemma epochs_cut_short (fuel : nat) (num_batches num_pos max_i : Z) (n : nat) :
  forall (iteration i : Z) (out : list line) (w : World)
         (rl : result (Z * list line)) (wl : World) (ru : result Z) (wu : World),
    epochs_logged shuffle_walks rand n fuel a ds num_batches num_pos max_i iteration
      i out w = (rl, wl) ->
    epochs shuffle_walks rand n fuel a ds num_batches num_pos max_i i w = (ru, wu) ->
    cut_short fst w rl wl ru wu.
Proof.
  induction n as [|n IH]; intros iteration i out w rl wl ru wu El Eu.
  - simpl in El, Eu. unfold ret in El, Eu.
    injection El as <- <-. injection Eu as <- <-. now left.
  - rewrite epochs_logged_S in El. simpl epochs in Eu.
    unfold bind at 1, shuffle_dataset in El. unfold bind at 1, shuffle_dataset in Eu.
    unfold bind at 1, get_walks in El. unfold bind at 1, get_walks in Eu.
    cbv beta iota in El, Eu. simpl ds_walks in El, Eu.
    set (ws1 := shuffle_walks (n_shuffles w) (ds_walks w)) in *.
    set (w1 := mkWorld ws1 (learn_log w) (S (n_shuffles w)) (n_draws w)
                 (spawned w) (saved w)) in *.
    unfold bind at 1 in El. unfold bind at 1 in Eu.
    destruct (training_loop_logged rand fuel a ds ws1 None num_batches num_pos max_i i
                (out ++ [Line_iteration (iteration + 1)]) w1) as [rl1 wl1] eqn:El1.
    destruct (training_loop rand fuel a ds ws1 num_batches num_pos max_i i w1)
      as [ru1 wu1] eqn:Eu1.
    pose proof Eu1 as Hlog1. apply training_loop_log in Hlog1.
    destruct Hlog1 as (new1 & Hlog1 & _). simpl in Hlog1.
    destruct (training_loop_cut_short _ _ _ _ _ _ _ _ _ _ _ _ _ El1 Eu1)
      as [[-> ->]|(-> & new & rest & Hl & Hu)].
    + destruct rl1 as [p|e|]; simpl in Eu;
        [| injection El as <- <-; injection Eu as <- <-; now left
         | injection El as <- <-; injection Eu as <- <-; now left].
      destruct (IH _ _ _ _ _ _ _ _ El Eu) as [H|(Hr & new & rest & Hl & Hu)];
        [now left|].
      right. split; [exact Hr|]. exists (new1 ++ new), rest.
      split; [|exact Hu]. now rewrite Hl, Hlog1, app_assoc.
    + injection El as <- <-. right. split; [reflexivity|].
      simpl in Hl. exists new.
      destruct ru1 as [i1|e|].
      * apply epochs_log in Eu. destruct Eu as (new2 & Hlog2 & _).
        exists (rest ++ new2). split; [exact Hl|].
        now rewrite Hlog2, Hu, app_assoc.
      * injection Eu as <- <-. exists rest. auto.
      * injection Eu as <- <-. exists rest. auto.
Qed.

Lemma fast_train_cut_short (fuel : nat) (w : World) :
  let l := fast_train_logged shuffle_walks rand fuel a ds w in
  let u := fast_train shuffle_walks rand fuel a ds w in
  cut_short (fun _ => tt) w (fst l) (snd l) (fst u) (snd u).
Proof.
  cbv zeta.
  destruct (fast_train_logged shuffle_walks rand fuel a ds w) as [rl wl] eqn:El.
  destruct (fast_train shuffle_walks rand fuel a ds w) as [ru wu] eqn:Eu.
  simpl fst. simpl snd.
  unfold fast_train_logged in El. unfold fast_train in Eu. cbv zeta in El, Eu.
  unfold bind at 1 in El. unfold bind at 1 in Eu.
  pose proof (or_zero_division_state
                (Py.ceil_div (net_len ds * num_walks a) (batch_size a)) w) as S1.
  destruct (or_zero_division
              (Py.ceil_div (net_len ds * num_walks a) (batch_size a)) w)
    as [[nb|e|] w1]; simpl in S1; subst w1;
    [| injection El as <- <-; injection Eu as <- <-; now left
     | injection El as <- <-; injection Eu as <- <-; now left].
  unfold bind at 1 in El. unfold bind at 1 in Eu.
  destruct (init_device_emb_cases a w) as [Hi|[msg Hi]].
  2:{ unfold init_device_emb_logged, bind in El. rewrite Hi in El, Eu.
      injection El as <- <-. injection Eu as <- <-. now left. }
  rewrite (init_device_emb_logged_valid a _ w Hi) in El. rewrite Hi in Eu.
  unfold bind at 1 in El. unfold bind at 1 in Eu.
  destruct (epochs_logged shuffle_walks rand (Z.to_nat (iterations a)) fuel a ds nb
              (num_pos_of a) (iterations a * nb) 0 0
              ([Line_num_batches nb None] ++ [device_line a]) w)
    as [rl1 wl1] eqn:El1.
  destruct (epochs shuffle_walks rand (Z.to_nat (iterations a)) fuel a ds nb
              (num_pos_of a) (iterations a * nb) 0 w) as [ru1 wu1] eqn:Eu1.
  destruct (epochs_cut_short _ _ _ _ _ _ _ _ _ _ _ _ _ El1 Eu1)
    as [[-> ->]|(-> & new & rest & Hl & Hu)].
  - left. destruct rl1 as [p|e|]; simpl in Eu;
      unfold bind, save_embedding, ret in El; unfold save_embedding in Eu;
      injection El as <- <-; injection Eu as <- <-; auto.
  - injection El as <- <-. right. split; [reflexivity|]. exists new, rest.
    split; [exact Hl|].
    destruct ru1; unfold save_embedding in Eu; injection Eu as <- <-; exact Hu.
Qed.

End CutShort.

(** X10. The progress test of lines 143 and 195 never changes which
    learning calls are made; it can only end the run. For every input,
    whatever the print interval, a run of [fast_train_sp] and a run of
    [fast_train] either end with the outcome and in the state of the run
    without the progress block, or end in the ZeroDivisionError of the
    test, and then the learning calls made are the first of those the run
    without the block makes. *)
Theorem progress_test_cuts_short
    (shuffle_walks : nat -> list walk -> list walk) (rand : nat -> nat -> nat)
    (fuel : nat) (a : Args) (ds : Dataset) (walks : list walk) (gpu_id : Z)
    (w : World) :
  (let l := fast_train_sp_logged rand fuel a ds walks gpu_id w in
   let u := fast_train_sp rand fuel a ds walks gpu_id w in
   (result_map (fun _ => tt) (fst l), snd l) = u
   \/ (fst l = Raise Py.ZeroDivisionError
       /\ exists rest, new_calls w (snd u) = new_calls w (snd l) ++ rest))
  /\ (let l := fast_train_logged shuffle_walks rand fuel a ds w in
      let u := fast_train shuffle_walks rand fuel a ds w in
      (result_map (fun _ => tt) (fst l), snd l) = u
      \/ (fst l = Raise Py.ZeroDivisionError
          /\ exists rest, new_calls w (snd u) = new_calls w (snd l) ++ rest)).
Proof.
  assert (H : forall (A : Type) (l : result A * World) (u : result unit * World),
             cut_short (fun _ => tt) w (fst l) (snd l) (fst u) (snd u) ->
             (result_map (fun _ => tt) (fst l), snd l) = u
             \/ (fst l = Raise Py.ZeroDivisionError
                 /\ exists rest, new_calls w (snd u) = new_calls w (snd l) ++ rest)).
  { intros A [rl wl] [ru wu]. simpl.
    intros [[-> ->]|(-> & new & rest & Hl & Hu)]; [now left|].
    right. split; [reflexivity|]. exists rest.
    rewrite (new_calls_app w wl new Hl).
    apply new_calls_app. now rewrite Hu, Hl, app_assoc. }
  split; apply H.
  - apply fast_train_sp_cut_short.
  - apply fast_train_cut_short.
Qed.
